(** * CDA element finder: expression conversion, tree matching and
      template-scope resolution

    A shallow embedding of [cda_element_finder.py] (class [CDAElementFinder])
    and the properties of its flat and grouped evaluation modes. *)

From Stdlib Require Import String Ascii List Bool Arith Lia Sorted.
Import ListNotations.
Open Scope list_scope.
Open Scope string_scope.

(* ================================================================== *)
(** * Python [str] methods used by the source *)
(* ================================================================== *)

Module PyStr.

(** [s.startswith(p)] *)
Definition startswith (s p : string) : bool := String.prefix p s.

(** [s[n:]] *)
Fixpoint drop (n : nat) (s : string) : string :=
  match n, s with
  | S k, String _ s' => drop k s'
  | _, _ => s
  end.

(** [s.endswith(p)] *)
Definition endswith (s p : string) : bool :=
  Nat.leb (String.length p) (String.length s)
  && String.eqb (drop (String.length s - String.length p) s) p.

(** [sub in s] *)
Fixpoint contains (sub s : string) : bool :=
  String.prefix sub s ||
  match s with
  | EmptyString => false
  | String _ s' => contains sub s'
  end.

(** [sep.join(parts)] *)
Fixpoint join (sep : string) (parts : list string) : string :=
  match parts with
  | [] => ""
  | [p] => p
  | p :: ps => p ++ sep ++ join sep ps
  end.

(** [s.split(sep)] for a non-empty separator: the pieces between the
    non-overlapping occurrences of [sep], scanned from the left.  [skip]
    counts the characters of an occurrence still to be passed over and
    [cur] is the piece being collected. *)
Fixpoint split_go (sep s : string) (skip : nat) (cur : string) : list string :=
  match s with
  | EmptyString => [cur]
  | String c s' =>
      match skip with
      | S k => split_go sep s' k cur
      | O =>
          if String.prefix sep s
          then cur :: split_go sep s' (String.length sep - 1) ""
          else split_go sep s' 0 (cur ++ String c "")
      end
  end.

Definition split (sep s : string) : list string := split_go sep s 0 "".

(** [s.split(sep)[0]] *)
Definition split_first (sep s : string) : string := hd "" (split sep s).

(** [s.split(sep)[-1]] *)
Definition split_last (sep s : string) : string := last (split sep s) "".

(** [s.rsplit(sep, 1)]: one split at the last occurrence of [sep]; the
    result has one piece when [sep] does not occur.  The separators of the
    source (slash followed by at-sign) cannot overlap themselves, so the last occurrence from
    the right is the last one met from the left. *)
Definition rsplit1 (sep s : string) : list string :=
  match rev (split sep s) with
  | [] => [s]
  | [_] => [s]
  | lst :: rinit => [join sep (rev rinit); lst]
  end.

(** [s.lstrip(c)] for a one-character set *)
Fixpoint lstrip (c : ascii) (s : string) : string :=
  match s with
  | String x s' => if Ascii.eqb x c then lstrip c s' else s
  | EmptyString => s
  end.

(** [x in xs] for a list of strings *)
Definition mem (x : string) (xs : list string) : bool :=
  existsb (String.eqb x) xs.

(** truth value of a string: non-empty *)
Definition truthy (s : string) : bool :=
  match s with EmptyString => false | _ => true end.

End PyStr.

(* ================================================================== *)
(** * The regular expressions of the source

    Every pattern the source hands to [re] is a sequence of literals,
    single character classes and greedy repetitions of one character class,
    with at most one final [$].  [mt] is the backtracking matcher of such a
    sequence: it returns, for each atom, the text the atom consumed (a
    capturing group of the source always wraps exactly one atom) and the
    input left over. *)
(* ================================================================== *)

Module Re.

Inductive atom : Type :=
| Lit (s : string)              (* literal text *)
| One (c : ascii -> bool)       (* one character of a class *)
| Many1 (c : ascii -> bool)     (* class+, greedy *)
| Many0 (c : ascii -> bool)     (* class*, greedy *)
| Eos.                          (* $ *)

(** [\w] on ASCII text *)
Definition is_word (c : ascii) : bool :=
  let n := nat_of_ascii c in
  (Nat.leb 48 n && Nat.leb n 57) || (Nat.leb 65 n && Nat.leb n 90)
  || (Nat.leb 97 n && Nat.leb n 122) || Nat.eqb n 95.

(** the double quote character *)
Definition dquote : ascii := ascii_of_nat 34.

(** the class of the two quote characters, single and double *)
Definition is_quote (c : ascii) : bool :=
  Ascii.eqb c "'" || Ascii.eqb c dquote.

(** the complement of the quote class *)
Definition not_quote (c : ascii) : bool := negb (is_quote c).

(** [[^)]] *)
Definition not_rparen (c : ascii) : bool := negb (Ascii.eqb c ")").

(** [.] : any character but a newline *)
Definition dot (c : ascii) : bool := negb (Nat.eqb (nat_of_ascii c) 10).

Definition seg_result : Type := (list string * string)%type.

Definition with_seg (seg : string) (r : option seg_result) : option seg_result :=
  match r with
  | Some (segs, rest) => Some (seg :: segs, rest)
  | None => None
  end.

(** Greedy repetition: take as many characters of the class as possible,
    then give them back one by one until the continuation [k] succeeds. *)
Fixpoint rep (c : ascii -> bool) (k : string -> option seg_result) (s : string)
  : option (string * seg_result) :=
  match s with
  | String x s' =>
      if c x then
        match rep c k s' with
        | Some (seg, r) => Some (String x seg, r)
        | None => option_map (pair "") (k s)
        end
      else option_map (pair "") (k s)
  | EmptyString => option_map (pair "") (k s)
  end.

Definition push_seg (r : option (string * seg_result)) : option seg_result :=
  match r with
  | Some (seg, (segs, rest)) => Some (seg :: segs, rest)
  | None => None
  end.

(** [$] without [re.MULTILINE]: the end of the string, or just before a
    newline that ends the string *)
Definition at_end (s : string) : bool :=
  match s with
  | EmptyString => true
  | String x EmptyString => Nat.eqb (nat_of_ascii x) 10
  | _ => false
  end.

(** match the pattern at the start of [s] *)
Fixpoint mt (p : list atom) (s : string) {struct p} : option seg_result :=
  match p with
  | [] => Some ([], s)
  | a :: p' =>
      match a with
      | Lit l =>
          if String.prefix l s
          then with_seg l (mt p' (PyStr.drop (String.length l) s))
          else None
      | One c =>
          match s with
          | String x s' => if c x then with_seg (String x "") (mt p' s') else None
          | EmptyString => None
          end
      | Many1 c =>
          match s with
          | String x s' =>
              if c x then
                match rep c (mt p') s' with
                | Some (seg, (segs, rest)) => Some (String x seg :: segs, rest)
                | None => None
                end
              else None
          | EmptyString => None
          end
      | Many0 c => push_seg (rep c (mt p') s)
      | Eos => if at_end s then with_seg "" (mt p' s) else None
      end
  end.

(** One match: the text before it, the per-atom segments, the text after. *)
Record found : Type := mkFound {
  before : string;
  segs : list string;
  after : string
}.

(** [group(i)] for a group wrapping atom number [i] *)
Definition seg (m : found) (i : nat) : string := nth i (segs m) "".

(** [re.search(p, s)]: the leftmost start at which the pattern matches *)
Fixpoint search_from (p : list atom) (s pre : string) : option found :=
  match mt p s with
  | Some (sg, rest) => Some (mkFound pre sg rest)
  | None =>
      match s with
      | EmptyString => None
      | String c s' => search_from p s' (pre ++ String c "")
      end
  end.

Definition search (p : list atom) (s : string) : option found :=
  search_from p s "".

(** [re.sub(p, repl, s)] with a literal replacement: every non-overlapping
    match, from the left, is replaced.  [skip] counts the characters of the
    current match still to be dropped.  The patterns of the source all
    contain a literal, so no match is empty. *)
Fixpoint sub_go (p : list atom) (repl s : string) (skip : nat) : string :=
  match s with
  | EmptyString => ""
  | String c s' =>
      match skip with
      | S k => sub_go p repl s' k
      | O =>
          match mt p s with
          | Some (sg, _) =>
              match String.length (String.concat "" sg) with
              | O => String c (sub_go p repl s' 0)
              | S n => repl ++ sub_go p repl s' n
              end
          | None => String c (sub_go p repl s' 0)
          end
      end
  end.

Definition sub (p : list atom) (repl s : string) : string := sub_go p repl s 0.

End Re.

(* ================================================================== *)
(** * The element tree of [xml.etree.ElementTree]

    An element has a tag (written [{uri}local] when it is in a namespace), an
    optional text, its attributes and its children in document order.  The
    library compares elements by identity: a node is an element together with
    its position, the list of child indices that leads to it from the root of
    the parsed document. *)
(* ================================================================== *)

Module ET.

#[warnings="-register-all"]
Inductive Element : Type := mkElement {
  tag : string;
  text : option string;
  attrib : list (string * string);
  children : list Element
}.

Record Node : Type := mkNode {
  node_path : list nat;
  node_elem : Element
}.

Fixpoint path_eqb (p q : list nat) : bool :=
  match p, q with
  | [], [] => true
  | i :: p', j :: q' => Nat.eqb i j && path_eqb p' q'
  | _, _ => false
  end.

(** [a == b] on elements: identity *)
Definition same_node (a b : Node) : bool :=
  path_eqb (node_path a) (node_path b).

(** [attrib.get(k)] *)
Fixpoint get (k : string) (a : list (string * string)) : option string :=
  match a with
  | [] => None
  | (k', v) :: a' => if String.eqb k' k then Some v else get k a'
  end.

(** [for child in elem], the children numbered from [i] *)
Fixpoint index_children (p : list nat) (i : nat) (cs : list Element) : list Node :=
  match cs with
  | [] => []
  | c :: cs' => mkNode (p ++ [i])%list c :: index_children p (S i) cs'
  end.

Definition child_nodes (n : Node) : list Node :=
  index_children (node_path n) 0 (children (node_elem n)).

(** [elem.iter()]: the element, then its descendants, in pre-order *)
Fixpoint iter_elem (p : list nat) (e : Element) : list Node :=
  match e with
  | mkElement _ _ _ cs =>
      mkNode p e ::
      (fix go (i : nat) (l : list Element) : list Node :=
         match l with
         | [] => []
         | c :: l' => (iter_elem (p ++ [i]) c ++ go (S i) l')%list
         end) 0 cs
  end.

Definition iter (n : Node) : list Node := iter_elem (node_path n) (node_elem n).

(** the part of [iter_elem] that walks the children, from index [i] *)
Fixpoint iter_list (p : list nat) (i : nat) (l : list Element) : list Node :=
  match l with
  | [] => []
  | c :: l' => (iter_elem (p ++ [i]) c ++ iter_list p (S i) l')%list
  end.

(** induction on an element with the hypothesis for all its children *)
Fixpoint Element_ind' (P : Element -> Prop)
    (H : forall t x a cs, Forall P cs -> P (mkElement t x a cs))
    (e : Element) : P e :=
  match e with
  | mkElement t x a cs =>
      H t x a cs
        ((fix all (l : list Element) : Forall P l :=
            match l with
            | [] => Forall_nil P
            | c :: l' => Forall_cons c (Element_ind' P H c) (all l')
            end) cs)
  end.

(** the prefix table [self.namespaces] *)
Definition namespaces : list (string * string) :=
  [ ("cda", "urn:hl7-org:v3");
    ("xsi", "http://www.w3.org/2001/XMLSchema-instance");
    ("sdtc", "urn:hl7-org:sdtc");
    ("voc", "http://www.lantanagroup.com/voc") ].

(** the tag that [cda:name] denotes under [namespaces] *)
Definition cda (name : string) : string := "{urn:hl7-org:v3}" ++ name.

Definition has_tag (t : string) (n : Node) : bool :=
  String.eqb (tag (node_elem n)) t.

(** [elem.findall('./cda:NAME', namespaces)], also written without the
    leading [./]: the children with that tag *)
Definition findall_child (n : Node) (t : string) : list Node :=
  filter (has_tag t) (child_nodes n).

(** [elem.find('./cda:NAME', namespaces)]: the first such child *)
Definition find_child (n : Node) (t : string) : option Node :=
  hd_error (findall_child n t).

(** [elem.findall('.//cda:NAME', namespaces)] for a name made of word
    characters: the proper descendants with that tag, in document order *)
Definition findall_desc (n : Node) (t : string) : list Node :=
  filter (has_tag t) (tl (iter n)).

End ET.

Import ET.

(* ================================================================== *)
(** * [CDAElementFinder]: state and expression conversion *)
(* ================================================================== *)

(** An instance attribute that may not have been assigned yet
    ([hasattr] is false), may hold [None], or holds a string. *)
Inductive pyattr : Type :=
| Absent
| PyNone
| Attr (s : string).

(** The two attributes that [_convert_xpath_for_et] assigns on [self].
    [self.namespaces] is constant ([ET.namespaces]) and [self.results] is
    never written after [__init__]. *)
Record Finder : Type := mkFinder {
  _current_templateid : pyattr;
  _current_element_type : pyattr
}.

(** the object right after [__init__] *)
Definition new_finder : Finder := mkFinder Absent Absent.

(** [getattr(self, name, None)] followed by a truth test *)
Definition attr_truthy (a : pyattr) : option string :=
  match a with
  | Attr s => if PyStr.truthy s then Some s else None
  | _ => None
  end.

Definition cda_elements : list string :=
  [ "ClinicalDocument"; "recordTarget"; "patientRole"; "patient";
    "encompassingEncounter"; "observation"; "organizer"; "entry";
    "section"; "component"; "act"; "substanceAdministration"; "name";
    "given"; "family"; "addr"; "city"; "state"; "telecom"; "effectiveTime";
    "title"; "id"; "administrativeGenderCode"; "birthTime"; "raceCode";
    "low"; "high"; "methodCode"; "author"; "time"; "value"; "templateId";
    "country"; "postalCode"; "county"; "streetAddressLine"; "componentOf";
    "location"; "healthCareFacility"; "serviceProviderOrganization"; "statusCode";
    "code"; "displayName"; "codeSystemName"; "procedure"; "participant";
    "participantRole" ].

Definition cda_search_elements : list string :=
  [ "observation"; "act"; "organizer"; "substanceAdministration";
    "encounter"; "procedure" ].

(** word+ [templateId[@root= quote non-quote+ quote ]] : atom 0 is group 1
    (the element type) and atom 3 is group 2 (the identifier) *)
Definition templateid_predicate_re : list Re.atom :=
  [ Re.Many1 Re.is_word; Re.Lit "[templateId[@root="; Re.One Re.is_quote;
    Re.Many1 Re.not_quote; Re.One Re.is_quote; Re.Lit "]]" ].

(** [contains( non-paren+ )] in brackets *)
Definition contains_predicate_re : list Re.atom :=
  [ Re.Lit "[contains("; Re.Many1 Re.not_rparen; Re.Lit ")]" ].

(** [enumerate(xs)] *)
Definition enumerate {A : Type} (xs : list A) : list (nat * A) :=
  combine (seq 0 (List.length xs)) xs.

(** One turn of the loop over [path_parts]: what it appends to
    [processed_parts]. *)
Definition convert_part (path_parts : list string) (i : nat) (part : string)
  : list string :=
  if negb (PyStr.truthy part) then [""]
  else if Nat.eqb i 0 && String.eqb part "ClinicalDocument" then []
  else if Nat.eqb i 1 && String.eqb (hd "" path_parts) "ClinicalDocument" then
    if PyStr.contains "@" part then [part]
    else if PyStr.contains "[" part then
      let element_name := PyStr.split_first "[" part in
      let predicate := PyStr.drop (String.length element_name) part in
      if PyStr.mem element_name cda_elements
      then ["./cda:" ++ element_name ++ predicate]
      else ["./" ++ part]
    else
      if PyStr.mem part cda_elements then ["./cda:" ++ part] else ["./" ++ part]
  else
    if PyStr.contains "@" part then [part]
    else if PyStr.contains "[" part then
      let element_name := PyStr.split_first "[" part in
      let predicate := PyStr.drop (String.length element_name) part in
      if PyStr.mem element_name cda_elements
         && negb (PyStr.startswith element_name "cda:")
      then ["cda:" ++ element_name ++ predicate]
      else [part]
    else
      if PyStr.mem part cda_elements && negb (PyStr.startswith part "cda:")
      then ["cda:" ++ part]
      else [part].

(** The string part of the conversion, after the template predicate has been
    replaced by its element type. *)
Definition convert_steps (converted : string) : string :=
  let path_parts := PyStr.split "/" converted in
  let processed_parts :=
    flat_map (fun ip => convert_part path_parts (fst ip) (snd ip))
             (enumerate path_parts) in
  let converted := PyStr.join "/" processed_parts in
  let converted :=
    if PyStr.startswith converted "/@" then "." ++ converted else converted in
  let converted :=
    if existsb (fun elem => PyStr.startswith converted elem
                            || PyStr.startswith converted ("cda:" ++ elem))
               cda_search_elements
    then ".//" ++ converted else converted in
  Re.sub contains_predicate_re "" converted.

(** [_convert_xpath_for_et]: the new state of [self] and the returned path *)
Definition _convert_xpath_for_et (self : Finder) (xpath : string)
  : Finder * string :=
  match Re.search templateid_predicate_re xpath with
  | Some m =>
      let element_type := Re.seg m 0 in
      let self' := mkFinder (Attr (Re.seg m 3)) (Attr element_type) in
      (self', convert_steps (Re.sub templateid_predicate_re element_type xpath))
  | None =>
      (mkFinder PyNone PyNone, convert_steps xpath)
  end.

(** [_has_templateid_predicate] *)
Definition _has_templateid_predicate (self : Finder) (xpath : string) : bool :=
  match _current_templateid self with
  | Absent => false
  | PyNone => false
  | Attr _ => true
  end.

(* ================================================================== *)
(** * Flat mode: the tree matcher *)
(* ================================================================== *)

(** What the matcher returns for one hit: an element, or the triple
    [(element, attr_name, attr_value)] of an attribute access. *)
Inductive Match : Type :=
| MElem (element : Node)
| MAttr (element : Node) (attr_name attr_value : string).

(** A catalog entry: [xpath] is the one required key, the other string keys
    are in [meta]; [xpath_expressions] is the list that
    [auto_group_xpath_entries] adds to its copy of the entry. *)
Record Entry : Type := mkEntry {
  xpath : string;
  meta : list (string * string);
  entry_xpath_expressions : option (list string)
}.

(** [entry.get(key, '')] *)
Definition entry_get (entry : Entry) (key : string) : string :=
  match ET.get key (meta entry) with
  | Some v => v
  | None => ""
  end.

(** One record of the flat output.  [is_attribute] is [None] when the
    dictionary has no such key. *)
Record FlatRecord : Type := mkFlatRecord {
  original_xpath : string;
  converted_xpath : string;
  section : string;
  data_element : string;
  template : string;
  cardinality : string;
  element_tag : option string;
  element_text : option string;
  element_attributes : list (string * string);
  element_path : option string;
  found : bool;
  is_attribute : option bool
}.

(** [current.getparent() if hasattr(current, 'getparent') else None].
    The elements come from [xml.etree.ElementTree], whose [Element] has no
    [getparent] method (it is a method of lxml elements): the test is false
    for every node and the expression is [None]. *)
Definition getparent_or_None (current : Node) : option Node := None.

(** The [while] loop of [_get_element_path]; [fuel] bounds the number of
    turns. *)
Fixpoint element_path_loop (fuel : nat) (current : option Node)
    (path_parts : list string) : list string :=
  match fuel, current with
  | S f, Some cur =>
      let tag := ET.tag (node_elem cur) in
      let tag := if PyStr.contains "}" tag
                 then nth 1 (PyStr.split "}" tag) "" else tag in
      element_path_loop f (getparent_or_None cur) (tag :: path_parts)
  | _, _ => path_parts
  end.

(** [_get_element_path]: a parent walk visits at most depth + 1 nodes *)
Definition _get_element_path (element : Node) : string :=
  "/" ++ PyStr.join "/"
           (element_path_loop (S (List.length (node_path element)))
                              (Some element) []).

(** does the element carry a [templateId] child whose [root] is a non-empty
    value other than [target]? *)
Definition has_other_templateid (n : Node) (target : string) : bool :=
  existsb (fun template_id_elem =>
             match ET.get "root" (attrib (node_elem template_id_elem)) with
             | Some template_id =>
                 PyStr.truthy template_id && negb (String.eqb template_id target)
             | None => false
             end)
          (findall_child n (cda "templateId")).

(** The [while] loop of [_is_from_nested_template]. *)
Fixpoint from_nested_loop (fuel : nat) (current : option Node)
    (template_root : Node) (target_template_id : string) : bool :=
  match fuel, current with
  | S f, Some cur =>
      if same_node cur template_root then false
      else
        match getparent_or_None cur with
        | None => false
        | Some parent =>
            if negb (same_node parent template_root)
               && has_other_templateid parent target_template_id
            then true
            else from_nested_loop f (Some parent) template_root target_template_id
        end
  | _, _ => false
  end.

(** [_is_from_nested_template] *)
Definition _is_from_nested_template (element template_root : Node)
    (target_template_id : string) : bool :=
  from_nested_loop (S (List.length (node_path element))) (Some element)
                   template_root target_template_id.

(** [clean_part] of [_find_elements_recursive]: the step without its
    namespace prefix and without its predicates *)
Definition clean_part (part : string) : string :=
  let c := if PyStr.contains ":" part then PyStr.split_last ":" part else part in
  PyStr.split_first "[" c.

(** the children that one level of the recursive fallback keeps *)
Definition recursive_step (part : string) (current_elements : list Node)
  : list Node :=
  flat_map (fun elem =>
              filter (fun child =>
                        PyStr.endswith (tag (node_elem child)) (clean_part part)
                        || PyStr.contains (clean_part part) (tag (node_elem child)))
                     (child_nodes elem))
           current_elements.

(** the loop over [parts] of [_find_elements_recursive] *)
Fixpoint recursive_loop (parts : list string) (current_elements : list Node)
  : list Node :=
  match parts with
  | [] => current_elements
  | part :: parts' =>
      if negb (PyStr.truthy part) then recursive_loop parts' current_elements
      else
        match recursive_step part current_elements with
        | [] => []
        | next_elements => recursive_loop parts' next_elements
        end
  end.

(** [_find_elements_recursive] *)
Definition _find_elements_recursive (root : Node) (xpath : string) : list Node :=
  recursive_loop (PyStr.split "/" xpath) [root].

(** the tuple for attribute [a] of [target], when both exist *)
Definition attr_match (target : option Node) (a : string) : list Match :=
  match target with
  | Some n =>
      match ET.get a (attrib (node_elem n)) with
      | Some v => [MAttr n a v]
      | None => []
      end
  | None => []
  end.

Definition elem_match (target : option Node) : list Match :=
  match target with
  | Some n => [MElem n]
  | None => []
  end.

(** [elem.find(first).find(second)] when the first step exists *)
Definition find_child2 (n : Node) (first second : string) : option Node :=
  match find_child n first with
  | Some m => find_child m second
  | None => None
  end.

(** the [value] child, unless [_is_from_nested_template] rejects it *)
Definition value_child (elem : Node) (target_templateid : string) : option Node :=
  match find_child elem (cda "value") with
  | Some value_elem =>
      if _is_from_nested_template value_elem elem target_templateid
      then None else Some value_elem
  | None => None
  end.

(** the attribute tuple of the [value] child: the attribute is tested before
    the nesting check *)
Definition value_attr_match (elem : Node) (target_templateid a : string)
  : list Match :=
  match find_child elem (cda "value") with
  | Some value_elem =>
      match ET.get a (attrib (node_elem value_elem)) with
      | Some v =>
          if _is_from_nested_template value_elem elem target_templateid
          then [] else [MAttr value_elem a v]
      | None => []
      end
  | None => []
  end.

(** [_find_elements_with_templateid] *)
Definition _find_elements_with_templateid (self : Finder) (root : Node)
    (xpath : string) : list Match :=
  match attr_truthy (_current_templateid self),
        attr_truthy (_current_element_type self) with
  | Some target_templateid, Some element_type =>
      let all_elements := findall_desc root (cda element_type) in
      let matching_elements :=
        filter (fun elem =>
                  existsb (fun template =>
                             match ET.get "root" (attrib (node_elem template)) with
                             | Some r => String.eqb r target_templateid
                             | None => false
                             end)
                          (findall_child elem (cda "templateId")))
               all_elements in
      let each (f : Node -> list Match) := flat_map f matching_elements in
      if PyStr.contains "/code" xpath then
        each (fun elem =>
                if PyStr.endswith xpath "/@code"
                then attr_match (find_child elem (cda "code")) "code"
                else if PyStr.endswith xpath "/code"
                then elem_match (find_child elem (cda "code"))
                else [])
      else if PyStr.contains "/value" xpath then
        each (fun elem =>
                if PyStr.endswith xpath "/@value"
                then value_attr_match elem target_templateid "value"
                else if PyStr.endswith xpath "/@code"
                then value_attr_match elem target_templateid "code"
                else if PyStr.endswith xpath "/value"
                then elem_match (value_child elem target_templateid)
                else [])
      else if PyStr.contains "/text" xpath then
        each (fun elem => elem_match (find_child elem (cda "text")))
      else if PyStr.contains "/statusCode" xpath then
        each (fun elem =>
                if PyStr.endswith xpath "/@code"
                then attr_match (find_child elem (cda "statusCode")) "code"
                else elem_match (find_child elem (cda "statusCode")))
      else if PyStr.contains "/methodCode" xpath
              || PyStr.contains "/cda:methodCode" xpath then
        each (fun elem =>
                if PyStr.endswith xpath "/@code"
                then attr_match (find_child elem (cda "methodCode")) "code"
                else elem_match (find_child elem (cda "methodCode")))
      else if PyStr.contains "/effectiveTime/low" xpath
              || PyStr.contains "/cda:effectiveTime/cda:low" xpath then
        each (fun elem =>
                let low_elem :=
                  find_child2 elem (cda "effectiveTime") (cda "low") in
                if PyStr.endswith xpath "/@value"
                then attr_match low_elem "value"
                else elem_match low_elem)
      else if PyStr.contains "/author/time" xpath
              || PyStr.contains "/cda:author/cda:time" xpath then
        each (fun elem =>
                let time_elem := find_child2 elem (cda "author") (cda "time") in
                if PyStr.endswith xpath "/@value"
                then attr_match time_elem "value"
                else elem_match time_elem)
      else map MElem matching_elements
  | _, _ => []
  end.

(** The result of one field lookup inside a template instance: the keys
    [text], [attributes] and [tag], and for an attribute access also
    [attribute_name] and [attribute_value] ([None] when the key is absent). *)
Record FieldResult : Type := mkFieldResult {
  fr_text : option string;
  fr_attributes : list (string * string);
  fr_tag : string;
  attribute_name : option string;
  attribute_value : option string
}.

(** One instance of a template in the grouped output. *)
Record Instance : Type := mkInstance {
  instance_number : nat;
  inst_template_id : option string;
  fields : list (string * list FieldResult);
  inst_xpath_expressions : list string
}.

(** One group of the grouped output. *)
Record Group : Type := mkGroup {
  template_id : option string;
  template_description : string;
  xpath_expressions : list string;
  instance_count : nat;
  instances : list Instance
}.

(** [d[k] = v] on a dictionary kept in insertion order *)
Fixpoint dict_set {V : Type} (d : list (string * V)) (k : string) (v : V)
  : list (string * V) :=
  match d with
  | [] => [(k, v)]
  | (k', v') :: d' =>
      if String.eqb k' k then (k, v) :: d' else (k', v') :: dict_set d' k v
  end.

(** [d.get(k)] *)
Fixpoint dict_get {V : Type} (d : list (string * V)) (k : string) : option V :=
  match d with
  | [] => None
  | (k', v) :: d' => if String.eqb k' k then Some v else dict_get d' k
  end.

Definition elem_result (elem : Node) : FieldResult :=
  mkFieldResult (text (node_elem elem)) (attrib (node_elem elem))
                (tag (node_elem elem)) None None.

Definition attr_result (elem : Node) (attr_name v : string) : FieldResult :=
  mkFieldResult (Some ("@" ++ attr_name ++ "=" ++ v)) [(attr_name, v)]
                (tag (node_elem elem)) (Some attr_name) (Some v).

(** the attribute result of [elem], when it has the attribute *)
Definition attr_results (attr_name : string) (elem : Node) : list FieldResult :=
  match ET.get attr_name (attrib (node_elem elem)) with
  | Some v => [attr_result elem attr_name v]
  | None => []
  end.

(** [_find_template_instances]: every element of [root.iter()] with a
    [templateId] child whose [root] attribute is the identifier *)
Definition has_templateid (template_id : string) (elem : Node) : bool :=
  existsb (fun template =>
             match ET.get "root" (attrib (node_elem template)) with
             | Some r => String.eqb r template_id
             | None => false
             end)
          (findall_child elem (cda "templateId")).

Definition _find_template_instances (root : Node) (template_id : string)
  : list Node :=
  filter (has_templateid template_id) (iter root).

(** [template_elements] of [find_grouped_elements]: the located instances
    for a real template identifier, nothing for [None], the empty string and
    [ungrouped] *)
Definition template_elements_of (root : Node) (template_id : option string)
  : list Node :=
  match template_id with
  | Some t =>
      if PyStr.truthy t && negb (String.eqb t "ungrouped")
      then _find_template_instances root t
      else []
  | None => []
  end.

(** the pattern of [_get_relative_xpath]: the template predicate, then a
    group of any characters up to the end of the string; atom 6 is group 1 *)
Definition relative_xpath_re : list Re.atom :=
  (templateid_predicate_re ++ [Re.Many0 Re.dot; Re.Eos])%list.

(** [_get_relative_xpath] *)
Definition _get_relative_xpath (xpath : string) : string :=
  match Re.search relative_xpath_re xpath with
  | Some m => PyStr.lstrip "/" (Re.seg m 6)
  | None => xpath
  end.

Definition relative_cda_elements : list string :=
  [ "code"; "value"; "text"; "statusCode"; "methodCode"; "effectiveTime";
    "low"; "high"; "author"; "time"; "entryRelationship"; "observation";
    "organizer"; "component"; "section"; "entry"; "act";
    "substanceAdministration"; "participant"; "participantRole"; "id";
    "templateId"; "procedure" ].

(** one turn of the loop of [_convert_relative_xpath] *)
Definition convert_relative_part (part : string) : list string :=
  if negb (PyStr.truthy part) then []
  else if PyStr.startswith part "@" then [part]
  else
    let element_name := PyStr.split_first "[" part in
    let predicate :=
      if PyStr.contains "[" part
      then PyStr.drop (String.length element_name) part else "" in
    if PyStr.mem element_name relative_cda_elements
       && negb (PyStr.startswith element_name "cda:")
    then ["cda:" ++ element_name ++ predicate]
    else [part].

(** [_convert_relative_xpath] *)
Definition _convert_relative_xpath (xpath : string) : string :=
  if negb (PyStr.truthy xpath) then "."
  else
    let converted_parts := flat_map convert_relative_part (PyStr.split "/" xpath) in
    let result :=
      match converted_parts with
      | [] => "."
      | _ => ".//" ++ PyStr.join "/" converted_parts
      end in
    if negb (PyStr.startswith xpath ".")
       && Nat.eqb (List.length converted_parts) 1
    then "./" ++ PyStr.join "/" converted_parts
    else result.

(** [_is_nested_template_element]: is [element] inside (or at) a proper
    descendant of [template_root] that has a [templateId] child? *)
Definition _is_nested_template_element (element template_root : Node) : bool :=
  let nested_templates :=
    filter (fun descendant =>
              negb (same_node descendant template_root)
              && match findall_child descendant (cda "templateId") with
                 | [] => false
                 | _ => true
                 end)
           (iter template_root) in
  existsb (fun nested_template =>
             existsb (fun nested_elem => same_node nested_elem element)
                     (iter nested_template))
          nested_templates.

(** [tid.get('root') != root_template_id] *)
Definition opt_string_neq (a b : option string) : bool :=
  match a, b with
  | Some x, Some y => negb (String.eqb x y)
  | None, None => false
  | _, _ => true
  end.

(** the [while] loop of [_has_different_template_ancestor] *)
Fixpoint different_ancestor_loop (fuel : nat) (current : option Node)
    (element template_root : Node) : bool :=
  match fuel, current with
  | S f, Some cur =>
      if same_node cur template_root then false
      else
        let root_template_id :=
          match findall_child template_root (cda "templateId") with
          | t :: _ => ET.get "root" (attrib (node_elem t))
          | [] => None
          end in
        if existsb (fun tid =>
                      opt_string_neq (ET.get "root" (attrib (node_elem tid)))
                                     root_template_id
                      && negb (same_node cur element))
                   (findall_child cur (cda "templateId"))
        then true
        else different_ancestor_loop f (getparent_or_None cur) element template_root
  | _, _ => false
  end.

(** [_has_different_template_ancestor] *)
Definition _has_different_template_ancestor (element template_root : Node)
  : bool :=
  different_ancestor_loop (S (List.length (node_path element))) (Some element)
                          element template_root.

Definition generic_element_types : list string :=
  [ "observation"; "organizer"; "act" ].

(** [part.split('[')[0].split(':')[-1]] *)
Definition clean_name (part : string) : string :=
  PyStr.split_last ":" (PyStr.split_first "[" part).

(** the loop over [reversed(parts)] of [_extract_field_name], with its
    [break] once two parts are kept *)
Fixpoint meaningful_loop (rparts : list string) (meaningful_parts : list string)
  : list string :=
  match rparts with
  | [] => meaningful_parts
  | part :: rest =>
      if PyStr.truthy part && negb (PyStr.startswith part "templateId") then
        let clean := clean_name part in
        let kept := if PyStr.mem clean generic_element_types
                    then meaningful_parts else clean :: meaningful_parts in
        if Nat.leb 2 (List.length kept) then kept else meaningful_loop rest kept
      else meaningful_loop rest meaningful_parts
  end.

(** [_extract_field_name] *)
Definition _extract_field_name (xpath : string) : string :=
  if PyStr.contains "/@" xpath then
    let attr_name := PyStr.split_last "/@" xpath in
    let element_part := PyStr.split_first "/@" xpath in
    if PyStr.contains "/" element_part then
      let path_parts := PyStr.split "/" element_part in
      match meaningful_loop (rev path_parts) [] with
      | [] => clean_name (last path_parts "") ++ "_" ++ attr_name
      | meaningful_parts => PyStr.join "/" meaningful_parts ++ "/" ++ attr_name
      end
    else attr_name
  else
    let parts := PyStr.split "/" xpath in
    match meaningful_loop (rev parts) [] with
    | [] => clean_name (last parts "")
    | meaningful_parts => PyStr.join "/" meaningful_parts
    end.

Definition template_descriptions : list (string * string) :=
  [ ("2.16.840.1.113883.10.20.22.4.2", "Problem Observation");
    ("2.16.840.1.113883.10.20.22.4.27", "Vital Signs Observation");
    ("2.16.840.1.113883.10.20.22.4.7", "Allergy Observation");
    ("2.16.840.1.113883.10.20.22.4.13", "Medication Activity");
    ("2.16.840.1.113883.10.20.22.4.44", "Lab Result Observation");
    ("2.16.840.1.113883.10.20.22.4.14", "Medication Supply Order");
    ("2.16.840.1.113883.10.20.22.4.16", "Medication Dispense");
    ("2.16.840.1.113883.10.20.22.4.19", "Medication Order");
    ("2.16.840.1.113883.10.20.22.4.49", "Pregnancy Observation");
    ("2.16.840.1.113883.10.20.22.4.78", "Smoking Status Observation");
    ("2.16.840.1.113883.10.20.22.4.280", "Gestational Age Observation") ].

(** [template_descriptions.get(template_id, ...)] with its default *)
Definition describe_template (template_id : option string) : string :=
  match template_id with
  | Some t =>
      match dict_get template_descriptions t with
      | Some d => d
      | None => if PyStr.truthy t then "Template " ++ t else "Ungrouped"
      end
  | None => "Ungrouped"
  end.

(** the pattern of [auto_group_xpath_entries]; atom 2 is group 1 *)
Definition template_root_re : list Re.atom :=
  [ Re.Lit "templateId[@root="; Re.One Re.is_quote; Re.Many1 Re.not_quote;
    Re.One Re.is_quote ].

(* ================================================================== *)
(** * The functions that hand a catalog path to the path engine

    [elem.findall(path, namespaces)] with a path that comes from the catalog
    is a call into the library's path engine, which either returns elements
    below [elem] or raises ([SyntaxError] on a path it cannot parse,
    [KeyError] on a token it has no operation for, such as an attribute
    step).  The engine is the parameter [findall]; [None] is a raised
    exception. *)
(* ================================================================== *)

Section Engine.

Variable findall : Node -> string -> option (list Node).

(** [_find_elements_with_attributes] *)
Definition _find_elements_with_attributes (root : Node) (xpath : string)
  : list Match :=
  if PyStr.contains "/@" xpath then
    match PyStr.rsplit1 "/@" xpath with
    | [element_path; attr_name] =>
        let elements :=
          match findall root element_path with
          | Some elements => elements
          | None => _find_elements_recursive root element_path
          end in
        flat_map (fun elem => attr_match (Some elem) attr_name) elements
    | _ => []
    end
  else [].

(** [_find_elements_by_xpath]: the direct path first; then, in this order,
    the template path when a template identifier is stored, the attribute
    path when the path has an at-sign, and the recursive fallback. *)
Definition _find_elements_by_xpath (self : Finder) (root : Node)
    (xpath : string) : list Match :=
  let direct :=
    match findall root xpath with
    | Some elements => elements
    | None => []
    end in
  match direct with
  | _ :: _ => map MElem direct
  | [] =>
      if _has_templateid_predicate self xpath then
        _find_elements_with_templateid self root xpath
      else if PyStr.endswith xpath "/@value" || PyStr.contains "@" xpath then
        _find_elements_with_attributes root xpath
      else
        map MElem (_find_elements_recursive root xpath)
  end.

(** the record of one hit *)
Definition found_record (entry : Entry) (converted : string) (item : Match)
  : FlatRecord :=
  match item with
  | MAttr element attr_name attr_value =>
      mkFlatRecord (xpath entry) converted
        (entry_get entry "section") (entry_get entry "data_element")
        (entry_get entry "template") (entry_get entry "cardinality")
        (Some (tag (node_elem element)))
        (Some ("@" ++ attr_name ++ "=" ++ attr_value))
        (attrib (node_elem element))
        (Some (_get_element_path element ++ "/@" ++ attr_name))
        true (Some true)
  | MElem element =>
      mkFlatRecord (xpath entry) converted
        (entry_get entry "section") (entry_get entry "data_element")
        (entry_get entry "template") (entry_get entry "cardinality")
        (Some (tag (node_elem element)))
        (text (node_elem element))
        (attrib (node_elem element))
        (Some (_get_element_path element))
        true (Some false)
  end.

(** the record of an expression that matched nothing: the dictionary has
    no [is_attribute] key *)
Definition not_found_record (entry : Entry) (converted : string) : FlatRecord :=
  mkFlatRecord (xpath entry) converted
    (entry_get entry "section") (entry_get entry "data_element")
    (entry_get entry "template") (entry_get entry "cardinality")
    None None [] None false None.

(** The body of the loop of [find_elements] for one entry: the new state
    and the records appended to [results].  Nothing in the body raises:
    the engine calls are made under a [try], and the remaining calls are
    string functions and lookups guarded by a membership test, so the
    handler of the loop is never entered. *)
Definition find_entry (self : Finder) (root : Node) (entry : Entry)
  : Finder * list FlatRecord :=
  let (self', converted) := _convert_xpath_for_et self (xpath entry) in
  let elements := _find_elements_by_xpath self' root converted in
  match elements with
  | [] => (self', [not_found_record entry converted])
  | _ => (self', map (found_record entry converted) elements)
  end.

(** the loop over [xpath_entries] *)
Fixpoint find_entries (self : Finder) (root : Node) (entries : list Entry)
  : Finder * list FlatRecord :=
  match entries with
  | [] => (self, [])
  | entry :: rest =>
      let (self1, rs) := find_entry self root entry in
      let (self2, rss) := find_entries self1 root rest in
      (self2, (rs ++ rss)%list)
  end.

(** [find_elements]; [xml_file] stands for the tree that [ET.parse] builds
    from the file, whose root is at the empty position *)
Definition find_elements (self : Finder) (xml_file : Element)
    (xpath_entries : list Entry) : Finder * list FlatRecord :=
  find_entries self (mkNode [] xml_file) xpath_entries.

(** the descendant search of every current element; an exception of any
    call ends the whole search *)
Fixpoint findall_each (path : string) (current_elements : list Node)
  : option (list (list Node)) :=
  match current_elements with
  | [] => Some []
  | current_elem :: rest =>
      match findall current_elem path with
      | None => None
      | Some candidates =>
          match findall_each path rest with
          | None => None
          | Some more => Some (candidates :: more)
          end
      end
  end.

(** the candidates that [_handle_complex_xpath_with_templateid] keeps *)
Definition not_excluded (template_elem candidate : Node) : bool :=
  negb (negb (same_node candidate template_elem)
        && _has_different_template_ancestor candidate template_elem).

(** The loop over [parts] of [_handle_complex_xpath_with_templateid];
    [None] is an exception of the engine. *)
Fixpoint complex_loop (template_elem : Node) (parts : list string)
    (current_elements : list Node) : option (list FieldResult) :=
  match parts with
  | [] => Some (map elem_result current_elements)
  | part :: parts' =>
      if negb (PyStr.truthy part)
      then complex_loop template_elem parts' current_elements
      else
        match Re.search templateid_predicate_re part with
        | Some m =>
            let element_name := Re.seg m 0 in
            let required_templateid := Re.seg m 3 in
            let next_elements :=
              flat_map (fun current_elem =>
                          filter (fun candidate =>
                                    not_excluded template_elem candidate
                                    && has_templateid required_templateid candidate)
                                 (findall_desc current_elem (cda element_name)))
                       current_elements in
            match next_elements with
            | [] => Some []
            | _ => complex_loop template_elem parts' next_elements
            end
        | None =>
            if PyStr.startswith part "@" then
              Some (flat_map (attr_results (PyStr.drop 1 part)) current_elements)
            else
              match findall_each (".//cda:" ++ part) current_elements with
              | None => None
              | Some found_lists =>
                  match filter (not_excluded template_elem)
                               (concat found_lists) with
                  | [] => Some []
                  | next_elements =>
                      complex_loop template_elem parts' next_elements
                  end
              end
        end
  end.

(** [_handle_complex_xpath_with_templateid] *)
Definition _handle_complex_xpath_with_templateid (template_elem : Node)
    (xpath : string) : option (list FieldResult) :=
  complex_loop template_elem (PyStr.split "/" xpath) [template_elem].

(** [_find_within_template_instance]; an exception inside the [try] leaves
    [results] empty *)
Definition _find_within_template_instance (template_elem : Node)
    (relative_xpath full_xpath : string) : list FieldResult :=
  if negb (PyStr.truthy relative_xpath) then [elem_result template_elem]
  else if PyStr.contains "templateId[@root=" relative_xpath then
    match _handle_complex_xpath_with_templateid template_elem relative_xpath with
    | Some results => results
    | None => []
    end
  else
    let converted_xpath := _convert_relative_xpath relative_xpath in
    if PyStr.contains "/@" converted_xpath then
      match PyStr.rsplit1 "/@" converted_xpath with
      | [element_path; attr_name] =>
          let elements :=
            if PyStr.truthy element_path
            then findall template_elem element_path
            else Some [template_elem] in
          match elements with
          | Some elements =>
              flat_map (attr_results attr_name)
                (filter (fun elem =>
                           negb (_is_nested_template_element elem template_elem))
                        elements)
          | None => []
          end
      | _ => []
      end
    else
      match findall template_elem converted_xpath with
      | Some elements =>
          map elem_result
            (filter (fun elem =>
                       negb (_is_nested_template_element elem template_elem))
                    elements)
      | None => []
      end.

(** the loop over [xpath_entries] that fills [instance_data['fields']] *)
Fixpoint instance_fields (template_elem : Node) (entries : list Entry)
    (fields : list (string * list FieldResult))
  : list (string * list FieldResult) :=
  match entries with
  | [] => fields
  | entry :: rest =>
      let relative_xpath := _get_relative_xpath (xpath entry) in
      let field_results :=
        _find_within_template_instance template_elem relative_xpath
                                       (xpath entry) in
      match field_results with
      | [] => instance_fields template_elem rest fields
      | _ =>
          instance_fields template_elem rest
            (dict_set fields (_extract_field_name (xpath entry)) field_results)
      end
  end.

(** the instance of the [i]-th template element, kept only when it has
    some field *)
Definition instance_of (template_id : option string) (entries : list Entry)
    (i : nat) (template_elem : Node) : list Instance :=
  match instance_fields template_elem entries [] with
  | [] => []
  | fields =>
      [mkInstance (i + 1) template_id fields (map xpath entries)]
  end.

(** [find_grouped_elements] *)
Definition find_grouped_elements (xml_file : Element)
    (xpath_entries : list Entry) (template_id : option string) : Group :=
  let root := mkNode [] xml_file in
  let template_elements := template_elements_of root template_id in
  let instances :=
    flat_map (fun ie => instance_of template_id xpath_entries (fst ie) (snd ie))
             (enumerate template_elements) in
  mkGroup template_id (describe_template template_id)
          (map xpath xpath_entries) (List.length instances) instances.

(** the loop of [auto_group_xpath_entries]: the groups in insertion order
    and the entries without a template identifier *)
Fixpoint auto_group_loop (entries : list Entry)
    (groups : list (string * list Entry)) (ungrouped : list Entry)
  : list (string * list Entry) * list Entry :=
  match entries with
  | [] => (groups, ungrouped)
  | entry :: rest =>
      match Re.search template_root_re (xpath entry) with
      | Some m =>
          let template_id := Re.seg m 2 in
          let enhanced_entry :=
            mkEntry (xpath entry) (meta entry) (Some [xpath entry]) in
          let old :=
            match dict_get groups template_id with
            | Some l => l
            | None => []
            end in
          auto_group_loop rest
            (dict_set groups template_id (old ++ [enhanced_entry])%list)
            ungrouped
      | None => auto_group_loop rest groups (ungrouped ++ [entry])%list
      end
  end.

(** [auto_group_xpath_entries] *)
Definition auto_group_xpath_entries (xpath_entries : list Entry)
  : list (string * list Entry) :=
  let (groups, ungrouped) := auto_group_loop xpath_entries [] [] in
  match ungrouped with
  | [] => groups
  | _ => dict_set groups "ungrouped" ungrouped
  end.

(** [find_elements_with_auto_grouping]: the flat pass runs first (it only
    changes the state), then every group with at least one instance is
    kept *)
Definition find_elements_with_auto_grouping (self : Finder)
    (xml_file : Element) (xpath_entries : list Entry)
  : Finder * list Group :=
  let (self', individual_results) := find_elements self xml_file xpath_entries in
  let grouped_entries := auto_group_xpath_entries xpath_entries in
  (self',
   flat_map (fun kv =>
               let group_result :=
                 find_grouped_elements xml_file (snd kv) (Some (fst kv)) in
               match instances group_result with
               | [] => []
               | _ => [group_result]
               end)
            grouped_entries).

End Engine.

(** the element at a relative position below [e] *)
Fixpoint node_at (e : Element) (rel : list nat) : option Element :=
  match rel with
  | [] => Some e
  | i :: rel' =>
      match nth_error (children e) i with
      | Some c => node_at c rel'
      | None => None
      end
  end.

(* ================================================================== *)
(** * The path engine on location paths without predicates

    [ElementPath.findall] follows [xml.etree.ElementPath.findall] with the
    prefix table [ET.namespaces] on ASCII text: the tokenizer, the
    construction of the selector and its evaluation, for the steps [.],
    [..], [*], [//], tags (with a prefix of the table, written
    [{uri}local], or with the empty namespace [{}local]) and the namespace
    wildcards.  [None] stands for an exception, whatever its class, since
    the callers catch them all: an absolute path, an unknown prefix and a
    double slash followed by another operator raise [SyntaxError]; a token
    without an operation, such as the at-sign of an attribute step, raises
    [KeyError]; a path without any token (the empty path) and a path that
    ends with a double slash raise [TypeError].

    The one construct of the library that this model does not have is the
    predicate: for a path with an opening bracket among its tokens the
    library evaluates the predicate, while [findall] is [None] here.  On
    such paths the model does not describe the library.  The general
    statements take the engine as a parameter, and the concrete evaluations
    hand only paths without predicate to it: they give the same results
    with every engine that agrees with [findall] on those paths (lemma
    [evaluations_use_no_predicate]). *)
(* ================================================================== *)

Module ElementPath.

(** a token of the tokenizer: the operator text and the tag text, one of
    them empty *)
Definition token : Type := (string * string)%type.

(** white space as the pattern of the tokenizer sees it, on ASCII text *)
Definition is_space (c : ascii) : bool :=
  let n := nat_of_ascii c in
  (Nat.leb 9 n && Nat.leb n 13) || (Nat.leb 28 n && Nat.leb n 32).

(** a character that may appear in a tag token *)
Definition is_tag_char (c : ascii) : bool :=
  negb (existsb (Ascii.eqb c) ["/"; "["; "]"; "("; ")"; "@"; "!"; "="]%char
        || is_space c).

(** a character that is an operator by itself *)
Definition is_op_char (c : ascii) : bool :=
  existsb (Ascii.eqb c) ["/"; "."; "*"; ":"; "["; "]"; "("; ")"; "@"; "="]%char.

(** the longest prefix made of characters of a class *)
Fixpoint span (c : ascii -> bool) (s : string) : string :=
  match s with
  | String x s' => if c x then String x (span c s') else ""
  | EmptyString => ""
  end.

(** a quoted string at the start of [s], with its quotes *)
Definition quoted (q : ascii) (s : string) : option string :=
  match s with
  | String x s' =>
      if Ascii.eqb x q then
        let body := span (fun c => negb (Ascii.eqb c q)) s' in
        match PyStr.drop (String.length body) s' with
        | String _ _ => Some (String q body ++ String q "")
        | EmptyString => None
        end
      else None
  | EmptyString => None
  end.

(** a tag token at the start of [s]: an optional [{uri}] and then at least
    one tag character *)
Definition tag_at (s : string) : string :=
  let plain := span is_tag_char s in
  match s with
  | String "{" s' =>
      let uri := span (fun c => negb (Ascii.eqb c "}")) s' in
      match uri, PyStr.drop (String.length uri) s' with
      | String _ _, String "}" s'' =>
          match span is_tag_char s'' with
          | EmptyString => plain
          | local => "{" ++ uri ++ "}" ++ local
          end
      | _, _ => plain
      end
  | _ => plain
  end.

(** the token that starts at [s] and the number of characters it spans, or
    [None] when no alternative of the tokenizer matches here and the
    character is passed over.  A run of white space is the token with both
    texts empty. *)
Definition token_at (s : string) : option (token * nat) :=
  let op (o : string) := Some ((o, ""), String.length o) in
  match quoted "'" s with
  | Some q => op q
  | None =>
  match quoted Re.dquote s with
  | Some q => op q
  | None =>
    if String.prefix "::" s then op "::"
    else if String.prefix "//" s then op "//"
    else if String.prefix ".." s then op ".."
    else if String.prefix "()" s then op "()"
    else if String.prefix "!=" s then op "!="
    else
      match s with
      | EmptyString => None
      | String x _ =>
          if is_op_char x then op (String x "")
          else
            match tag_at s with
            | String _ _ as t => Some (("", t), String.length t)
            | EmptyString =>
                if is_space x
                then Some (("", ""), String.length (span is_space s))
                else None
            end
      end
  end
  end.

(** the tokens of [s], left to right; [skip] counts the characters of the
    current token still to be passed over *)
Fixpoint tokens_go (s : string) (skip : nat) : list token :=
  match s with
  | EmptyString => []
  | String _ s' =>
      match skip with
      | S k => tokens_go s' k
      | O =>
          match token_at s with
          | Some (t, n) => t :: tokens_go s' (n - 1)
          | None => tokens_go s' 0
          end
      end
  end.

(** [xpath_tokenizer]: a tag with a prefix is resolved through the prefix
    table; an unknown prefix raises *)
Definition resolve (t : token) : option token :=
  match snd t with
  | String x _ as tg =>
      if Ascii.eqb x "{" then Some t
      else if PyStr.contains ":" tg then
        let prefix := PyStr.split_first ":" tg in
        match ET.get prefix ET.namespaces with
        | Some uri =>
            Some (fst t, "{" ++ uri ++ "}"
                         ++ PyStr.drop (S (String.length prefix)) tg)
        | None => None
        end
      else Some t
  | EmptyString => Some t
  end.

Fixpoint resolve_all (ts : list token) : option (list token) :=
  match ts with
  | [] => Some []
  | t :: ts' =>
      match resolve t, resolve_all ts' with
      | Some t', Some r => Some (t' :: r)
      | _, _ => None
      end
  end.

(** the steps of a selector *)
Inductive step : Type :=
| Self
| Parent
| Child (tag : string)
| Star
| Descendant (tag : string)
| DescendantStar.

(** the token after a step: a single slash is passed over *)
Definition after_step (ts : list token) : list token :=
  match ts with
  | ("/", _) :: ts' => ts'
  | _ => ts
  end.

(** the construction of the selector; [fuel] bounds the number of steps by
    the number of tokens *)
Fixpoint build (fuel : nat) (ts : list token) : option (list step) :=
  match fuel, ts with
  | _, [] => Some []
  | O, _ => None
  | S f, (op, tg) :: ts' =>
      let continue (st : step) (rest : list token) :=
        match build f (after_step rest) with
        | Some sts => Some (st :: sts)
        | None => None
        end in
      if String.eqb op "" then continue (Child tg) ts'
      else if String.eqb op "*" then continue Star ts'
      else if String.eqb op "." then continue Self ts'
      else if String.eqb op ".." then continue Parent ts'
      else if String.eqb op "//" then
        match ts' with
        | (op2, tg2) :: ts'' =>
            if String.eqb op2 "*" then continue DescendantStar ts''
            else if String.eqb op2 "" then continue (Descendant tg2) ts''
            else None
        | [] => None
        end
      else None
  end.

(** [_is_wildcard_tag] *)
Definition _is_wildcard_tag (tag : string) : bool :=
  String.prefix "{*}" tag || PyStr.endswith tag "}*".

(** [tag[:-1]] *)
Definition without_last (tag : string) : string :=
  String.substring 0 (String.length tag - 1) tag.

(** the test that [_prepare_tag] builds for a wildcard tag, on the tag of
    one element; [None] is the [IndexError] of [el_tag[0]] on an empty
    tag *)
Definition wildcard_test (tag el_tag : string) : option bool :=
  if String.eqb tag "{*}*" then Some true
  else if String.eqb tag "{}*" then
    match el_tag with
    | EmptyString => None
    | String c _ => Some (negb (Ascii.eqb c "{"))
    end
  else if String.prefix "{*}" tag then
    Some (String.eqb el_tag (PyStr.drop 3 tag)
          || PyStr.endswith el_tag (PyStr.drop 2 tag))
  else Some (String.prefix (without_last tag) el_tag).

(** the elements of [l] that pass [wildcard_test], or the exception of the
    first element on which the test raises *)
Fixpoint select_tag (tag : string) (l : list Node) : option (list Node) :=
  match l with
  | [] => Some []
  | elem :: l' =>
      match wildcard_test tag (ET.tag (node_elem elem)), select_tag tag l' with
      | Some true, Some r => Some (elem :: r)
      | Some false, Some r => Some r
      | _, _ => None
      end
  end.

(** a tag in the empty namespace is the bare tag *)
Definition plain_tag (tag : string) : string :=
  if String.prefix "{}" tag then PyStr.drop 2 tag else tag.

(** [parent_map.get(elem)] for the map that [get_parent_map] builds from
    the element on which [findall] was called: the parent of a proper
    descendant of that element *)
Definition parent_of (root elem : Node) : option Node :=
  let p := node_path root in
  if Nat.ltb (List.length p) (List.length (node_path elem)) then
    let rel := removelast (skipn (List.length p) (node_path elem)) in
    match node_at (node_elem root) rel with
    | Some e => Some (mkNode (p ++ rel)%list e)
    | None => None
    end
  else None.

(** the parents of the elements of [l], each one once, in the order in
    which they are first met; [seen] holds those already given *)
Fixpoint parents (root : Node) (seen : list Node) (l : list Node) : list Node :=
  match l with
  | [] => []
  | elem :: l' =>
      match parent_of root elem with
      | Some parent =>
          if existsb (ET.same_node parent) seen then parents root seen l'
          else parent :: parents root (parent :: seen) l'
      | None => parents root seen l'
      end
  end.

(** one step applied to the current result; [root] is the element on which
    [findall] was called *)
Definition select (root : Node) (st : step) (result : list Node)
  : option (list Node) :=
  match st with
  | Self => Some result
  | Parent => Some (parents root [] result)
  | Child t =>
      if _is_wildcard_tag t
      then select_tag t (flat_map ET.child_nodes result)
      else Some (flat_map (fun elem => ET.findall_child elem (plain_tag t)) result)
  | Star => Some (flat_map ET.child_nodes result)
  | Descendant t =>
      if _is_wildcard_tag t
      then select_tag t (flat_map (fun elem => tl (ET.iter elem)) result)
      else Some (flat_map (fun elem => ET.findall_desc elem (plain_tag t)) result)
  | DescendantStar => Some (flat_map (fun elem => tl (ET.iter elem)) result)
  end.

(** the steps applied one after the other *)
Fixpoint run (root : Node) (steps : list step) (result : list Node)
  : option (list Node) :=
  match steps with
  | [] => Some result
  | st :: steps' =>
      match select root st result with
      | Some result' => run root steps' result'
      | None => None
      end
  end.

(** [elem.findall(path, namespaces)] *)
Definition findall (elem : Node) (path : string) : option (list Node) :=
  let path := if PyStr.endswith path "/" then path ++ "*" else path in
  if PyStr.startswith path "/" then None
  else
    match resolve_all (tokens_go path 0) with
    | None => None
    | Some [] => None
    | Some ts =>
        match build (List.length ts) ts with
        | Some steps => run elem steps [elem]
        | None => None
        end
    end.

(** does the path have a predicate: an opening bracket among its tokens *)
Definition has_predicate (path : string) : bool :=
  existsb (fun t => String.eqb (fst t) "[") (tokens_go path 0).

(** the engine that follows [findall] on the paths without predicate and
    [other] on the paths with one.  Every engine that agrees with [findall]
    on the paths without predicate is of this form. *)
Definition with_predicates (other : Node -> string -> option (list Node))
    (elem : Node) (path : string) : option (list Node) :=
  if has_predicate path then other elem path else findall elem path.

End ElementPath.

(* ================================================================== *)
(** * Documents used in the concrete evaluations *)
(* ================================================================== *)

Module Samples.

Definition templateId (r : string) : Element :=
  mkElement (cda "templateId") None [("root", r)] [].

Definition code (c : string) : Element :=
  mkElement (cda "code") None [("code", c)] [].

(** an observation with the template-identifier marker [X1] and one
    [code] child *)
Definition observation (c : string) : Element :=
  mkElement (cda "observation") None [] [templateId "X1"; code c].

(** a document with exactly two such observations, coded [A] and [B] *)
Definition two_observations : Element :=
  mkElement (cda "ClinicalDocument") None [] [observation "A"; observation "B"].

(** the catalog expression of the scenario *)
Definition code_entry : Entry :=
  mkEntry "observation[templateId[@root='X1']]/code/@code" [] None.

(** the same document with a first observation that has no [code] *)
Definition first_without_code : Element :=
  mkElement (cda "ClinicalDocument") None []
    [ mkElement (cda "observation") None [] [templateId "X1"];
      observation "B" ].

(** an observation [X1] whose [code] sits inside a nested observation that
    carries the same identifier [X1] *)
Definition nested_same_id : Element :=
  mkElement (cda "observation") None []
    [ templateId "X1";
      mkElement (cda "observation") None [] [templateId "X1"; code "A"] ].

(** an act [X1] with a [code] of its own, a nested observation [X2] that
    has a [code] and a marked participant, and a marked participant of its
    own *)
Definition nested_act : Element :=
  mkElement (cda "act") None []
    [ templateId "X1";
      code "A";
      mkElement (cda "entryRelationship") None []
        [ mkElement (cda "observation") None []
            [ templateId "X2"; code "B";
              mkElement (cda "participant") None [("typeCode", "SBJ")]
                        [templateId "P1"] ] ];
      mkElement (cda "participant") None [("typeCode", "IND")]
                [templateId "P1"] ].

(** the two observations of the scenario, the first with one more [code]
    below an unmarked [component] *)
Definition extra_code : Element :=
  mkElement (cda "ClinicalDocument") None []
    [ mkElement (cda "observation") None []
        [ templateId "X1"; code "A";
          mkElement (cda "component") None [] [code "Z"] ];
      observation "B" ].

(** the two observations of the scenario and an act that carries the same
    identifier *)
Definition marked_act : Element :=
  mkElement (cda "ClinicalDocument") None []
    [ observation "A"; observation "B";
      mkElement (cda "act") None [] [templateId "X1"; code "C"] ].

(** a document with a title *)
Definition titled : Element :=
  mkElement (cda "ClinicalDocument") None []
    [ mkElement (cda "title") (Some "Report") [] [] ].

End Samples.

(* ================================================================== *)
(** * Vocabulary of the statements *)
(* ================================================================== *)

(** the nodes met on the way down from [e] along [rel]: the child of [e],
    then its child, ..., down to the node at [rel] itself; [e] is not in
    the list *)
Fixpoint chain_below (p : list nat) (e : Element) (rel : list nat) : list Node :=
  match rel with
  | [] => []
  | i :: rel' =>
      match nth_error (children e) i with
      | Some c => mkNode (p ++ [i]) c :: chain_below (p ++ [i]) c rel'
      | None => []
      end
  end.

(** the element part and the attribute name of a lookup inside a template
    instance: the converted relative path, split at its last attribute
    step when it has one *)
Definition lookup_of (relative_xpath : string) : string * option string :=
  let converted_xpath := _convert_relative_xpath relative_xpath in
  if PyStr.contains "/@" converted_xpath then
    match PyStr.rsplit1 "/@" converted_xpath with
    | [element_path; attr_name] => (element_path, Some attr_name)
    | _ => (converted_xpath, None)
    end
  else (converted_xpath, None).

(** the candidates of a lookup: what the engine returns for the element
    part on the template element, nothing when it raises *)
Definition candidates (findall : Node -> string -> option (list Node))
    (template_elem : Node) (relative_xpath : string) : list Node :=
  match findall template_elem (fst (lookup_of relative_xpath)) with
  | Some elements => elements
  | None => []
  end.

(** what a kept candidate contributes to the field: its attribute, when an
    attribute is asked for and the element has it, else the element *)
Definition results_of (attr_name : option string) (elem : Node)
  : list FieldResult :=
  match attr_name with
  | Some a => attr_results a elem
  | None => [elem_result elem]
  end.

(** the node carries a template-identifier marker, whatever its value *)
Definition carries_marker (n : Node) : bool :=
  match findall_child n (cda "templateId") with
  | [] => false
  | _ => true
  end.


(** the tag without its [{uri}] *)
Definition local_name (tag : string) : string :=
  if PyStr.contains "}" tag then PyStr.split_last "}" tag else tag.

(** document order on positions: a node comes before its descendants, and
    the subtree of a child before the subtrees of the later children *)
Fixpoint doc_before (p q : list nat) : Prop :=
  match p, q with
  | [], [] => False
  | [], _ :: _ => True
  | _ :: _, [] => False
  | i :: p', j :: q' => i < j \/ (i = j /\ doc_before p' q')
  end.

(** document order on nodes *)
Definition node_before (a b : Node) : Prop :=
  doc_before (node_path a) (node_path b).

(** equality test between an optional identifier and an identifier *)
Definition is_template (t : option string) (k : string) : bool :=
  match t with
  | Some s => String.eqb s k
  | None => false
  end.

(** is the field map of an occurrence non-empty? *)
Definition has_fields (fs : list (string * list FieldResult)) : bool :=
  match fs with
  | [] => false
  | _ => true
  end.

(* ================================================================== *)
(** * [XPathParser._deduplicate_xpaths] *)
(* ================================================================== *)

(** The loop of [_deduplicate_xpaths]: [seen_xpaths] is only tested for
    membership and extended, so the set is kept as a list. *)
Fixpoint deduplicate_loop (entries : list Entry) (seen_xpaths : list string)
  : list Entry :=
  match entries with
  | [] => []
  | entry :: rest =>
      if PyStr.mem (xpath entry) seen_xpaths
      then deduplicate_loop rest seen_xpaths
      else entry :: deduplicate_loop rest (xpath entry :: seen_xpaths)
  end.

(** [_deduplicate_xpaths] *)
Definition _deduplicate_xpaths (entries : list Entry) : list Entry :=
  deduplicate_loop entries [].

(* ================================================================== *)
(** * [XPathParser._is_valid_xpath] *)
(* ================================================================== *)

(** the class of ASCII letters *)
Definition is_letter (c : ascii) : bool :=
  let n := nat_of_ascii c in
  (Nat.leb 65 n && Nat.leb n 90) || (Nat.leb 97 n && Nat.leb n 122).

(** the class of capitals *)
Definition is_upper (c : ascii) : bool :=
  let n := nat_of_ascii c in Nat.leb 65 n && Nat.leb n 90.

(** the class of digits, on ASCII text *)
Definition is_digit (c : ascii) : bool :=
  let n := nat_of_ascii c in Nat.leb 48 n && Nat.leb n 57.

(** white space as [str] patterns and [str.strip] see it, on ASCII text *)
Definition is_pyspace (c : ascii) : bool :=
  let n := nat_of_ascii c in
  (Nat.leb 9 n && Nat.leb n 13) || (Nat.leb 28 n && Nat.leb n 32).

(** [re.match(pattern, s)]: is there a match at the start of [s]? *)
Definition re_match (p : list Re.atom) (s : string) : bool :=
  match Re.mt p s with
  | Some _ => true
  | None => false
  end.

(** a version number: digits, a dot, digits *)
Definition version_number_re : list Re.atom :=
  [ Re.Many1 is_digit; Re.Lit "."; Re.Many1 is_digit ].

(** an abbreviation: one to three capitals and a white space.  The bounded
    repetition is written out, the longest first. *)
Definition abbreviation_res : list (list Re.atom) :=
  [ [ Re.One is_upper; Re.One is_upper; Re.One is_upper; Re.One is_pyspace ];
    [ Re.One is_upper; Re.One is_upper; Re.One is_pyspace ];
    [ Re.One is_upper; Re.One is_pyspace ] ].

(** just an attribute: an at-sign and word characters up to the end *)
Definition just_attribute_re : list Re.atom :=
  [ Re.Lit "@"; Re.Many1 Re.is_word; Re.Eos ].

(** [invalid_patterns], in the order of the source *)
Definition invalid_patterns : list (list Re.atom) :=
  (version_number_re :: abbreviation_res ++ [just_attribute_re])%list.

(** [_is_valid_xpath] *)
Definition _is_valid_xpath (xpath : string) : bool :=
  if Nat.ltb (String.length xpath) 10 then false
  else if negb (PyStr.contains "/" xpath) && negb (PyStr.contains "@" xpath)
  then false
  else if negb (re_match [Re.One is_letter] xpath) then false
  else if existsb (fun pattern => re_match pattern xpath) invalid_patterns
  then false
  else true.

(* ================================================================== *)
(** * [XPathParser._clean_xpath] *)
(* ================================================================== *)

Definition backslash : ascii := ascii_of_nat 92.

(** the characters that may end an expression: letters, digits and
    slash, brackets, at-sign, equals, both quotes, colon, dot, hyphen and
    underscore *)
Definition is_xpath_char (c : ascii) : bool :=
  is_letter c || is_digit c
  || existsb (Ascii.eqb c)
       ["/"; "["; "]"; "@"; "="; "'"; Re.dquote; ":"; "."; "-"; "_"]%char.

(** a letter or a slash: what may start an expression *)
Definition is_xpath_start (c : ascii) : bool :=
  is_letter c || Ascii.eqb c "/".

(** at the start of the string, one or more characters that cannot start an
    expression *)
Definition leading_junk_re : list Re.atom :=
  [ Re.Many1 (fun c => negb (is_xpath_start c)) ].

(** one or more characters that cannot end an expression, up to the end of
    the string *)
Definition trailing_junk_re : list Re.atom :=
  [ Re.Many1 (fun c => negb (is_xpath_char c)); Re.Eos ].

(** [re.sub] with a pattern that starts with a caret: only a match at the
    start of the string is replaced *)
Definition sub_at_start (p : list Re.atom) (repl s : string) : string :=
  match Re.mt p s with
  | Some (_, rest) => repl ++ rest
  | None => s
  end.

(** [s.replace(c, '')] for one character *)
Fixpoint remove_char (c : ascii) (s : string) : string :=
  match s with
  | EmptyString => ""
  | String x s' =>
      if Ascii.eqb x c then remove_char c s' else String x (remove_char c s')
  end.

(** [s.lstrip()] *)
Fixpoint lstrip_space (s : string) : string :=
  match s with
  | String x s' => if is_pyspace x then lstrip_space s' else s
  | EmptyString => ""
  end.

(** [s.rstrip()] *)
Fixpoint rstrip_space (s : string) : string :=
  match s with
  | EmptyString => ""
  | String x s' =>
      match rstrip_space s' with
      | EmptyString => if is_pyspace x then "" else String x ""
      | r => String x r
      end
  end.

(** [s.strip()] *)
Definition strip (s : string) : string := rstrip_space (lstrip_space s).

(** [_clean_xpath] *)
Definition _clean_xpath (xpath : string) : string :=
  let xpath := sub_at_start leading_junk_re "" xpath in
  let xpath := Re.sub trailing_junk_re "" xpath in
  let xpath := remove_char backslash xpath in
  strip xpath.

(* ================================================================== *)
(** * [OutputFormatter._combine_related_attributes] *)
(* ================================================================== *)

(** An item of the combined list: a field result, with the two keys that
    the combination may add ([None] when the key is absent). *)
Record Item : Type := mkItem {
  item_result : FieldResult;
  related_displayName : option string;
  related_codeSystemName : option string
}.

(** an item as it was, without added key *)
Definition plain (r : FieldResult) : Item := mkItem r None None.

(** [related_fields[key]] when the key is present, else nothing *)
Definition field_list (related_fields : list (string * list FieldResult))
    (key : string) : list FieldResult :=
  match dict_get related_fields key with
  | Some l => l
  | None => []
  end.

(** the value that the item at index [i] of [related_fields[key]] gives for
    the added key: its [attribute_value], or else the attribute [key] of its
    [attributes]; nothing when the key or the index is missing *)
Definition related_value (related_fields : list (string * list FieldResult))
    (key : string) (i : nat) : option string :=
  match dict_get related_fields key with
  | Some l =>
      match nth_error l i with
      | Some other =>
          match attribute_value other with
          | Some v => Some v
          | None => ET.get key (fr_attributes other)
          end
      | None => None
      end
  | None => None
  end.

(** the primary field: [code] if present, else [value] if present *)
Definition primary_field (related_fields : list (string * list FieldResult))
  : option string :=
  match dict_get related_fields "code" with
  | Some _ => Some "code"
  | None =>
      match dict_get related_fields "value" with
      | Some _ => Some "value"
      | None => None
      end
  end.

(** [_combine_related_attributes] *)
Definition _combine_related_attributes
    (related_fields : list (string * list FieldResult)) : list Item :=
  match primary_field related_fields with
  | None => map plain (flat_map snd related_fields)
  | Some pf =>
      let primary_data := field_list related_fields pf in
      (map (fun ip =>
              mkItem (snd ip)
                     (related_value related_fields "displayName" (fst ip))
                     (related_value related_fields "codeSystemName" (fst ip)))
           (enumerate primary_data)
       ++ map plain (skipn (List.length primary_data)
                           (field_list related_fields "displayName"))
       ++ map plain (skipn (List.length primary_data)
                           (field_list related_fields "codeSystemName")))%list
  end.

(* ================================================================== *)
(** * Vocabulary of the further statements *)
(* ================================================================== *)

(** the element of a hit *)
Definition match_node (m : Match) : Node :=
  match m with
  | MElem n => n
  | MAttr n _ _ => n
  end.

(** the hit is the element [elem] or lies at most two steps below it *)
Definition within_two (elem : Node) (m : Match) : Prop :=
  exists rel,
    node_path (match_node m) = (node_path elem ++ rel)%list
    /\ List.length rel <= 2.

(** an attribute hit reports a value that its element has under that name *)
Definition match_ok (m : Match) : Prop :=
  match m with
  | MElem _ => True
  | MAttr n a v => ET.get a (attrib (node_elem n)) = Some v
  end.

(** the same on a record of the flat output: an attribute record shows
    [@name=value] as its text, the element has that value under that name,
    and the path ends with the attribute step *)
Definition attribute_record_ok (r : FlatRecord) : Prop :=
  match is_attribute r with
  | Some true =>
      exists a v p,
        element_text r = Some ("@" ++ a ++ "=" ++ v)
        /\ ET.get a (element_attributes r) = Some v
        /\ element_path r = Some (p ++ "/@" ++ a)
  | _ => True
  end.

(** the string is empty or its first character is in the class *)
Definition head_in (P : ascii -> bool) (s : string) : bool :=
  match s with
  | EmptyString => true
  | String c _ => P c
  end.

(** the string is empty or its last character is in the class *)
Fixpoint last_in (P : ascii -> bool) (s : string) : bool :=
  match s with
  | EmptyString => true
  | String c EmptyString => P c
  | String _ s' => last_in P s'
  end.

(** all characters are in the class *)
Fixpoint all_in (P : ascii -> bool) (s : string) : bool :=
  match s with
  | EmptyString => true
  | String c s' => P c && all_in P s'
  end.

(** the suffix left after the longest prefix made of a class *)
Fixpoint drop_while (c : ascii -> bool) (s : string) : string :=
  match s with
  | String x s' => if c x then drop_while c s' else s
  | EmptyString => ""
  end.

(** the string without its longest suffix made of a class *)
Fixpoint strip_tail (c : ascii -> bool) (s : string) : string :=
  match s with
  | EmptyString => ""
  | String x s' => if all_in c s then "" else String x (strip_tail c s')
  end.

(** the steps of a path that are not empty *)
Definition nonempty_steps (xpath : string) : list string :=
  filter PyStr.truthy (PyStr.split "/" xpath).

(** the results of one catalog entry inside one template instance *)
Definition entry_results (findall : Node -> string -> option (list Node))
    (template_elem : Node) (entry : Entry) : list FieldResult :=
  _find_within_template_instance findall template_elem
    (_get_relative_xpath (xpath entry)) (xpath entry).

(** did a lookup find something? *)
Definition has_results (rs : list FieldResult) : bool :=
  match rs with
  | [] => false
  | _ => true
  end.

(** does the entry write the key [k] into the field map of this instance:
    its field name is [k] and its lookup found something *)
Definition writes_key (findall : Node -> string -> option (list Node))
    (template_elem : Node) (k : string) (entry : Entry) : bool :=
  String.eqb (_extract_field_name (xpath entry)) k
  && has_results (entry_results findall template_elem entry).

(** the template identifier under which [auto_group_xpath_entries] files an
    expression, if any *)
Definition group_key (entry : Entry) : option string :=
  match Re.search template_root_re (xpath entry) with
  | Some m => Some (Re.seg m 2)
  | None => None
  end.

Definition has_group_key (k : string) (entry : Entry) : bool :=
  match group_key entry with
  | Some t => String.eqb t k
  | None => false
  end.

Definition has_no_group_key (entry : Entry) : bool :=
  match group_key entry with
  | Some _ => false
  | None => true
  end.

(** a key joins a list of keys at the end unless the list has it *)
Definition add_key (keys : list string) (k : string) : list string :=
  if existsb (String.eqb k) keys then keys else (keys ++ [k])%list.

(** the template identifiers of a catalog, entry by entry *)
Definition group_keys (entries : list Entry) : list string :=
  flat_map (fun entry => match group_key entry with
                         | Some k => [k]
                         | None => []
                         end) entries.

(** the identifiers of a catalog in the order of their first appearance,
    then [ungrouped] when some entry has no identifier (unless an identifier
    is spelled so) *)
Definition group_order (entries : list Entry) : list string :=
  let keys := fold_left add_key (group_keys entries) [] in
  match filter has_no_group_key entries with
  | [] => keys
  | _ => add_key keys "ungrouped"
  end.

(** the copy of an entry that [auto_group_xpath_entries] stores in a group *)
Definition enhanced (entry : Entry) : Entry :=
  mkEntry (xpath entry) (meta entry) (Some [xpath entry]).

(* ================================================================== *)
(** * Expression converter *)
(* ================================================================== *)



(* ================================================================== *)
(** * Flat mode *)
(* ================================================================== *)

Lemma prefix_cons :
  forall a s1 b s2,
    String.prefix (String a s1) (String b s2)
    = (Ascii.eqb a b && String.prefix s1 s2)%bool.
Proof.
  intros a s1 b s2.
  change (String.prefix (String a s1) (String b s2))
    with (if ascii_dec a b then String.prefix s1 s2 else false).
  destruct (ascii_dec a b) as [e|n].
  - subst. rewrite Ascii.eqb_refl. reflexivity.
  - apply Ascii.eqb_neq in n. rewrite n. reflexivity.
Qed.

Lemma prefix_nil : forall s, String.prefix "" s = true.
Proof. destruct s; reflexivity. Qed.

Lemma prefix_refl : forall p, String.prefix p p = true.
Proof.
  induction p as [|c p IH]; [reflexivity|].
  rewrite prefix_cons, Ascii.eqb_refl. exact IH.
Qed.

Lemma contains_unfold :
  forall sub c s,
    PyStr.contains sub (String c s)
    = (String.prefix sub (String c s) || PyStr.contains sub s)%bool.
Proof. reflexivity. Qed.

Lemma contains_refl : forall p, PyStr.contains p p = true.
Proof.
  intro p. destruct p as [|a p]; [reflexivity|].
  rewrite contains_unfold, prefix_refl. reflexivity.
Qed.

Lemma contains_drop :
  forall sub n s, PyStr.contains sub (PyStr.drop n s) = true ->
                  PyStr.contains sub s = true.
Proof.
  intros sub n. induction n as [|n IH]; intros s H.
  - destruct s; exact H.
  - destruct s as [|c s]; [exact H|].
    simpl in H. apply IH in H.
    rewrite contains_unfold, H. apply orb_true_r.
Qed.

Lemma endswith_contains :
  forall s p, PyStr.endswith s p = true -> PyStr.contains p s = true.
Proof.
  intros s p H. unfold PyStr.endswith in H.
  apply andb_true_iff in H. destruct H as [_ H].
  apply String.eqb_eq in H.
  apply (contains_drop p (String.length s - String.length p)).
  rewrite H. apply contains_refl.
Qed.

(** a path that ends with an attribute step has an at-sign *)
Lemma attribute_suffix_has_at :
  forall s, PyStr.contains "/@value" s = true -> PyStr.contains "@" s = true.
Proof.
  induction s as [|c s IH]; intro H; [discriminate H|].
  rewrite contains_unfold in H. rewrite contains_unfold.
  apply orb_true_iff in H. destruct H as [H|H].
  - apply orb_true_iff. right.
    rewrite prefix_cons in H. apply andb_true_iff in H. destruct H as [_ H].
    destruct s as [|c2 s]; [discriminate H|].
    rewrite prefix_cons in H. apply andb_true_iff in H. destruct H as [H _].
    rewrite contains_unfold, prefix_cons, H, prefix_nil. reflexivity.
  - rewrite (IH H). apply orb_true_r.
Qed.

Lemma find_entries_app :
  forall findall root pre post self,
    find_entries findall self root (pre ++ post)
    = (fst (find_entries findall (fst (find_entries findall self root pre)) root post),
       snd (find_entries findall self root pre)
       ++ snd (find_entries findall (fst (find_entries findall self root pre)) root post))%list.
Proof.
  intros findall root pre post. induction pre as [|e pre IH]; intro self.
  - simpl. destruct (find_entries findall self root post); reflexivity.
  - simpl. destruct (find_entry findall self root e) as [s1 rs] eqn:E.
    rewrite IH.
    destruct (find_entries findall s1 root pre) as [s2 rss].
    simpl. rewrite app_assoc. reflexivity.
Qed.

(** every entry contributes at least one record, and the state after it is
    the one its conversion leaves *)
Lemma find_entry_records :
  forall findall self root entry,
    snd (find_entry findall self root entry) <> []
    /\ fst (find_entry findall self root entry)
       = fst (_convert_xpath_for_et self (xpath entry)).
Proof.
  intros findall self root entry. unfold find_entry.
  destruct (_convert_xpath_for_et self (xpath entry)) as [s c]. simpl.
  destruct (_find_elements_by_xpath findall s root c) eqn:E; simpl;
    split; try reflexivity; discriminate.
Qed.

(** a record built from a hit has both keys *)
Lemma found_record_keys :
  forall entry converted item,
    found (found_record entry converted item) = true
    /\ exists b, is_attribute (found_record entry converted item) = Some b.
Proof.
  intros entry converted [e|e a v]; simpl; split; eauto.
Qed.

Lemma split_go_nonempty :
  forall sep s skip cur, PyStr.split_go sep s skip cur <> [].
Proof.
  intros sep s. induction s as [|c s IH]; intros skip cur; [discriminate|].
  cbn [PyStr.split_go]. destruct skip as [|k]; [|apply IH].
  destruct (String.prefix sep (String c s)); [discriminate|apply IH].
Qed.

(** a separator that occurs splits the string in two pieces at least *)
Lemma split_go_two :
  forall a sep s cur,
    PyStr.contains (String a sep) s = true ->
    2 <= List.length (PyStr.split_go (String a sep) s 0 cur).
Proof.
  intros a sep s. induction s as [|c s IH]; intros cur H; [discriminate H|].
  rewrite contains_unfold in H. cbn [PyStr.split_go].
  destruct (String.prefix (String a sep) (String c s)).
  - cbn [List.length].
    pose proof (split_go_nonempty (String a sep) s
                  (String.length (String a sep) - 1) "") as Hn.
    destruct (PyStr.split_go (String a sep) s
                (String.length (String a sep) - 1) ""); [contradiction|].
    simpl. lia.
  - simpl in H. apply IH. exact H.
Qed.

(** [rsplit] at a separator that occurs gives two parts *)
Lemma rsplit1_two_parts :
  forall a sep s,
    PyStr.contains (String a sep) s = true ->
    exists first_part last_part,
      PyStr.rsplit1 (String a sep) s = [first_part; last_part].
Proof.
  intros a sep s H. unfold PyStr.rsplit1, PyStr.split.
  pose proof (split_go_two a sep s "" H) as Hl.
  rewrite <- length_rev in Hl.
  destruct (rev (PyStr.split_go (String a sep) s 0 "")) as [|lst [|x rinit]];
    simpl in Hl; try lia.
  eauto.
Qed.

Section FlatMode.

Variable findall : Node -> string -> option (list Node).

(** C3 - Never-throw on no match: whatever the path engine does (it may
    raise on every path), an expression whose fallback chain ends with no
    match contributes exactly one record to the flat result, between the
    records of the entries before and after it; the record is a not-found
    record and carries the expression as it was given. *)
Theorem not_found_yields_one_record :
  forall (self : Finder) (xml_file : Element)
         (before : list Entry) (entry : Entry) (after : list Entry),
    let root := mkNode [] xml_file in
    let self1 := fst (find_entries findall self root before) in
    let self2 := fst (_convert_xpath_for_et self1 (xpath entry)) in
    let converted := snd (_convert_xpath_for_et self1 (xpath entry)) in
    _find_elements_by_xpath findall self2 root converted = [] ->
    exists r,
      snd (find_elements findall self xml_file (before ++ entry :: after))
      = (snd (find_entries findall self root before)
         ++ [r] ++ snd (find_entries findall self2 root after))%list
      /\ found r = false
      /\ original_xpath r = xpath entry
      /\ element_tag r = None /\ element_text r = None
      /\ element_path r = None.
Proof.
  intros self xml_file before entry after root self1 self2 converted H.
  exists (not_found_record entry converted).
  split; [|repeat split].
  unfold find_elements. fold root. rewrite find_entries_app. simpl snd.
  fold self1. f_equal.
  simpl. unfold find_entry.
  subst self2 converted.
  destruct (_convert_xpath_for_et self1 (xpath entry)) as [s c] eqn:E.
  simpl in H. rewrite H. simpl.
  destruct (find_entries findall s root after) as [s3 r3]. reflexivity.
Qed.

(** C7 - Fallback-chain ordering, as the code has it.  The direct path is
    tried first and a non-empty result is returned.  Otherwise, when a
    template identifier is stored, the template path decides.  Otherwise a
    path with an at-sign is answered by the attribute split alone, also
    when that yields nothing: without a slash before an at-sign it yields
    nothing; else its hits are the attributes, named after the last such
    at-sign, of the elements that the engine finds for the part before it,
    or, when the engine raises on that part, of the elements that the
    recursive fallback finds for that part.  Only a path without an at-sign
    reaches the recursive fallback on the whole path.  One level of the
    fallback keeps a child exactly when its whole tag, namespace included,
    textually contains the step name stripped of prefix and predicate. *)
Theorem fallback_chain_order :
  forall (self : Finder) (root : Node) (xpath : string),
    let direct := match findall root xpath with
                  | Some elements => elements
                  | None => []
                  end in
    let result := _find_elements_by_xpath findall self root xpath in
    (direct <> [] -> result = map MElem direct)
    /\ (direct = [] -> _has_templateid_predicate self xpath = true ->
        result = _find_elements_with_templateid self root xpath)
    /\ (direct = [] -> _has_templateid_predicate self xpath = false ->
        PyStr.contains "@" xpath = true ->
        (PyStr.contains "/@" xpath = false -> result = [])
        /\ (PyStr.contains "/@" xpath = true ->
            exists element_path attr_name,
              PyStr.rsplit1 "/@" xpath = [element_path; attr_name]
              /\ result
                 = flat_map (fun elem => attr_match (Some elem) attr_name)
                     (match findall root element_path with
                      | Some elements => elements
                      | None => _find_elements_recursive root element_path
                      end)))
    /\ (direct = [] -> _has_templateid_predicate self xpath = false ->
        PyStr.contains "@" xpath = false ->
        result = map MElem (_find_elements_recursive root xpath))
    /\ forall (part : string) (current : list Node) (child : Node),
         In child (recursive_step part current)
         <-> exists elem,
               In elem current /\ In child (child_nodes elem)
               /\ PyStr.contains (clean_part part) (tag (node_elem child)) = true.
Proof.
  intros self root xpath direct result.
  assert (E : (PyStr.endswith xpath "/@value" || PyStr.contains "@" xpath)%bool
              = PyStr.contains "@" xpath).
  { destruct (PyStr.endswith xpath "/@value") eqn:En; [|reflexivity].
    simpl. symmetry.
    apply attribute_suffix_has_at, endswith_contains, En. }
  assert (R : result
              = match direct with
                | _ :: _ => map MElem direct
                | [] =>
                    if _has_templateid_predicate self xpath
                    then _find_elements_with_templateid self root xpath
                    else if PyStr.contains "@" xpath
                    then _find_elements_with_attributes findall root xpath
                    else map MElem (_find_elements_recursive root xpath)
                end).
  { unfold result, _find_elements_by_xpath. fold direct. rewrite E. reflexivity. }
  split; [|split; [|split; [|split]]].
  - intro Hd. rewrite R. destruct direct; [contradiction|reflexivity].
  - intros Hd Ht. rewrite R, Hd, Ht. reflexivity.
  - intros Hd Ht Ha. rewrite R, Hd, Ht, Ha.
    unfold _find_elements_with_attributes. split.
    + intro Hs. rewrite Hs. reflexivity.
    + intro Hs. rewrite Hs.
      destruct (rsplit1_two_parts "/" "@" xpath Hs) as [ep [an Hr]].
      exists ep, an. split; [exact Hr|]. rewrite Hr. reflexivity.
  - intros Hd Ht Ha. rewrite R, Hd, Ht, Ha. reflexivity.
  - intros part current child. unfold recursive_step.
    rewrite in_flat_map. split.
    + intros [elem [Hin Hc]]. apply filter_In in Hc. destruct Hc as [Hc Hk].
      exists elem. repeat split; trivial.
      apply orb_true_iff in Hk. destruct Hk as [Hk|Hk]; [|exact Hk].
      apply endswith_contains. exact Hk.
    + intros [elem [Hin [Hc Hk]]]. exists elem. split; [exact Hin|].
      apply filter_In. split; [exact Hc|]. rewrite Hk. apply orb_true_r.
Qed.

End FlatMode.

(** every entry of the catalog has at least one record in the flat result,
    and every record has the [found] key; the records of hits also have the
    [is_attribute] key *)
Lemma flat_records_cover_catalog :
  forall findall root entries self entry,
    In entry entries ->
    exists r, In r (snd (find_entries findall self root entries))
              /\ original_xpath r = xpath entry.
Proof.
  intros findall root entries. induction entries as [|e es IH]; intros self entry Hin.
  - contradiction.
  - simpl. destruct (find_entry findall self root e) as [s1 rs] eqn:E.
    destruct (find_entries findall s1 root es) as [s2 rss] eqn:E2. simpl.
    destruct Hin as [->|Hin].
    + unfold find_entry in E.
      destruct (_convert_xpath_for_et self (xpath entry)) as [s c].
      destruct (_find_elements_by_xpath findall s root c) as [|m ms];
        inversion E; subst.
      * eexists. split; [left; reflexivity|reflexivity].
      * eexists. split; [left; reflexivity|]. destruct m; reflexivity.
    + destruct (IH s1 entry Hin) as [r [Hr Hx]]. rewrite E2 in Hr.
      exists r. split; [apply in_or_app; right; exact Hr|exact Hx].
Qed.

(** The sample of C3: an expression none of whose steps matches. *)
Lemma not_found_yields_one_record_witness :
  let entry := mkEntry "nothing/here" [] None in
  let root := mkNode [] Samples.titled in
  _find_elements_by_xpath ElementPath.findall
    (fst (_convert_xpath_for_et new_finder (xpath entry))) root
    (snd (_convert_xpath_for_et new_finder (xpath entry))) = []
  /\ exists r,
       snd (find_elements ElementPath.findall new_finder Samples.titled
                          ([] ++ entry :: []))
       = ([] ++ [r] ++ [])%list
       /\ found r = false
       /\ original_xpath r = "nothing/here"
       /\ element_tag r = None /\ element_text r = None
       /\ element_path r = None.
Proof.
  split; [reflexivity|].
  apply (not_found_yields_one_record ElementPath.findall new_finder
           Samples.titled [] (mkEntry "nothing/here" [] None) []).
  reflexivity.
Defined.

(** C4 - Flat-mode record shape, evaluated on an expression that matches
    nothing: the one record returned for it has [found] false and no
    [is_attribute] key at all, while the records of hits carry that key. *)
Theorem not_found_record_lacks_is_attribute :
  map (fun r => (found r, is_attribute r))
      (snd (find_elements ElementPath.findall new_finder Samples.titled
                          [mkEntry "nothing/here" [] None]))
  = [(false, None)].
Proof. reflexivity. Qed.

(** The fallback keeps the [title] child for the step [hl7]: the text
    occurs in the namespace of the tag, not in its local name. *)
Lemma fallback_matches_namespace_text :
  let root := mkNode [] Samples.titled in
  let title := mkElement (cda "title") (Some "Report") [] [] in
  ElementPath.findall root "hl7" = Some []
  /\ _find_elements_by_xpath ElementPath.findall
       (fst (_convert_xpath_for_et new_finder "hl7")) root
       (snd (_convert_xpath_for_et new_finder "hl7"))
     = [MElem (mkNode [0] title)]
  /\ map element_tag
         (snd (find_elements ElementPath.findall new_finder Samples.titled
                             [mkEntry "hl7" [] None]))
     = [Some "{urn:hl7-org:v3}title"]
  /\ local_name (tag title) = "title"
  /\ PyStr.contains (clean_part "hl7") (local_name (tag title)) = false
  /\ String.eqb (local_name (tag title)) (clean_part "hl7") = false.
Proof. repeat split. Qed.

(** The attribute split reaches the recursive fallback: the engine raises
    on the unknown prefix of the element part, the fallback finds the
    [title] child for it, and the hit is the attribute of that child.  An
    attribute split that finds nothing is final: the same expression with
    an attribute that the child does not have matches nothing. *)
Example attribute_split_uses_recursive_fallback :
  let title := mkElement (cda "title") (Some "Report") [("lang", "en")] [] in
  let root := mkNode [] (mkElement (cda "ClinicalDocument") None [] [title]) in
  ElementPath.findall root "zz:title/@lang" = None
  /\ ElementPath.findall root "zz:title" = None
  /\ _find_elements_recursive root "zz:title" = [mkNode [0] title]
  /\ _find_elements_by_xpath ElementPath.findall
       (fst (_convert_xpath_for_et new_finder "zz:title/@lang")) root
       (snd (_convert_xpath_for_et new_finder "zz:title/@lang"))
     = [MAttr (mkNode [0] title) "lang" "en"]
  /\ _find_elements_by_xpath ElementPath.findall
       (fst (_convert_xpath_for_et new_finder "zz:title/@code")) root
       (snd (_convert_xpath_for_et new_finder "zz:title/@code"))
     = [].
Proof. repeat split. Qed.

(** C8 - Match path, as the code computes it: the elements have no parent
    link to follow, so the loop of [_get_element_path] runs once and the
    path of every node is a slash and the node's own local tag.  For the
    [title] child of [ClinicalDocument] the record holds [/title]. *)
Theorem element_path_is_own_tag :
  (forall element : Node,
     _get_element_path element
     = "/" ++ (if PyStr.contains "}" (tag (node_elem element))
               then nth 1 (PyStr.split "}" (tag (node_elem element))) ""
               else tag (node_elem element)))
  /\ map element_path
         (snd (find_elements ElementPath.findall new_finder Samples.titled
                             [mkEntry "ClinicalDocument/title" [] None]))
     = [Some "/title"].
Proof.
  split; [|reflexivity].
  intro element. unfold _get_element_path. simpl.
  destruct (List.length (node_path element)); reflexivity.
Qed.

(* ================================================================== *)
(** * Grouped mode: instances and groups *)
(* ================================================================== *)

(** ** Numbered lists and dictionaries *)

Lemma in_numbered_bound :
  forall (A : Type) (l : list A) s i a,
    In (i, a) (combine (seq s (List.length l)) l) -> s <= i < s + List.length l.
Proof.
  intros A l s i a H. apply in_combine_l in H. apply in_seq in H. exact H.
Qed.

Lemma in_numbered_unique :
  forall (A : Type) (l : list A) s i a b,
    In (i, a) (combine (seq s (List.length l)) l) ->
    In (i, b) (combine (seq s (List.length l)) l) -> a = b.
Proof.
  intros A l. induction l as [|x l IH]; intros s i a b Ha Hb.
  - contradiction.
  - simpl in Ha, Hb. destruct Ha as [Ha|Ha]; destruct Hb as [Hb|Hb].
    + congruence.
    + inversion Ha; subst. apply in_numbered_bound in Hb. lia.
    + inversion Hb; subst. apply in_numbered_bound in Ha. lia.
    + exact (IH (S s) i a b Ha Hb).
Qed.

Lemma in_enumerate_of_in :
  forall (A : Type) (l : list A) a,
    In a l -> exists i, In (i, a) (enumerate l).
Proof.
  intros A l a. unfold enumerate. generalize 0.
  induction l as [|x l IH]; intros s H; [contradiction|].
  destruct H as [->|H].
  - exists s. left. reflexivity.
  - destruct (IH (S s) H) as [i Hi]. exists i. right. exact Hi.
Qed.

Lemma in_enumerate_in :
  forall (A : Type) (l : list A) i a, In (i, a) (enumerate l) -> In a l.
Proof.
  intros A l i a H. unfold enumerate in H.
  apply in_combine_r in H. exact H.
Qed.

Lemma map_fst_enumerate :
  forall (A : Type) (l : list A),
    map fst (enumerate l) = seq 0 (List.length l).
Proof.
  intros A l. unfold enumerate. generalize 0.
  induction l as [|x l IH]; intro s; [reflexivity|].
  simpl. f_equal. apply IH.
Qed.

Lemma in_dict_set_keys :
  forall (V : Type) (d : list (string * V)) k v x,
    In x (map fst (dict_set d k v)) -> x = k \/ In x (map fst d).
Proof.
  intros V d k v x. induction d as [|[k' v'] d IH]; simpl; intro H.
  - destruct H as [H|[]]. left. symmetry. exact H.
  - destruct (String.eqb k' k) eqn:E.
    + apply String.eqb_eq in E. subst k'. simpl in H. tauto.
    + simpl in H. destruct H as [H|H]; [tauto|].
      destruct (IH H); tauto.
Qed.

Lemma dict_set_keys_nodup :
  forall (V : Type) (d : list (string * V)) k v,
    NoDup (map fst d) -> NoDup (map fst (dict_set d k v)).
Proof.
  intros V d k v. induction d as [|[k' v'] d IH]; simpl; intro H.
  - constructor; [intros []|constructor].
  - inversion H as [|? ? Hn Hd]; subst.
    destruct (String.eqb k' k) eqn:E.
    + apply String.eqb_eq in E. subst k'. simpl. constructor; assumption.
    + simpl. constructor; [|apply IH; exact Hd].
      intro Hin. apply in_dict_set_keys in Hin. destruct Hin as [Hin|Hin].
      * subst k'. rewrite String.eqb_refl in E. discriminate.
      * contradiction.
Qed.

Lemma nodup_keys_unique :
  forall (V : Type) (d : list (string * V)) k a b,
    NoDup (map fst d) -> In (k, a) d -> In (k, b) d -> a = b.
Proof.
  intros V d k a b. induction d as [|[k' v'] d IH]; intros Hn Ha Hb.
  - contradiction.
  - inversion Hn as [|? ? Hx Hd]; subst.
    destruct Ha as [Ha|Ha]; destruct Hb as [Hb|Hb].
    + congruence.
    + inversion Ha; subst. exfalso. apply Hx.
      change k with (fst (k, b)). apply in_map. exact Hb.
    + inversion Hb; subst. exfalso. apply Hx.
      change k with (fst (k, a)). apply in_map. exact Ha.
    + exact (IH Hd Ha Hb).
Qed.

Lemma auto_group_loop_keys_nodup :
  forall entries groups ungrouped,
    NoDup (map fst groups) ->
    NoDup (map fst (fst (auto_group_loop entries groups ungrouped))).
Proof.
  induction entries as [|e es IH]; intros groups ungrouped H; [exact H|].
  simpl. destruct (Re.search template_root_re (xpath e)).
  - apply IH. apply dict_set_keys_nodup. exact H.
  - apply IH. exact H.
Qed.

(** the keys of the grouping are distinct *)
Lemma auto_group_keys_nodup :
  forall entries, NoDup (map fst (auto_group_xpath_entries entries)).
Proof.
  intro entries. unfold auto_group_xpath_entries.
  pose proof (auto_group_loop_keys_nodup entries [] [] (NoDup_nil _)) as H.
  destruct (auto_group_loop entries [] []) as [groups ungrouped]. simpl in H.
  destruct ungrouped; [exact H|].
  apply dict_set_keys_nodup. exact H.
Qed.

Section GroupedMode.

Variable findall : Node -> string -> option (list Node).

(** the instance built for one located occurrence *)
Lemma instance_of_eq :
  forall template_id entries i occ,
    instance_of findall template_id entries i occ
    = if has_fields (instance_fields findall occ entries [])
      then [mkInstance (i + 1) template_id
              (instance_fields findall occ entries []) (map xpath entries)]
      else [].
Proof.
  intros. unfold instance_of.
  destruct (instance_fields findall occ entries []); reflexivity.
Qed.

Lemma in_instances :
  forall template_id entries (L : list (nat * Node)) inst,
    In inst (flat_map (fun ie => instance_of findall template_id entries
                                   (fst ie) (snd ie)) L)
    <-> exists ie, In ie L
                   /\ has_fields (instance_fields findall (snd ie) entries []) = true
                   /\ inst = mkInstance (fst ie + 1) template_id
                               (instance_fields findall (snd ie) entries [])
                               (map xpath entries).
Proof.
  intros template_id entries L inst. rewrite in_flat_map. split.
  - intros [ie [Hin H]]. exists ie. rewrite instance_of_eq in H.
    destruct (has_fields (instance_fields findall (snd ie) entries []));
      [|contradiction].
    destruct H as [H|[]]. auto.
  - intros [ie [Hin [Hf ->]]]. exists ie. split; [exact Hin|].
    rewrite instance_of_eq, Hf. left. reflexivity.
Qed.

(** the ordinals of the instances kept, in order *)
Lemma instance_numbers :
  forall template_id entries (L : list (nat * Node)),
    map instance_number
        (flat_map (fun ie => instance_of findall template_id entries
                               (fst ie) (snd ie)) L)
    = map (fun ie => fst ie + 1)
          (filter (fun ie => has_fields (instance_fields findall (snd ie) entries []))
                  L).
Proof.
  intros template_id entries L. induction L as [|ie L IH]; [reflexivity|].
  simpl. rewrite map_app, IH, instance_of_eq.
  destruct (has_fields (instance_fields findall (snd ie) entries []));
    reflexivity.
Qed.

(** C9 - Dropped-empty-instance: in every group, [instance_count] is the
    length of the instances list; every instance listed has a non-empty
    field map and is the instance of a located occurrence; and the ordinal
    of a located occurrence appears in the list exactly when the field map
    of that occurrence is non-empty, so an occurrence without any matching
    field is not listed. *)
Theorem empty_instances_are_dropped :
  forall (xml_file : Element) (entries : list Entry)
         (template_id : option string),
    let g := find_grouped_elements findall xml_file entries template_id in
    let located :=
      enumerate (template_elements_of (mkNode [] xml_file) template_id) in
    instance_count g = List.length (instances g)
    /\ Forall (fun inst => has_fields (fields inst) = true) (instances g)
    /\ Forall (fun inst =>
                 exists ie, In ie located
                            /\ instance_number inst = fst ie + 1
                            /\ fields inst
                               = instance_fields findall (snd ie) entries [])
              (instances g)
    /\ Forall (fun ie =>
                 existsb (Nat.eqb (fst ie + 1))
                         (map instance_number (instances g))
                 = has_fields (instance_fields findall (snd ie) entries []))
              located.
Proof.
  intros xml_file entries template_id g located.
  split; [reflexivity|].
  split; [|split].
  - apply Forall_forall. intros inst H.
    apply in_instances in H. destruct H as [ie [_ [Hf ->]]]. exact Hf.
  - apply Forall_forall. intros inst H.
    apply in_instances in H. destruct H as [ie [Hin [_ ->]]].
    exists ie. auto.
  - apply Forall_forall. intros [i occ] Hin.
    unfold g, find_grouped_elements. cbn [instances].
    rewrite instance_numbers. fold located. simpl fst. simpl snd.
    destruct (has_fields (instance_fields findall occ entries [])) eqn:Hf.
    + apply existsb_exists. exists (i + 1). split; [|apply Nat.eqb_refl].
      apply in_map_iff. exists (i, occ). split; [reflexivity|].
      apply filter_In. split; [exact Hin|exact Hf].
    + apply not_true_is_false. intro H.
      apply existsb_exists in H. destruct H as [n [Hn He]].
      apply Nat.eqb_eq in He. subst n.
      apply in_map_iff in Hn. destruct Hn as [[j occ'] [Hj Hin']].
      apply filter_In in Hin'. destruct Hin' as [Hin' Hf'].
      simpl in Hj, Hf'. assert (j = i) by lia. subst j.
      rewrite (in_numbered_unique _ _ _ _ _ _ Hin' Hin) in Hf'.
      congruence.
Qed.

Lemma snd_auto_grouping :
  forall self xml_file entries,
    snd (find_elements_with_auto_grouping findall self xml_file entries)
    = flat_map (fun kv =>
                  match instances (find_grouped_elements findall xml_file
                                     (snd kv) (Some (fst kv))) with
                  | [] => []
                  | _ => [find_grouped_elements findall xml_file
                            (snd kv) (Some (fst kv))]
                  end)
               (auto_group_xpath_entries entries).
Proof.
  intros. unfold find_elements_with_auto_grouping.
  destruct (find_elements findall self xml_file entries). reflexivity.
Qed.

(** a group has an instance exactly when some located occurrence has a
    non-empty field map *)
Lemma group_has_instances :
  forall xml_file entries template_id,
    match instances (find_grouped_elements findall xml_file entries template_id) with
    | [] => false
    | _ => true
    end
    = existsb (fun occ => has_fields (instance_fields findall occ entries []))
              (template_elements_of (mkNode [] xml_file) template_id).
Proof.
  intros xml_file entries template_id.
  unfold find_grouped_elements. cbn [instances].
  set (l := template_elements_of (mkNode [] xml_file) template_id).
  destruct (existsb (fun occ => has_fields (instance_fields findall occ entries [])) l)
    eqn:E.
  - apply existsb_exists in E. destruct E as [occ [Hin Hf]].
    destruct (in_enumerate_of_in _ _ _ Hin) as [i Hi].
    assert (H : In (mkInstance (i + 1) template_id
                      (instance_fields findall occ entries []) (map xpath entries))
                   (flat_map (fun ie => instance_of findall template_id entries
                                          (fst ie) (snd ie)) (enumerate l))).
    { apply in_instances. exists (i, occ). auto. }
    destruct (flat_map _ (enumerate l)); [contradiction|reflexivity].
  - destruct (flat_map _ (enumerate l)) as [|inst rest] eqn:F; [reflexivity|].
    exfalso.
    assert (H : In inst (flat_map (fun ie => instance_of findall template_id entries
                                            (fst ie) (snd ie)) (enumerate l))).
    { rewrite F. left. reflexivity. }
    apply in_instances in H. destruct H as [[i occ] [Hin [Hf _]]].
    apply in_enumerate_in in Hin.
    assert (T : existsb (fun occ => has_fields (instance_fields findall occ entries [])) l
                = true).
    { apply existsb_exists. exists occ. auto. }
    congruence.
Qed.

(** C10 - Whole groups are dropped: every group of the auto-grouped
    output has at least one instance ([instance_count] is positive and is
    the length of the list), and a template identifier of the catalog has
    a record in the output exactly when one of its located occurrences has
    a non-empty field map; an identifier without occurrences, or whose
    occurrences all have empty field maps, has no record. *)
Theorem empty_groups_are_omitted :
  forall (self : Finder) (xml_file : Element) (entries : list Entry),
    let out :=
      snd (find_elements_with_auto_grouping findall self xml_file entries) in
    let root := mkNode [] xml_file in
    Forall (fun g => instance_count g = List.length (instances g)
                     /\ 0 < instance_count g) out
    /\ Forall (fun kv =>
                 existsb (fun g => is_template (template_id g) (fst kv)) out
                 = existsb (fun occ =>
                              has_fields (instance_fields findall occ (snd kv) []))
                           (template_elements_of root (Some (fst kv))))
              (auto_group_xpath_entries entries).
Proof.
  intros self xml_file entries out root.
  unfold out. rewrite snd_auto_grouping. split.
  - apply Forall_forall. intros g H. apply in_flat_map in H.
    destruct H as [kv [_ H]].
    destruct (instances (find_grouped_elements findall xml_file (snd kv)
                           (Some (fst kv)))) as [|i rest] eqn:E; [contradiction|].
    destruct H as [<-|[]]. split; [reflexivity|].
    change (instance_count (find_grouped_elements findall xml_file (snd kv)
                              (Some (fst kv))))
      with (List.length (instances (find_grouped_elements findall xml_file
                                      (snd kv) (Some (fst kv))))).
    rewrite E. simpl. lia.
  - apply Forall_forall. intros [k gx] Hin. simpl fst. simpl snd.
    unfold root. rewrite <- group_has_instances.
    destruct (instances (find_grouped_elements findall xml_file gx (Some k)))
      as [|i rest] eqn:E.
    + apply not_true_is_false. intro H. apply existsb_exists in H.
      destruct H as [g [Hg Hk]]. apply in_flat_map in Hg.
      destruct Hg as [[k' gx'] [Hin' Hg]]. cbn [fst snd] in Hg.
      destruct (instances (find_grouped_elements findall xml_file gx' (Some k')))
        as [|i' rest'] eqn:E'; [contradiction|].
      destruct Hg as [<-|[]]. simpl in Hk. apply String.eqb_eq in Hk. subst k'.
      rewrite (nodup_keys_unique _ _ _ _ _ (auto_group_keys_nodup entries) Hin' Hin)
        in E'.
      congruence.
    + apply existsb_exists.
      exists (find_grouped_elements findall xml_file gx (Some k)).
      split; [|simpl; apply String.eqb_refl].
      apply in_flat_map. exists (k, gx). split; [exact Hin|].
      cbn [fst snd]. rewrite E. left. reflexivity.
Qed.

End GroupedMode.


(* ================================================================== *)
(** * The traversal [iter] and document order *)
(* ================================================================== *)

Lemma iter_elem_eq :
  forall e p, iter_elem p e = mkNode p e :: iter_list p 0 (children e).
Proof.
  intros [t x a cs] p. simpl. f_equal.
  generalize 0. induction cs as [|c cs IH]; intro i; [reflexivity|].
  simpl. f_equal. apply IH.
Qed.

Lemma node_eta : forall n : Node, mkNode (node_path n) (node_elem n) = n.
Proof. intros [p e]. reflexivity. Qed.

(** the nodes that the walk over the children yields, given the
    characterization of [iter_elem] on each child *)
Lemma in_iter_list_of :
  forall (l : list Element) (p : list nat) (n : Node),
    Forall (fun c => forall q m,
              In m (iter_elem q c)
              <-> exists rel, node_at c rel = Some (node_elem m)
                              /\ node_path m = (q ++ rel)%list) l ->
    forall i,
      In n (iter_list p i l)
      <-> exists k c rel,
            nth_error l k = Some c /\ node_at c rel = Some (node_elem n)
            /\ node_path n = (p ++ (i + k) :: rel)%list.
Proof.
  intros l p n H. induction H as [|c l Hc Hl IH]; intro i.
  - simpl. split; [contradiction|].
    intros [k [c [rel [Hk _]]]]. destruct k; discriminate Hk.
  - simpl. rewrite in_app_iff, Hc, IH. split.
    + intros [[rel [Hn Hp]]|[k [c' [rel [Hk [Hn Hp]]]]]].
      * exists 0, c, rel. repeat split; trivial.
        rewrite Hp, <- app_assoc, Nat.add_0_r. reflexivity.
      * exists (S k), c', rel. repeat split; trivial.
        rewrite Hp. replace (i + S k) with (S i + k) by lia. reflexivity.
    + intros [k [c' [rel [Hk [Hn Hp]]]]]. destruct k as [|k].
      * left. simpl in Hk. inversion Hk; subst c'. exists rel. split; trivial.
        rewrite Hp, <- app_assoc, Nat.add_0_r. reflexivity.
      * right. exists k, c', rel. repeat split; trivial.
        rewrite Hp. replace (i + S k) with (S i + k) by lia. reflexivity.
Qed.

(** [iter] yields exactly the nodes at the positions below the element *)
Lemma in_iter_elem :
  forall (e : Element) (p : list nat) (n : Node),
    In n (iter_elem p e)
    <-> exists rel, node_at e rel = Some (node_elem n)
                    /\ node_path n = (p ++ rel)%list.
Proof.
  intro e. induction e as [t x a cs IH] using Element_ind'. intros p n.
  rewrite iter_elem_eq. cbn [children]. simpl In.
  rewrite (in_iter_list_of cs p n IH 0). split.
  - intros [H|[k [c [rel [Hk [Hn Hp]]]]]].
    + subst n. exists []. simpl. rewrite app_nil_r. auto.
    + exists (k :: rel). simpl. rewrite Hk. auto.
  - intros [[|k rel] [Hn Hp]].
    + left. simpl in Hn. inversion Hn as [He]. rewrite app_nil_r in Hp.
      rewrite <- (node_eta n), <- Hp, <- He. reflexivity.
    + right. simpl in Hn.
      destruct (nth_error cs k) as [c|] eqn:Hk; [|discriminate].
      exists k, c, rel. auto.
Qed.

Lemma in_iter_list :
  forall (l : list Element) (p : list nat) (n : Node) (i : nat),
    In n (iter_list p i l)
    <-> exists k c rel,
          nth_error l k = Some c /\ node_at c rel = Some (node_elem n)
          /\ node_path n = (p ++ (i + k) :: rel)%list.
Proof.
  intros l p n i. apply in_iter_list_of.
  apply Forall_forall. intros c _ q m. apply in_iter_elem.
Qed.

Lemma doc_before_app :
  forall p a b, doc_before (p ++ a) (p ++ b) <-> doc_before a b.
Proof.
  induction p as [|i p IH]; intros a b; [reflexivity|].
  simpl. rewrite IH. split; [intros [H|[_ H]]; [lia|exact H]|auto].
Qed.

Lemma StronglySorted_app :
  forall (A : Type) (R : A -> A -> Prop) (l1 l2 : list A),
    StronglySorted R l1 -> StronglySorted R l2 ->
    (forall a b, In a l1 -> In b l2 -> R a b) ->
    StronglySorted R (l1 ++ l2).
Proof.
  intros A R l1 l2 H1 H2 H. induction H1 as [|a l1 Hs IH Hf]; [exact H2|].
  simpl. constructor.
  - apply IH. intros x y Hx Hy. apply H; [right; exact Hx|exact Hy].
  - apply Forall_app. split; [exact Hf|].
    apply Forall_forall. intros y Hy. apply H; [left; reflexivity|exact Hy].
Qed.

Lemma StronglySorted_filter :
  forall (A : Type) (R : A -> A -> Prop) (f : A -> bool) (l : list A),
    StronglySorted R l -> StronglySorted R (filter f l).
Proof.
  intros A R f l H. induction H as [|a l Hs IH Hf]; [constructor|].
  simpl. destruct (f a); [|exact IH].
  constructor; [exact IH|].
  apply Forall_forall. intros y Hy. apply filter_In in Hy.
  rewrite Forall_forall in Hf. apply Hf. tauto.
Qed.

Lemma StronglySorted_map :
  forall (A B : Type) (R : B -> B -> Prop) (f : A -> B) (l : list A),
    StronglySorted (fun a b => R (f a) (f b)) l -> StronglySorted R (map f l).
Proof.
  intros A B R f l H. induction H as [|a l Hs IH Hf]; [constructor|].
  simpl. constructor; [exact IH|].
  apply Forall_forall. intros y Hy. apply in_map_iff in Hy.
  destruct Hy as [x [<- Hx]]. rewrite Forall_forall in Hf. apply Hf. exact Hx.
Qed.

Lemma iter_list_sorted :
  forall (l : list Element) (p : list nat),
    Forall (fun c => forall q, StronglySorted node_before (iter_elem q c)) l ->
    forall i, StronglySorted node_before (iter_list p i l).
Proof.
  intros l p H. induction H as [|c l Hc Hl IH]; intro i; [constructor|].
  simpl. apply StronglySorted_app; [apply Hc|apply IH|].
  intros a b Ha Hb. apply in_iter_elem in Ha. apply in_iter_list in Hb.
  destruct Ha as [ra [_ Ha]]. destruct Hb as [k [c' [rb [_ [_ Hb]]]]].
  unfold node_before. rewrite Ha, Hb, <- app_assoc.
  apply doc_before_app. simpl. left. lia.
Qed.

(** [iter] lists the nodes in document order (pre-order, depth first) *)
Lemma iter_elem_sorted :
  forall (e : Element) (p : list nat), StronglySorted node_before (iter_elem p e).
Proof.
  intro e. induction e as [t x a cs IH] using Element_ind'. intro p.
  rewrite iter_elem_eq. cbn [children]. constructor.
  - apply iter_list_sorted. exact IH.
  - apply Forall_forall. intros n Hn. apply in_iter_list in Hn.
    destruct Hn as [k [c [rel [_ [_ Hp]]]]].
    unfold node_before. cbn [node_path]. rewrite Hp.
    rewrite <- (app_nil_r p) at 1. apply doc_before_app. exact I.
Qed.

Lemma numbered_sorted :
  forall (A : Type) (l : list A) s,
    StronglySorted (fun a b : nat * A => fst a < fst b)
                   (combine (seq s (List.length l)) l).
Proof.
  intros A l. induction l as [|x l IH]; intro s; [constructor|].
  simpl. constructor; [apply IH|].
  apply Forall_forall. intros [i a] H. apply in_numbered_bound in H.
  simpl. lia.
Qed.

Lemma filter_all :
  forall (A : Type) (f : A -> bool) (l : list A),
    forallb f l = true -> filter f l = l.
Proof.
  intros A f l. induction l as [|x l IH]; [reflexivity|].
  simpl. intro H. apply andb_true_iff in H. destruct H as [Hx Hl].
  rewrite Hx, (IH Hl). reflexivity.
Qed.

(* ================================================================== *)
(** * Template locator and ordinals *)
(* ================================================================== *)

(** Two located occurrences, the first without any field for the catalog:
    the only ordinal in the grouped output is 2. *)
Lemma ordinals_skip_dropped_instance :
  let g := find_grouped_elements ElementPath.findall Samples.first_without_code
             [Samples.code_entry] (Some "X1") in
  List.length (_find_template_instances (mkNode [] Samples.first_without_code) "X1")
  = 2
  /\ map instance_number (instances g) = [2]
  /\ instance_count g = 1.
Proof. repeat split. Qed.

Section Ordinals.

Variable findall : Node -> string -> option (list Node).

(** C6 - Template ordinals, as the code assigns them.  For every
    identifier the locator returns exactly the nodes of the traversal that
    carry it, in document order (pre-order, depth first), and the empty
    list when no node carries it.  For an identifier other than the empty
    string and [ungrouped], the occurrence at position k of that list (from
    1) gets the ordinal k; the ordinals in the grouped output are those of
    the occurrences whose field map is not empty, so they are strictly
    increasing and between 1 and the number N of occurrences, and they are
    exactly 1..N when no occurrence is dropped.  For the empty identifier
    and for [ungrouped] the locator is not called: the output has no
    instance, whatever the document holds. *)
Theorem template_ordinals :
  forall (xml_file : Element) (entries : list Entry) (template_id : string),
    let root := mkNode [] xml_file in
    let located := _find_template_instances root template_id in
    let g := find_grouped_elements findall xml_file entries (Some template_id) in
    let kept := fun ie : nat * Node =>
                  has_fields (instance_fields findall (snd ie) entries []) in
    (forall n, In n located
               <-> In n (iter root) /\ has_templateid template_id n = true)
    /\ StronglySorted node_before located
    /\ (forallb (fun n => negb (has_templateid template_id n)) (iter root) = true
        -> located = [])
    /\ (PyStr.truthy template_id = true -> template_id <> "ungrouped" ->
        map instance_number (instances g)
        = map (fun ie => fst ie + 1) (filter kept (enumerate located))
        /\ (forallb kept (enumerate located) = true ->
            map instance_number (instances g) = seq 1 (List.length located)))
    /\ StronglySorted lt (map instance_number (instances g))
    /\ Forall (fun k => 1 <= k <= List.length located)
              (map instance_number (instances g))
    /\ (PyStr.truthy template_id = false \/ template_id = "ungrouped" ->
        instances g = [] /\ instance_count g = 0).
Proof.
  intros xml_file entries template_id root located g kept.
  set (numbered := enumerate (template_elements_of root (Some template_id))).
  assert (Hnum : map instance_number (instances g)
                 = map (fun ie => fst ie + 1) (filter kept numbered)).
  { unfold g, find_grouped_elements. cbn [instances]. apply instance_numbers. }
  assert (Hsub : forall ie, In ie numbered -> fst ie < List.length located).
  { intros [i occ] H. unfold numbered, template_elements_of in H.
    destruct (PyStr.truthy template_id && negb (template_id =? "ungrouped"))%bool;
      [|contradiction].
    apply in_numbered_bound in H. simpl. exact (proj2 H). }
  assert (Hreal : PyStr.truthy template_id = true -> template_id <> "ungrouped" ->
                  numbered = enumerate located).
  { intros Ht Hu. unfold numbered, template_elements_of. rewrite Ht.
    apply String.eqb_neq in Hu. rewrite Hu. reflexivity. }
  split; [|split; [|split; [|split; [|split; [|split]]]]].
  - intro n. unfold located, _find_template_instances. apply filter_In.
  - unfold located, _find_template_instances.
    apply StronglySorted_filter. apply iter_elem_sorted.
  - intro H. unfold located, _find_template_instances.
    induction (iter root) as [|n l IH]; [reflexivity|].
    simpl in H. apply andb_true_iff in H. destruct H as [Hn Hl].
    simpl. apply negb_true_iff in Hn. rewrite Hn. exact (IH Hl).
  - intros Ht Hu. rewrite Hnum, (Hreal Ht Hu). split; [reflexivity|].
    intro Hall. rewrite (filter_all _ _ _ Hall).
    rewrite <- (map_map fst (fun i => i + 1)), map_fst_enumerate.
    rewrite <- seq_shift. apply map_ext. intro i. lia.
  - rewrite Hnum. apply StronglySorted_map. apply StronglySorted_filter.
    unfold numbered, enumerate.
    generalize (numbered_sorted Node (template_elements_of root (Some template_id)) 0).
    apply StronglySorted_ind; [constructor|].
    intros a l Hs IH Hf. constructor; [exact IH|].
    apply Forall_forall. intros y Hy. rewrite Forall_forall in Hf.
    specialize (Hf y Hy). lia.
  - rewrite Hnum. apply Forall_forall. intros k Hk.
    apply in_map_iff in Hk. destruct Hk as [ie [<- Hie]].
    apply filter_In in Hie. destruct Hie as [Hie _].
    specialize (Hsub ie Hie). lia.
  - intro Hd.
    assert (E : template_elements_of root (Some template_id) = []).
    { unfold template_elements_of. destruct Hd as [Ht|Hu].
      - rewrite Ht. reflexivity.
      - subst template_id. rewrite andb_false_r. reflexivity. }
    unfold g, find_grouped_elements. cbn [instances instance_count].
    fold root. rewrite E. split; reflexivity.
Qed.

End Ordinals.

(** An element that carries the identifier [ungrouped] and has a [code]:
    the locator finds it, yet grouped mode lists no instance for that
    identifier; for [X1] the same catalog gives the ordinals 1 and 2. *)
Example ungrouped_identifier_has_no_instance :
  let doc := mkElement (cda "ClinicalDocument") None []
               [ mkElement (cda "observation") None []
                   [Samples.templateId "ungrouped"; Samples.code "A"] ] in
  let entry := mkEntry "observation[templateId[@root='ungrouped']]/code/@code"
                       [] None in
  List.length (_find_template_instances (mkNode [] doc) "ungrouped") = 1
  /\ instances (find_grouped_elements ElementPath.findall doc [entry]
                  (Some "ungrouped")) = []
  /\ map instance_number
         (instances (find_grouped_elements ElementPath.findall
                       Samples.two_observations [Samples.code_entry] (Some "X1")))
     = [1; 2].
Proof. repeat split. Qed.

(* ================================================================== *)
(** * Scope boundary *)
(* ================================================================== *)

Lemma path_eqb_eq : forall p q, path_eqb p q = true <-> p = q.
Proof.
  induction p as [|i p IH]; intros [|j q]; simpl; split; intro H;
    try reflexivity; try discriminate.
  - apply andb_true_iff in H. destruct H as [Hi Hp].
    apply Nat.eqb_eq in Hi. apply IH in Hp. congruence.
  - inversion H; subst. rewrite Nat.eqb_refl. apply IH. reflexivity.
Qed.

Lemma node_at_app :
  forall r1 r2 e,
    node_at e (r1 ++ r2)
    = match node_at e r1 with
      | Some e1 => node_at e1 r2
      | None => None
      end.
Proof.
  induction r1 as [|i r1 IH]; intros r2 e; [reflexivity|].
  simpl. destruct (nth_error (children e) i); [apply IH|reflexivity].
Qed.

(** the chain below an element holds the nodes at the non-empty prefixes
    of the position *)
Lemma in_chain_below :
  forall rel p e A,
    In A (chain_below p e rel)
    <-> exists r1 r2 e1,
          r1 <> [] /\ rel = (r1 ++ r2)%list /\ node_at e r1 = Some e1
          /\ A = mkNode (p ++ r1) e1.
Proof.
  induction rel as [|i rel IH]; intros p e A.
  - simpl. split; [contradiction|].
    intros [r1 [r2 [e1 [Hn [Hr _]]]]]. destruct r1; [contradiction|discriminate].
  - simpl. destruct (nth_error (children e) i) as [c|] eqn:Hc.
    + simpl. rewrite IH. split.
      * intros [H|[r1 [r2 [e1 [Hn [Hr [Ha HA]]]]]]].
        -- exists [i], rel, c. simpl. rewrite Hc. repeat split; auto.
           discriminate.
        -- exists (i :: r1), r2, e1. simpl. rewrite Hc, Hr, HA, <- app_assoc.
           repeat split; auto. discriminate.
      * intros [r1 [r2 [e1 [Hn [Hr [Ha HA]]]]]].
        destruct r1 as [|j r1]; [contradiction|].
        simpl in Hr. inversion Hr; subst j rel.
        simpl in Ha. rewrite Hc in Ha.
        destruct r1 as [|k r1].
        -- left. simpl in Ha. inversion Ha; subst. reflexivity.
        -- right. exists (k :: r1), r2, e1. rewrite HA, <- app_assoc.
           repeat split; auto. discriminate.
    + split; [contradiction|].
      intros [r1 [r2 [e1 [Hn [Hr [Ha _]]]]]].
      destruct r1 as [|j r1]; [contradiction|].
      simpl in Hr. inversion Hr; subst j.
      simpl in Ha. rewrite Hc in Ha. discriminate.
Qed.

(** [_is_nested_template_element] looks for a marked node on the chain from
    below the template root down to the candidate *)
Lemma nested_iff_marker_on_chain :
  forall (R : Node) (rel : list nat) (Ne : Element),
    node_at (node_elem R) rel = Some Ne ->
    _is_nested_template_element (mkNode (node_path R ++ rel) Ne) R
    = existsb carries_marker (chain_below (node_path R) (node_elem R) rel).
Proof.
  intros [pR eR] rel Ne Hat. cbn [node_path node_elem] in *.
  apply eq_true_iff_eq. unfold _is_nested_template_element.
  rewrite !existsb_exists. split.
  - intros [nt [Hnt Hne]]. apply filter_In in Hnt. destruct Hnt as [Hin Hc].
    apply andb_true_iff in Hc. destruct Hc as [Hneq Hmark].
    apply existsb_exists in Hne. destruct Hne as [ne [Hne Hsame]].
    unfold iter in Hin, Hne. cbn [node_path node_elem] in Hin.
    apply in_iter_elem in Hin. destruct Hin as [r1 [Ha1 Hp1]].
    apply in_iter_elem in Hne. destruct Hne as [r2 [Ha2 Hp2]].
    unfold same_node in Hsame. cbn [node_path] in Hsame.
    apply path_eqb_eq in Hsame. rewrite Hp2, Hp1, <- app_assoc in Hsame.
    apply app_inv_head in Hsame.
    exists nt. split; [|exact Hmark].
    apply in_chain_below. exists r1, r2, (node_elem nt).
    repeat split; auto.
    + intro E. subst r1. apply negb_true_iff in Hneq.
      unfold same_node in Hneq. cbn [node_path] in Hneq.
      rewrite Hp1, app_nil_r in Hneq.
      assert (T : path_eqb pR pR = true) by (apply path_eqb_eq; reflexivity).
      congruence.
    + rewrite <- Hp1. symmetry. apply node_eta.
  - intros [A [HA Hmark]]. apply in_chain_below in HA.
    destruct HA as [r1 [r2 [e1 [Hn [Hr [Ha HA]]]]]]. subst A.
    exists (mkNode (pR ++ r1) e1). split.
    + apply filter_In. split.
      * unfold iter. cbn [node_path node_elem]. apply in_iter_elem.
        exists r1. auto.
      * apply andb_true_iff. split; [|exact Hmark].
        apply negb_true_iff. apply not_true_is_false. intro E.
        unfold same_node in E. cbn [node_path] in E. apply path_eqb_eq in E.
        rewrite <- (app_nil_r pR) in E at 2. apply app_inv_head in E.
        contradiction.
    + apply existsb_exists. exists (mkNode (pR ++ rel) Ne). split.
      * unfold iter. cbn [node_path node_elem]. apply in_iter_elem.
        exists r2. cbn [node_path node_elem]. split.
        -- rewrite Hr, node_at_app, Ha in Hat. exact Hat.
        -- rewrite Hr, app_assoc. reflexivity.
      * unfold same_node. apply path_eqb_eq. reflexivity.
Qed.


(** The two parent walks of the source never leave their start: without a
    parent link [_is_from_nested_template] and
    [_has_different_template_ancestor] reject nothing. *)
Lemma parent_walks_reject_nothing :
  forall (element template_root : Node) (target_template_id : string),
    _is_from_nested_template element template_root target_template_id = false
    /\ _has_different_template_ancestor element template_root = false.
Proof.
  intros element template_root target_template_id. split.
  - unfold _is_from_nested_template. simpl.
    destruct (same_node element template_root); reflexivity.
  - unfold _has_different_template_ancestor. simpl.
    destruct (same_node element template_root); [reflexivity|].
    assert (H : forall l root_id,
               existsb (fun tid =>
                          opt_string_neq (ET.get "root" (attrib (node_elem tid))) root_id
                          && negb (same_node element element)) l = false).
    { intros l root_id. induction l as [|t l IH]; [reflexivity|].
      simpl. rewrite IH.
      assert (E : same_node element element = true)
        by (apply path_eqb_eq; reflexivity).
      rewrite E, andb_false_r. reflexivity. }
    rewrite H. destruct (List.length (node_path element)); reflexivity.
Qed.

(* ================================================================== *)
(** * Sample evaluations of the string functions *)
(* ================================================================== *)

Example convert_template_expression :
  _convert_xpath_for_et new_finder
    "observation[templateId[@root='X1']]/code/@code"
  = (mkFinder (Attr "X1") (Attr "observation"),
     ".//cda:observation/cda:code/@code").
Proof. reflexivity. Qed.

Example convert_rooted_expression :
  snd (_convert_xpath_for_et new_finder
         "ClinicalDocument/recordTarget/patientRole/id/@root")
  = "./cda:recordTarget/cda:patientRole/cda:id/@root".
Proof. reflexivity. Qed.

Example convert_strips_contains :
  snd (_convert_xpath_for_et new_finder "section/entry[contains(a,b)]/act")
  = "cda:section/cda:entry/cda:act".
Proof. reflexivity. Qed.

Example relative_xpath_of_template_expression :
  _get_relative_xpath "observation[templateId[@root='X1']]/code/@code"
  = "code/@code"
  /\ _convert_relative_xpath "code/@code" = ".//cda:code/@code"
  /\ _convert_relative_xpath "code" = "./cda:code"
  /\ _get_relative_xpath "recordTarget/patientRole" = "recordTarget/patientRole".
Proof. repeat split. Qed.

Example field_names :
  _extract_field_name "observation[templateId[@root='X1']]/code/@code" = "code/code"
  /\ _extract_field_name "observation[templateId[@root='X1']]/effectiveTime/low/@value"
     = "effectiveTime/low/value"
  /\ _extract_field_name "observation/@classCode" = "classCode"
  /\ _extract_field_name "act/organizer/@moodCode" = "organizer_moodCode"
  /\ _extract_field_name "act/observation" = "observation".
Proof. repeat split. Qed.

Example engine_on_simple_paths :
  let root := mkNode [] Samples.two_observations in
  ElementPath.findall root ".//cda:code"
  = Some [mkNode [0; 1] (Samples.code "A"); mkNode [1; 1] (Samples.code "B")]
  /\ ElementPath.findall root "./cda:observation/cda:code/@code" = None
  /\ ElementPath.findall root "/cda:observation" = None
  /\ ElementPath.findall root "x:observation" = None
  /\ ElementPath.findall root "cda:code" = Some [].
Proof. repeat split. Qed.

(* ================================================================== *)
(** * Further properties of flat mode *)
(* ================================================================== *)

Lemma Forall_flat_map :
  forall (A B : Type) (P : B -> Prop) (f : A -> list B) (l : list A),
    (forall x, In x l -> Forall P (f x)) -> Forall P (flat_map f l).
Proof.
  intros A B P f l H. induction l as [|x l IH]; [constructor|].
  simpl. apply Forall_app. split.
  - apply H. left. reflexivity.
  - apply IH. intros y Hy. apply H. right. exact Hy.
Qed.

Lemma attr_match_ok : forall t a, Forall match_ok (attr_match t a).
Proof.
  intros [n|] a; simpl; [|constructor].
  destruct (ET.get a (attrib (node_elem n))) eqn:E; repeat constructor.
  exact E.
Qed.

Lemma elem_match_ok : forall t, Forall match_ok (elem_match t).
Proof. intros [n|]; simpl; repeat constructor. Qed.

Lemma value_attr_match_ok :
  forall elem target a, Forall match_ok (value_attr_match elem target a).
Proof.
  intros elem target a. unfold value_attr_match.
  destruct (find_child elem (cda "value")) as [n|]; [|constructor].
  destruct (ET.get a (attrib (node_elem n))) eqn:E; [|constructor].
  destruct (_is_from_nested_template n elem target); repeat constructor.
  exact E.
Qed.

Lemma map_MElem_ok : forall l, Forall match_ok (map MElem l).
Proof. intro l. induction l; simpl; constructor; simpl; auto. Qed.

Lemma with_templateid_ok :
  forall self root xpath,
    Forall match_ok (_find_elements_with_templateid self root xpath).
Proof.
  intros self root xpath. unfold _find_elements_with_templateid.
  destruct (attr_truthy (_current_templateid self)) as [target|]; [|constructor].
  destruct (attr_truthy (_current_element_type self)) as [et|]; [|constructor].
  cbv zeta.
  repeat match goal with
         | |- Forall _ (if ?b then _ else _) => destruct b
         end;
    try apply map_MElem_ok;
    apply Forall_flat_map; intros elem _;
    repeat match goal with
           | |- Forall _ (if ?b then _ else _) => destruct b
           end;
    first [ apply attr_match_ok | apply elem_match_ok
          | apply value_attr_match_ok | constructor ].
Qed.

Lemma by_xpath_ok :
  forall findall self root xpath,
    Forall match_ok (_find_elements_by_xpath findall self root xpath).
Proof.
  intros findall self root xpath. unfold _find_elements_by_xpath.
  destruct (match findall root xpath with Some e => e | None => [] end) eqn:E.
  - destruct (_has_templateid_predicate self xpath); [apply with_templateid_ok|].
    destruct (PyStr.endswith xpath "/@value" || PyStr.contains "@" xpath)%bool;
      [|apply map_MElem_ok].
    unfold _find_elements_with_attributes.
    destruct (PyStr.contains "/@" xpath); [|constructor].
    destruct (PyStr.rsplit1 "/@" xpath) as [|a [|b [|c l]]]; try constructor.
    apply Forall_flat_map. intros elem _. apply (attr_match_ok (Some elem)).
  - apply map_MElem_ok.
Qed.

Section FlatOutput.

Variable findall : Node -> string -> option (list Node).

(** X1 - The flat result is the catalog, expression by expression: one
    non-empty block of records per entry, in catalog order; the block of an
    entry is either a single not-found record or only records of hits, and
    all its records carry the expression of that entry. *)
Theorem flat_records_in_catalog_order :
  forall (self : Finder) (xml_file : Element) (entries : list Entry),
    exists blocks : list (list FlatRecord),
      snd (find_elements findall self xml_file entries) = concat blocks
      /\ Forall2 (fun entry block =>
                    block <> []
                    /\ Forall (fun r => original_xpath r = xpath entry) block
                    /\ ((exists r, block = [r] /\ found r = false)
                        \/ Forall (fun r => found r = true) block))
                 entries blocks.
Proof.
  intros self xml_file entries. unfold find_elements.
  generalize (mkNode [] xml_file). intro root. revert self.
  induction entries as [|e es IH]; intro self.
  - exists []. split; [reflexivity|constructor].
  - simpl. destruct (find_entry findall self root e) as [s1 rs] eqn:E.
    destruct (IH s1) as [blocks [Hc Hf]].
    destruct (find_entries findall s1 root es) as [s2 rss]. simpl in Hc.
    exists (rs :: blocks). split; [simpl; rewrite Hc; reflexivity|].
    constructor; [|exact Hf].
    unfold find_entry in E.
    destruct (_convert_xpath_for_et self (xpath e)) as [s c].
    destruct (_find_elements_by_xpath findall s root c) as [|m ms];
      inversion E; subst.
    + split; [discriminate|]. split; [repeat constructor|].
      left. eexists. split; reflexivity.
    + change (found_record e c m :: map (found_record e c) ms)
        with (map (found_record e c) (m :: ms)).
      split; [discriminate|]. split.
      * apply Forall_forall. intros r Hr. apply in_map_iff in Hr.
        destruct Hr as [x [<- _]]. destruct x; reflexivity.
      * right. apply Forall_forall. intros r Hr. apply in_map_iff in Hr.
        destruct Hr as [x [<- _]]. destruct x; reflexivity.
Qed.

(** X2 - Attribute records are genuine: in every record of the flat result
    that is marked as an attribute, the text is [@name=value], the element's
    attributes hold that value under that name, and the path ends with the
    attribute step.  This holds on every branch of the matcher: the template
    path, the attribute split and its recursive fallback. *)
Theorem attribute_records_are_genuine :
  forall (self : Finder) (xml_file : Element) (entries : list Entry),
    Forall attribute_record_ok (snd (find_elements findall self xml_file entries)).
Proof.
  intros self xml_file entries. unfold find_elements.
  generalize (mkNode [] xml_file). intro root. revert self.
  induction entries as [|e es IH]; intro self; [constructor|].
  simpl. destruct (find_entry findall self root e) as [s1 rs] eqn:E.
  specialize (IH s1). destruct (find_entries findall s1 root es) as [s2 rss].
  simpl in *. apply Forall_app. split; [|exact IH].
  unfold find_entry in E.
  destruct (_convert_xpath_for_et self (xpath e)) as [s c].
  pose proof (by_xpath_ok findall s root c) as Hok.
  destruct (_find_elements_by_xpath findall s root c) as [|m ms];
    inversion E; subst.
  - repeat constructor.
  - change (found_record e c m :: map (found_record e c) ms)
      with (map (found_record e c) (m :: ms)).
    apply Forall_forall. intros r Hr. apply in_map_iff in Hr.
    destruct Hr as [x [<- Hx]]. rewrite Forall_forall in Hok.
    specialize (Hok x Hx). destruct x as [n|n a v]; simpl; [exact I|].
    exists a, v, (_get_element_path n). simpl in Hok. auto.
Qed.

End FlatOutput.

Lemma in_index_children :
  forall cs p i c,
    In c (index_children p i cs) ->
    exists k, nth_error cs k = Some (node_elem c)
              /\ node_path c = (p ++ [i + k])%list.
Proof.
  induction cs as [|x cs IH]; intros p i c H; [contradiction|].
  simpl in H. destruct H as [<-|H].
  - exists 0. simpl. rewrite Nat.add_0_r. auto.
  - destruct (IH p (S i) c H) as [k [Hk Hp]]. exists (S k). simpl.
    split; [exact Hk|]. rewrite Hp. f_equal. f_equal. lia.
Qed.

(** a child node sits one step below its parent *)
Lemma in_child_nodes :
  forall n c,
    In c (child_nodes n) ->
    exists k, nth_error (children (node_elem n)) k = Some (node_elem c)
              /\ node_path c = (node_path n ++ [k])%list.
Proof.
  intros n c H. unfold child_nodes in H.
  apply in_index_children in H. exact H.
Qed.

Lemma recursive_loop_depth :
  forall (root : Node) (parts : list string) (current : list Node) (d : nat),
    Forall (fun n => exists rel,
                node_path n = (node_path root ++ rel)%list
                /\ List.length rel = d
                /\ node_at (node_elem root) rel = Some (node_elem n)) current ->
    Forall (fun n => exists rel,
                node_path n = (node_path root ++ rel)%list
                /\ List.length rel = d + List.length (filter PyStr.truthy parts)
                /\ node_at (node_elem root) rel = Some (node_elem n))
           (recursive_loop parts current).
Proof.
  intros root parts. induction parts as [|part parts IH]; intros current d H.
  - simpl. rewrite Nat.add_0_r. exact H.
  - simpl. destruct (PyStr.truthy part); simpl.
    + destruct (recursive_step part current) as [|n0 next] eqn:E; [constructor|].
      replace (d + S (List.length (filter PyStr.truthy parts)))
        with (S d + List.length (filter PyStr.truthy parts)) by lia.
      apply IH. rewrite <- E. unfold recursive_step.
      apply Forall_flat_map. intros elem Helem.
      apply Forall_forall. intros c Hc. apply filter_In in Hc.
      destruct Hc as [Hc _]. apply in_child_nodes in Hc.
      destruct Hc as [k [Hk Hp]].
      rewrite Forall_forall in H. destruct (H elem Helem) as [rel [Hr [Hl Ha]]].
      exists (rel ++ [k])%list. split; [|split].
      * rewrite Hp, Hr, app_assoc. reflexivity.
      * rewrite length_app. simpl. lia.
      * rewrite node_at_app, Ha. simpl. rewrite Hk. reflexivity.
    + apply IH. exact H.
Qed.

(** X3 - The recursive fallback only walks down through children: every
    element it returns lies below the root at a depth equal to the number
    of non-empty steps of the path; a path without any non-empty step
    returns the root itself. *)
Theorem recursive_fallback_depth :
  forall (root : Node) (xpath : string),
    Forall (fun n => exists rel,
                node_path n = (node_path root ++ rel)%list
                /\ List.length rel = List.length (nonempty_steps xpath)
                /\ node_at (node_elem root) rel = Some (node_elem n))
           (_find_elements_recursive root xpath)
    /\ (nonempty_steps xpath = [] -> _find_elements_recursive root xpath = [root]).
Proof.
  intros root xpath. split.
  - unfold _find_elements_recursive, nonempty_steps.
    apply (recursive_loop_depth root (PyStr.split "/" xpath) [root] 0).
    constructor; [|constructor].
    exists []. rewrite app_nil_r. auto.
  - unfold _find_elements_recursive, nonempty_steps.
    generalize [root]. induction (PyStr.split "/" xpath) as [|part parts IH];
      intros current H; [reflexivity|].
    simpl in *. destruct (PyStr.truthy part); [discriminate|].
    simpl. apply IH. exact H.
Qed.

(* ================================================================== *)
(** * Further properties of grouped mode *)
(* ================================================================== *)

Lemma dict_get_set_same :
  forall (V : Type) (d : list (string * V)) k v,
    dict_get (dict_set d k v) k = Some v.
Proof.
  intros V d k v. induction d as [|[k' v'] d IH]; simpl.
  - rewrite String.eqb_refl. reflexivity.
  - destruct (String.eqb k' k) eqn:E; simpl.
    + rewrite String.eqb_refl. reflexivity.
    + rewrite E. exact IH.
Qed.

Lemma dict_get_set_other :
  forall (V : Type) (d : list (string * V)) k v k',
    k' <> k -> dict_get (dict_set d k v) k' = dict_get d k'.
Proof.
  intros V d k v k' Hne. induction d as [|[k0 v0] d IH]; simpl.
  - apply String.eqb_neq in Hne. rewrite String.eqb_sym, Hne. reflexivity.
  - destruct (String.eqb k0 k) eqn:E; simpl.
    + apply String.eqb_eq in E. subst k0.
      apply String.eqb_neq in Hne. rewrite String.eqb_sym, Hne. reflexivity.
    + destruct (String.eqb k0 k'); [reflexivity|exact IH].
Qed.

Lemma Forall_dict_set :
  forall (V : Type) (Q : string * V -> Prop) (d : list (string * V)) k v,
    Forall Q d -> Q (k, v) -> Forall Q (dict_set d k v).
Proof.
  intros V Q d k v Hd Hq. induction Hd as [|[k' v'] d Hx Hd IH]; simpl.
  - repeat constructor. exact Hq.
  - destruct (String.eqb k' k); constructor; auto.
Qed.

Lemma find_app_last :
  forall (A : Type) (f : A -> bool) (l : list A) (x : A),
    find f (l ++ [x])
    = match find f l with
      | Some y => Some y
      | None => if f x then Some x else None
      end.
Proof.
  intros A f l x. induction l as [|a l IH]; simpl; [reflexivity|].
  destruct (f a); [reflexivity|exact IH].
Qed.

Section Fields.

Variable findall : Node -> string -> option (list Node).
Variable template_elem : Node.

Lemma instance_fields_step :
  forall entry rest fields,
    instance_fields findall template_elem (entry :: rest) fields
    = instance_fields findall template_elem rest
        (if has_results (entry_results findall template_elem entry)
         then dict_set fields (_extract_field_name (xpath entry))
                (entry_results findall template_elem entry)
         else fields).
Proof.
  intros entry rest fields. simpl. unfold entry_results.
  destruct (_find_within_template_instance findall template_elem
              (_get_relative_xpath (xpath entry)) (xpath entry)); reflexivity.
Qed.

Lemma instance_fields_get :
  forall entries fields k,
    dict_get (instance_fields findall template_elem entries fields) k
    = match find (writes_key findall template_elem k) (rev entries) with
      | Some entry => Some (entry_results findall template_elem entry)
      | None => dict_get fields k
      end.
Proof.
  induction entries as [|e es IH]; intros fields k; [reflexivity|].
  rewrite instance_fields_step, IH. simpl rev. rewrite find_app_last.
  destruct (find (writes_key findall template_elem k) (rev es)); [reflexivity|].
  unfold writes_key at 1.
  destruct (has_results (entry_results findall template_elem e)).
  - destruct (String.eqb (_extract_field_name (xpath e)) k) eqn:E; simpl.
    + apply String.eqb_eq in E. subst k. apply dict_get_set_same.
    + apply dict_get_set_other. intro H. subst k.
      rewrite String.eqb_refl in E. discriminate.
  - rewrite andb_false_r. reflexivity.
Qed.

Lemma instance_fields_invariant :
  forall (Q : string * list FieldResult -> Prop) entries fields,
    (forall entry, In entry entries ->
                   has_results (entry_results findall template_elem entry) = true ->
                   Q (_extract_field_name (xpath entry),
                      entry_results findall template_elem entry)) ->
    Forall Q fields ->
    Forall Q (instance_fields findall template_elem entries fields).
Proof.
  intros Q entries. induction entries as [|e es IH]; intros fields Hq Hf;
    [exact Hf|].
  rewrite instance_fields_step. apply IH.
  - intros entry Hin. apply Hq. right. exact Hin.
  - destruct (has_results (entry_results findall template_elem e)) eqn:E;
      [|exact Hf].
    apply Forall_dict_set; [exact Hf|]. apply Hq; [left; reflexivity|exact E].
Qed.

Lemma instance_fields_keys_nodup :
  forall entries fields,
    NoDup (map fst fields) ->
    NoDup (map fst (instance_fields findall template_elem entries fields)).
Proof.
  induction entries as [|e es IH]; intros fields H; [exact H|].
  rewrite instance_fields_step. apply IH.
  destruct (has_results (entry_results findall template_elem e)); [|exact H].
  apply dict_set_keys_nodup. exact H.
Qed.


(** X4 - Key collisions, last write wins: the field map of an instance
    holds under a key the results of the last catalog entry, in catalog
    order, whose field name is that key and whose lookup found something;
    the results of earlier entries with the same field name are
    overwritten, and a key that no such entry writes is absent. *)
Theorem field_key_last_write_wins :
  forall (entries : list Entry) (k : string),
    dict_get (instance_fields findall template_elem entries []) k
    = option_map (entry_results findall template_elem)
                 (find (writes_key findall template_elem k) (rev entries)).
Proof.
  intros entries k. rewrite instance_fields_get.
  destruct (find (writes_key findall template_elem k) (rev entries)); reflexivity.
Qed.

End Fields.

Section GroupedFields.

Variable findall : Node -> string -> option (list Node).

(** X5 - Shape of the field maps in grouped output: every listed instance
    belongs to a located occurrence; its field keys are pairwise distinct;
    every key is the field name of a catalog entry of the group and its
    value is the non-empty result list of that entry for that occurrence;
    and every instance lists all expressions of the group. *)
Theorem grouped_fields_invariant :
  forall (xml_file : Element) (entries : list Entry)
         (template_id : option string),
    Forall (fun inst =>
              exists occ,
                In occ (template_elements_of (mkNode [] xml_file) template_id)
                /\ NoDup (map fst (fields inst))
                /\ Forall (fun kv =>
                             has_results (snd kv) = true
                             /\ exists entry,
                                  In entry entries
                                  /\ fst kv = _extract_field_name (xpath entry)
                                  /\ snd kv = entry_results findall occ entry)
                          (fields inst)
                /\ inst_xpath_expressions inst = map xpath entries
                /\ inst_template_id inst = template_id)
           (instances (find_grouped_elements findall xml_file entries template_id)).
Proof.
  intros xml_file entries template_id. apply Forall_forall. intros inst H.
  unfold find_grouped_elements in H. cbn [instances] in H.
  apply in_instances in H. destruct H as [[i occ] [Hin [_ ->]]].
  exists occ. cbn [fields inst_xpath_expressions inst_template_id fst snd].
  split; [exact (in_enumerate_in _ _ _ _ Hin)|].
  split; [apply instance_fields_keys_nodup; constructor|].
  split; [|split; reflexivity].
  apply instance_fields_invariant; [|constructor].
  intros entry He Hr. split; [exact Hr|]. exists entry. auto.
Qed.


End GroupedFields.


(* ================================================================== *)
(** * Grouping of the catalog *)
(* ================================================================== *)

Lemma auto_group_loop_spec :
  forall entries groups ungrouped,
    snd (auto_group_loop entries groups ungrouped)
    = (ungrouped ++ filter has_no_group_key entries)%list
    /\ forall k,
         dict_get (fst (auto_group_loop entries groups ungrouped)) k
         = match filter (has_group_key k) entries with
           | [] => dict_get groups k
           | members =>
               Some ((match dict_get groups k with
                      | Some l => l
                      | None => []
                      end) ++ map enhanced members)%list
           end.
Proof.
  induction entries as [|e es IH]; intros groups ungrouped.
  - simpl. rewrite app_nil_r. auto.
  - cbn [auto_group_loop filter].
    destruct (Re.search template_root_re (xpath e)) as [m|] eqn:E.
    + assert (Hk : forall k, has_group_key k e = String.eqb (Re.seg m 2) k).
      { intro k. unfold has_group_key, group_key. rewrite E. reflexivity. }
      assert (Hn : has_no_group_key e = false).
      { unfold has_no_group_key, group_key. rewrite E. reflexivity. }
      destruct (IH (dict_set groups (Re.seg m 2)
                      ((match dict_get groups (Re.seg m 2) with
                        | Some l => l
                        | None => []
                        end) ++ [enhanced e])%list) ungrouped) as [Hs Hg].
      rewrite Hn. split; [exact Hs|]. intro k. unfold enhanced in Hg at 1.
      rewrite Hg, Hk.
      destruct (String.eqb (Re.seg m 2) k) eqn:Ek.
      * apply String.eqb_eq in Ek. subst k. rewrite dict_get_set_same.
        destruct (filter (has_group_key (Re.seg m 2)) es).
        -- simpl. reflexivity.
        -- rewrite <- app_assoc. reflexivity.
      * rewrite dict_get_set_other; [reflexivity|].
        intro H. subst k. rewrite String.eqb_refl in Ek. discriminate.
    + assert (Hk : forall k, has_group_key k e = false).
      { intro k. unfold has_group_key, group_key. rewrite E. reflexivity. }
      assert (Hn : has_no_group_key e = true).
      { unfold has_no_group_key, group_key. rewrite E. reflexivity. }
      destruct (IH groups (ungrouped ++ [e])%list) as [Hs Hg].
      rewrite Hn. split.
      * rewrite Hs, <- app_assoc. reflexivity.
      * intro k. rewrite Hg, Hk. reflexivity.
Qed.

(** X7 - What each group of [auto_group_xpath_entries] holds: under a
    template identifier, the entries whose expression carries that
    identifier, in catalog order, each with its own expression added as
    [xpath_expressions]; under [ungrouped], the entries without an
    identifier, in catalog order and unchanged.  No other key exists.  When
    both an identifier spelled [ungrouped] and entries without identifier
    occur, the latter replace the former. *)
Theorem auto_group_contents :
  forall (entries : list Entry) (k : string),
    dict_get (auto_group_xpath_entries entries) k
    = match filter has_no_group_key entries with
      | u :: rest =>
          if String.eqb k "ungrouped" then Some (u :: rest)
          else match filter (has_group_key k) entries with
               | [] => None
               | members => Some (map enhanced members)
               end
      | [] =>
          match filter (has_group_key k) entries with
          | [] => None
          | members => Some (map enhanced members)
          end
      end.
Proof.
  intros entries k. unfold auto_group_xpath_entries.
  destruct (auto_group_loop_spec entries [] []) as [Hs Hg].
  destruct (auto_group_loop entries [] []) as [groups ungrouped].
  simpl in Hs, Hg. subst ungrouped.
  destruct (filter has_no_group_key entries) as [|u us].
  - rewrite Hg. destruct (filter (has_group_key k) entries); reflexivity.
  - destruct (String.eqb k "ungrouped") eqn:E.
    + apply String.eqb_eq in E. subst k. apply dict_get_set_same.
    + rewrite dict_get_set_other.
      * rewrite Hg. destruct (filter (has_group_key k) entries); reflexivity.
      * intro H. subst k. discriminate.
Qed.

(* ================================================================== *)
(** * The template path of flat mode and the locator *)
(* ================================================================== *)

Lemma find_child_below :
  forall n t c,
    find_child n t = Some c ->
    exists i, node_path c = (node_path n ++ [i])%list.
Proof.
  intros n t c H. unfold find_child, findall_child in H.
  assert (Hin : In c (filter (has_tag t) (child_nodes n))).
  { destruct (filter (has_tag t) (child_nodes n)); [discriminate|].
    inversion H. left. reflexivity. }
  apply filter_In in Hin. destruct Hin as [Hin _].
  apply in_child_nodes in Hin. destruct Hin as [k [_ Hp]]. eauto.
Qed.

Lemma find_child2_below :
  forall n t1 t2 c,
    find_child2 n t1 t2 = Some c ->
    exists i j, node_path c = (node_path n ++ [i; j])%list.
Proof.
  intros n t1 t2 c H. unfold find_child2 in H.
  destruct (find_child n t1) as [m|] eqn:E; [|discriminate].
  apply find_child_below in E. apply find_child_below in H.
  destruct E as [i Ei]. destruct H as [j Hj].
  exists i, j. rewrite Hj, Ei, <- app_assoc. reflexivity.
Qed.


Lemma within_two_self : forall elem, within_two elem (MElem elem).
Proof. intro elem. exists []. simpl. rewrite app_nil_r. auto. Qed.

Lemma attr_match_within :
  forall elem t a,
    (forall n, t = Some n ->
               exists rel, node_path n = (node_path elem ++ rel)%list
                           /\ List.length rel <= 2) ->
    Forall (within_two elem) (attr_match t a).
Proof.
  intros elem [n|] a H; simpl; [|constructor].
  destruct (ET.get a (attrib (node_elem n))); repeat constructor.
  exact (H n eq_refl).
Qed.

Lemma elem_match_within :
  forall elem t,
    (forall n, t = Some n ->
               exists rel, node_path n = (node_path elem ++ rel)%list
                           /\ List.length rel <= 2) ->
    Forall (within_two elem) (elem_match t).
Proof.
  intros elem [n|] H; simpl; repeat constructor. exact (H n eq_refl).
Qed.

Lemma child_within :
  forall elem t n,
    find_child elem t = Some n ->
    exists rel, node_path n = (node_path elem ++ rel)%list /\ List.length rel <= 2.
Proof.
  intros elem t n H. apply find_child_below in H. destruct H as [i H].
  exists [i]. simpl. auto.
Qed.

Lemma grandchild_within :
  forall elem t1 t2 n,
    find_child2 elem t1 t2 = Some n ->
    exists rel, node_path n = (node_path elem ++ rel)%list /\ List.length rel <= 2.
Proof.
  intros elem t1 t2 n H. apply find_child2_below in H. destruct H as [i [j H]].
  exists [i; j]. simpl. auto.
Qed.

Lemma value_attr_match_within :
  forall elem target a, Forall (within_two elem) (value_attr_match elem target a).
Proof.
  intros elem target a. unfold value_attr_match.
  destruct (find_child elem (cda "value")) as [n|] eqn:E; [|constructor].
  destruct (ET.get a (attrib (node_elem n))); [|constructor].
  destruct (_is_from_nested_template n elem target); repeat constructor.
  exact (child_within _ _ _ E).
Qed.

Lemma value_child_within :
  forall elem target, Forall (within_two elem) (elem_match (value_child elem target)).
Proof.
  intros elem target. apply elem_match_within. intros n H.
  unfold value_child in H.
  destruct (find_child elem (cda "value")) as [v|] eqn:E; [|discriminate].
  destruct (_is_from_nested_template v elem target); [discriminate|].
  inversion H; subst. exact (child_within _ _ _ E).
Qed.

(** X8 - The template path of flat mode stays inside the occurrences of the
    stored template: every hit it returns is an element that the template
    locator finds for the stored identifier and whose tag is the stored
    element type, or lies at most two steps below such an element. *)
Theorem template_path_stays_in_instances :
  forall (self : Finder) (root : Node) (xpath target et : string),
    attr_truthy (_current_templateid self) = Some target ->
    attr_truthy (_current_element_type self) = Some et ->
    Forall (fun m => exists inst,
                In inst (_find_template_instances root target)
                /\ tag (node_elem inst) = cda et
                /\ within_two inst m)
           (_find_elements_with_templateid self root xpath).
Proof.
  intros self root xpath target et Ht He.
  unfold _find_elements_with_templateid. rewrite Ht, He. cbv zeta.
  set (matching := filter _ (findall_desc root (cda et))).
  assert (Hm : forall elem, In elem matching ->
                 In elem (_find_template_instances root target)
                 /\ tag (node_elem elem) = cda et).
  { intros elem H. unfold matching in H. apply filter_In in H.
    destruct H as [Hd Hid]. unfold findall_desc in Hd.
    apply filter_In in Hd. destruct Hd as [Hd Htag]. split.
    - unfold _find_template_instances. apply filter_In. split; [|exact Hid].
      destruct (iter root); [contradiction|]. right. exact Hd.
    - unfold has_tag in Htag. apply String.eqb_eq in Htag. exact Htag. }
  assert (Hlift : forall (f : Node -> list Match),
             (forall elem, Forall (within_two elem) (f elem)) ->
             Forall (fun m => exists inst,
                         In inst (_find_template_instances root target)
                         /\ tag (node_elem inst) = cda et
                         /\ within_two inst m)
                    (flat_map f matching)).
  { intros f Hf. apply Forall_flat_map. intros elem Hin.
    destruct (Hm elem Hin) as [H1 H2].
    eapply Forall_impl; [|apply Hf]. intros m Hw. exists elem. auto. }
  repeat match goal with
         | |- Forall _ (if ?b then _ else _) => destruct b
         end;
    try (apply Hlift; intro elem;
         repeat match goal with
                | |- Forall _ (if ?b then _ else _) => destruct b
                end;
         first [ apply value_attr_match_within
               | apply value_child_within
               | apply attr_match_within; intros n Hn;
                 first [ exact (child_within _ _ _ Hn)
                       | exact (grandchild_within _ _ _ _ Hn) ]
               | apply elem_match_within; intros n Hn;
                 first [ exact (child_within _ _ _ Hn)
                       | exact (grandchild_within _ _ _ _ Hn) ]
               | constructor ]).
  apply Forall_forall. intros m Hin. apply in_map_iff in Hin.
  destruct Hin as [elem [<- Hin]]. destruct (Hm elem Hin) as [H1 H2].
  exists elem. split; [exact H1|]. split; [exact H2|apply within_two_self].
Qed.

(** The sample of X8: the stored predicate of the scenario expression. *)
Lemma template_path_stays_in_instances_witness :
  let self := mkFinder (Attr "X1") (Attr "observation") in
  let root := mkNode [] Samples.two_observations in
  attr_truthy (_current_templateid self) = Some "X1"
  /\ attr_truthy (_current_element_type self) = Some "observation"
  /\ Forall (fun m => exists inst,
                 In inst (_find_template_instances root "X1")
                 /\ tag (node_elem inst) = cda "observation"
                 /\ within_two inst m)
            (_find_elements_with_templateid self root ".//cda:observation/code/@code").
Proof.
  split; [reflexivity|]. split; [reflexivity|].
  apply (template_path_stays_in_instances
           (mkFinder (Attr "X1") (Attr "observation"))
           (mkNode [] Samples.two_observations)
           ".//cda:observation/code/@code" "X1" "observation");
    reflexivity.
Defined.

(* ================================================================== *)
(** * Deduplication of the catalog *)
(* ================================================================== *)

Lemma mem_In : forall x xs, PyStr.mem x xs = true <-> In x xs.
Proof.
  intros x xs. unfold PyStr.mem. rewrite existsb_exists. split.
  - intros [y [Hy He]]. apply String.eqb_eq in He. subst y. exact Hy.
  - intro H. exists x. split; [exact H|apply String.eqb_refl].
Qed.

Lemma deduplicate_loop_spec :
  forall entries seen,
    NoDup (map xpath (deduplicate_loop entries seen))
    /\ (forall x, In x (map xpath (deduplicate_loop entries seen))
                  <-> In x (map xpath entries) /\ ~ In x seen)
    /\ (forall e, In e (deduplicate_loop entries seen) -> In e entries).
Proof.
  induction entries as [|e es IH]; intro seen.
  - simpl. split; [constructor|]. split; [|tauto]. intro x. tauto.
  - simpl. destruct (PyStr.mem (xpath e) seen) eqn:E.
    + apply mem_In in E. destruct (IH seen) as [Hn [Hx Hs]].
      split; [exact Hn|]. split.
      * intro x. rewrite Hx. split; [tauto|].
        intros [[H|H] Hns]; [subst x; contradiction|tauto].
      * intros e' H. right. apply Hs. exact H.
    + assert (Hnot : ~ In (xpath e) seen).
      { intro H. apply mem_In in H. congruence. }
      destruct (IH (xpath e :: seen)) as [Hn [Hx Hs]].
      split; [|split].
      * simpl. constructor; [|exact Hn]. rewrite Hx. simpl. tauto.
      * intro x. simpl. rewrite Hx. simpl. split.
        -- intros [H|[H1 H2]]; [subst x; tauto|tauto].
        -- intros [[H|H] Hns]; [tauto|].
           destruct (string_dec (xpath e) x); [tauto|tauto].
      * intros e' [H|H]; [left; exact H|right; apply Hs; exact H].
Qed.

Lemma deduplicate_loop_find :
  forall entries seen x,
    ~ In x seen ->
    find (fun e => String.eqb (xpath e) x) (deduplicate_loop entries seen)
    = find (fun e => String.eqb (xpath e) x) entries.
Proof.
  induction entries as [|e es IH]; intros seen x Hx; [reflexivity|].
  simpl. destruct (PyStr.mem (xpath e) seen) eqn:E.
  - apply mem_In in E.
    destruct (String.eqb (xpath e) x) eqn:Ex.
    + apply String.eqb_eq in Ex. subst x. contradiction.
    + apply IH. exact Hx.
  - simpl. destruct (String.eqb (xpath e) x) eqn:Ex; [reflexivity|].
    apply IH. intros [H|H]; [|contradiction].
    subst x. rewrite String.eqb_refl in Ex. discriminate.
Qed.

Lemma deduplicate_loop_nodup_id :
  forall l seen,
    NoDup (map xpath l) ->
    (forall e, In e l -> ~ In (xpath e) seen) ->
    deduplicate_loop l seen = l.
Proof.
  induction l as [|e es IH]; intros seen Hn Hs; [reflexivity|].
  simpl. inversion Hn as [|? ? Hx Hd]; subst.
  destruct (PyStr.mem (xpath e) seen) eqn:E.
  - apply mem_In in E. exfalso. apply (Hs e); [left; reflexivity|exact E].
  - f_equal. apply IH; [exact Hd|].
    intros e' He' [H|H].
    + apply Hx. rewrite H. apply in_map. exact He'.
    + apply (Hs e'); [right; exact He'|exact H].
Qed.

(** X9 - [_deduplicate_xpaths] keeps the first entry of every expression:
    the result has no two entries with the same expression, it has exactly
    the expressions of the input, the entry kept for an expression is the
    first one the input has for it, and a second pass changes nothing. *)
Theorem deduplicate_keeps_first :
  forall entries : list Entry,
    NoDup (map xpath (_deduplicate_xpaths entries))
    /\ (forall x, In x (map xpath (_deduplicate_xpaths entries))
                  <-> In x (map xpath entries))
    /\ (forall x, find (fun e => String.eqb (xpath e) x) (_deduplicate_xpaths entries)
                  = find (fun e => String.eqb (xpath e) x) entries)
    /\ _deduplicate_xpaths (_deduplicate_xpaths entries)
       = _deduplicate_xpaths entries.
Proof.
  intro entries. unfold _deduplicate_xpaths.
  destruct (deduplicate_loop_spec entries []) as [Hn [Hx Hs]].
  split; [exact Hn|]. split; [|split].
  - intro x. rewrite Hx. simpl. tauto.
  - intro x. apply deduplicate_loop_find. intros [].
  - apply deduplicate_loop_nodup_id; [exact Hn|]. intros e _ [].
Qed.

(* ================================================================== *)
(** * Field names and relative paths *)
(* ================================================================== *)

Lemma str_app_nil_r : forall s : string, s ++ "" = s.
Proof. induction s as [|c s IH]; simpl; [reflexivity|rewrite IH; reflexivity]. Qed.

Lemma str_app_assoc : forall a b c : string, (a ++ b) ++ c = a ++ (b ++ c).
Proof.
  induction a as [|x a IH]; intros b c; simpl; [reflexivity|].
  rewrite IH. reflexivity.
Qed.

Lemma str_app_length :
  forall a b : string, String.length (a ++ b) = String.length a + String.length b.
Proof.
  induction a as [|x a IH]; intro b; simpl; [reflexivity|].
  rewrite IH. reflexivity.
Qed.

Lemma drop_app : forall a b : string, PyStr.drop (String.length a) (a ++ b) = b.
Proof.
  induction a as [|x a IH]; intro b; simpl; [destruct b; reflexivity|apply IH].
Qed.

Lemma endswith_app : forall a b : string, PyStr.endswith (a ++ b) b = true.
Proof.
  intros a b. unfold PyStr.endswith. rewrite str_app_length.
  replace (String.length a + String.length b - String.length b)
    with (String.length a) by lia.
  rewrite drop_app, String.eqb_refl, andb_true_r.
  apply Nat.leb_le. lia.
Qed.

(** X10 - The field key of an attribute expression ends with the attribute
    name: whatever context the key keeps in front (two path segments, one,
    or the fallback on the last element), its last part is the text after
    the last attribute marker of the expression. *)
Theorem attribute_field_name_ends_with_attribute :
  forall x : string,
    PyStr.contains "/@" x = true ->
    PyStr.endswith (_extract_field_name x) (PyStr.split_last "/@" x) = true.
Proof.
  intros x H. unfold _extract_field_name. rewrite H.
  destruct (PyStr.contains "/" (PyStr.split_first "/@" x)).
  - destruct (meaningful_loop (rev (PyStr.split "/" (PyStr.split_first "/@" x))) []).
    + rewrite <- str_app_assoc. apply endswith_app.
    + rewrite <- str_app_assoc. apply endswith_app.
  - apply (endswith_app "").
Qed.

(** The sample of X10: the expression of the scenario. *)
Lemma attribute_field_name_ends_with_attribute_witness :
  PyStr.contains "/@" "observation[templateId[@root='X1']]/code/@code" = true
  /\ PyStr.endswith
       (_extract_field_name "observation[templateId[@root='X1']]/code/@code")
       (PyStr.split_last "/@" "observation[templateId[@root='X1']]/code/@code")
     = true.
Proof.
  split; [reflexivity|].
  apply (attribute_field_name_ends_with_attribute
           "observation[templateId[@root='X1']]/code/@code").
  reflexivity.
Defined.

Lemma split_go_head :
  forall sep s k cur,
    exists t rest, PyStr.split_go sep s k cur = (cur ++ t) :: rest.
Proof.
  intros sep s. induction s as [|c s IH]; intros k cur.
  - exists "", []. simpl. rewrite str_app_nil_r. reflexivity.
  - cbn [PyStr.split_go]. destruct k as [|k]; [|apply IH].
    destruct (String.prefix sep (String c s)).
    + exists "". eexists. rewrite str_app_nil_r. reflexivity.
    + destruct (IH 0 (cur ++ String c "")) as [t [rest H]].
      exists (String c t), rest. rewrite H, str_app_assoc. reflexivity.
Qed.

Lemma convert_relative_starts_with_dot :
  forall x, exists s, _convert_relative_xpath x = String "." s.
Proof.
  intro x. unfold _convert_relative_xpath.
  destruct (PyStr.truthy x); simpl; [|eexists; reflexivity].
  destruct (negb (PyStr.startswith x ".")
            && Nat.eqb (List.length (flat_map convert_relative_part (PyStr.split "/" x))) 1)%bool.
  - eexists. reflexivity.
  - destruct (flat_map convert_relative_part (PyStr.split "/" x));
      eexists; reflexivity.
Qed.

(** X11 - A converted relative path is always relative: it starts with a
    dot for every input, so the path engine never receives an absolute
    path from grouped mode, and when the converted path is split at its
    last attribute marker the element part is never empty: an attribute
    lookup always goes through the path engine. *)
Theorem relative_path_is_relative :
  forall x : string,
    PyStr.startswith (_convert_relative_xpath x) "." = true
    /\ forall element_path attr_name,
         PyStr.rsplit1 "/@" (_convert_relative_xpath x) = [element_path; attr_name] ->
         PyStr.truthy element_path = true.
Proof.
  intro x. destruct (convert_relative_starts_with_dot x) as [s Hs].
  rewrite Hs. split; [unfold PyStr.startswith; rewrite prefix_cons, prefix_nil; reflexivity|].
  intros element_path attr_name H. unfold PyStr.rsplit1 in H.
  assert (Hd : exists t rest, PyStr.split "/@" (String "." s) = String "." t :: rest).
  { unfold PyStr.split. cbn [PyStr.split_go].
    assert (Hp : String.prefix "/@" (String "." s) = false).
    { rewrite prefix_cons. reflexivity. }
    rewrite Hp. destruct (split_go_head "/@" s 0 ("" ++ ".")) as [t [rest Ht]].
    exists t, rest. rewrite Ht. reflexivity. }
  destruct Hd as [t [rest Hd]].
  destruct (rev (PyStr.split "/@" (String "." s))) as [|lst [|r rinit]] eqn:E;
    try discriminate.
  injection H as He Ha. rewrite <- He. clear He Ha.
  assert (Hr : PyStr.split "/@" (String "." s) = (rev (r :: rinit) ++ [lst])%list).
  { rewrite <- (rev_involutive (PyStr.split "/@" (String "." s))), E. reflexivity. }
  rewrite Hd in Hr.
  change (rev rinit ++ [r])%list with (rev (r :: rinit)).
  destruct (rev (r :: rinit)) as [|y ys] eqn:Ey.
  - apply (f_equal (@List.length string)) in Ey. rewrite length_rev in Ey.
    discriminate.
  - simpl in Hr. inversion Hr; subst. destruct ys; reflexivity.
Qed.

(* ================================================================== *)
(** * Validation of extracted expressions *)
(* ================================================================== *)

Lemma letter_is_no_digit_no_at :
  forall c, is_letter c = true -> is_digit c = false /\ Ascii.eqb "@" c = false.
Proof.
  intros [b0 b1 b2 b3 b4 b5 b6 b7].
  destruct b0, b1, b2, b3, b4, b5, b6, b7; vm_compute; intro H;
    first [discriminate H | split; reflexivity].
Qed.

(** X12 - What [_is_valid_xpath] really tests: an expression is accepted
    exactly when it has at least ten characters, contains a slash or an
    at-sign, starts with a letter and does not start with one to three
    capitals followed by white space.  The two other invalid patterns,
    version numbers and bare attributes, can never reject anything: they
    need a first character that the letter test has already excluded. *)
Theorem valid_xpath_conditions :
  forall xpath : string,
    _is_valid_xpath xpath
    = (Nat.leb 10 (String.length xpath)
       && (PyStr.contains "/" xpath || PyStr.contains "@" xpath)
       && re_match [Re.One is_letter] xpath
       && negb (existsb (fun pattern => re_match pattern xpath) abbreviation_res))%bool.
Proof.
  intro xpath. unfold _is_valid_xpath.
  destruct (Nat.ltb (String.length xpath) 10) eqn:El.
  - apply Nat.ltb_lt in El.
    assert (E : Nat.leb 10 (String.length xpath) = false)
      by (apply Nat.leb_gt; exact El).
    rewrite E. reflexivity.
  - apply Nat.ltb_ge in El.
    assert (E : Nat.leb 10 (String.length xpath) = true)
      by (apply Nat.leb_le; exact El).
    rewrite E. cbn [andb].
    destruct (PyStr.contains "/" xpath), (PyStr.contains "@" xpath);
      cbn [negb andb orb]; try reflexivity;
      (destruct (re_match [Re.One is_letter] xpath) eqn:Em;
       cbn [negb andb]; [|reflexivity];
       unfold invalid_patterns; cbn [existsb]; rewrite existsb_app; cbn [existsb];
       assert (Hv : re_match version_number_re xpath = false
                    /\ re_match just_attribute_re xpath = false);
       [ destruct xpath as [|c s]; [discriminate Em|];
         unfold re_match in Em; cbn [Re.mt] in Em;
         destruct (is_letter c) eqn:Ec; [|discriminate Em];
         destruct (letter_is_no_digit_no_at c Ec) as [Hd Ha];
         unfold re_match, version_number_re, just_attribute_re;
         cbn [Re.mt]; rewrite Hd, prefix_cons, Ha; split; reflexivity
       | destruct Hv as [Hv Hj]; rewrite Hv, Hj; cbn [orb];
         rewrite orb_false_r;
         destruct (existsb (fun pattern => re_match pattern xpath) abbreviation_res);
         reflexivity ]).
Qed.

(* ================================================================== *)
(** * Combination of related attributes *)
(* ================================================================== *)

Lemma map_snd_enumerate :
  forall (A : Type) (l : list A), map snd (enumerate l) = l.
Proof.
  intros A l. unfold enumerate. generalize 0.
  induction l as [|x l IH]; intro s; [reflexivity|].
  simpl. f_equal. apply IH.
Qed.

(** X13 - What [_combine_related_attributes] keeps: with a primary field
    ([code], or else [value]) the combined list carries the primary results
    in order, then the [displayName] results beyond the number of primary
    results, then such [codeSystemName] results; the results of every other
    field type, [value] next to [code] included, are left out.  Without a
    primary field it carries all results, field by field, with no key
    added. *)
Theorem combined_attributes_contents :
  forall related_fields : list (string * list FieldResult),
    map item_result (_combine_related_attributes related_fields)
    = match primary_field related_fields with
      | Some pf =>
          let n := List.length (field_list related_fields pf) in
          (field_list related_fields pf
           ++ skipn n (field_list related_fields "displayName")
           ++ skipn n (field_list related_fields "codeSystemName"))%list
      | None => flat_map snd related_fields
      end
    /\ (primary_field related_fields = None ->
        _combine_related_attributes related_fields
        = map plain (flat_map snd related_fields)).
Proof.
  intro related_fields. unfold _combine_related_attributes.
  destruct (primary_field related_fields) as [pf|]; cbv zeta.
  - split; [|discriminate].
    rewrite !map_app, !map_map. cbn [item_result plain].
    rewrite !map_id.
    change (map (fun x : nat * FieldResult => snd x)
                (enumerate (field_list related_fields pf)))
      with (map snd (enumerate (field_list related_fields pf))).
    rewrite map_snd_enumerate. reflexivity.
  - split; [|reflexivity].
    rewrite map_map. cbn [item_result plain]. apply map_id.
Qed.

(* ================================================================== *)
(** * The two template patterns *)
(* ================================================================== *)









Lemma mt_many1 :
  forall c p s,
    Re.mt (Re.Many1 c :: p) s
    = match s with
      | String x s' =>
          if c x then
            match Re.rep c (Re.mt p) s' with
            | Some (seg, (segs, rest)) => Some (String x seg :: segs, rest)
            | None => None
            end
          else None
      | EmptyString => None
      end.
Proof. reflexivity. Qed.





(* ================================================================== *)
(** * The complex path of grouped mode *)
(* ================================================================== *)

Lemma split_go_no_sep :
  forall sep s cur,
    PyStr.contains sep s = false ->
    PyStr.split_go sep s 0 cur = [cur ++ s].
Proof.
  intros sep s. induction s as [|c s IH]; intros cur H.
  - simpl. rewrite str_app_nil_r. reflexivity.
  - rewrite contains_unfold in H. apply orb_false_iff in H.
    destruct H as [Hp Hc]. cbn [PyStr.split_go]. rewrite Hp.
    rewrite (IH _ Hc), str_app_assoc. reflexivity.
Qed.

Lemma not_excluded_always :
  forall template_elem candidate, not_excluded template_elem candidate = true.
Proof.
  intros template_elem candidate. unfold not_excluded.
  rewrite (proj2 (parent_walks_reject_nothing candidate template_elem "")).
  rewrite andb_false_r. reflexivity.
Qed.

Section ComplexPath.

Variable findall : Node -> string -> option (list Node).

(** X15 - A relative path that is one step with a template predicate
    returns every descendant of the instance that has the element type of
    the step and carries the required identifier.  The test that should
    skip candidates inside other nested templates never rejects any: the
    descendants found inside nested templates are returned as well. *)
Theorem complex_step_returns_all_marked_descendants :
  forall (template_elem : Node) (xpath : string) (m : Re.found),
    PyStr.contains "/" xpath = false ->
    Re.search templateid_predicate_re xpath = Some m ->
    _handle_complex_xpath_with_templateid findall template_elem xpath
    = Some (map elem_result
                (filter (has_templateid (Re.seg m 3))
                        (findall_desc template_elem (cda (Re.seg m 0))))).
Proof.
  intros template_elem xpath m Hc Hs.
  unfold _handle_complex_xpath_with_templateid, PyStr.split.
  rewrite (split_go_no_sep "/" xpath "" Hc). cbn [append complex_loop].
  assert (Ht : PyStr.truthy xpath = true).
  { destruct xpath; [discriminate Hs|reflexivity]. }
  rewrite Ht, Hs. cbn [negb flat_map]. rewrite app_nil_r.
  assert (Hf : filter (fun candidate =>
                         not_excluded template_elem candidate
                         && has_templateid (Re.seg m 3) candidate)%bool
                      (findall_desc template_elem (cda (Re.seg m 0)))
               = filter (has_templateid (Re.seg m 3))
                        (findall_desc template_elem (cda (Re.seg m 0)))).
  { apply filter_ext. intro a. rewrite not_excluded_always. reflexivity. }
  rewrite Hf.
  destruct (filter (has_templateid (Re.seg m 3))
                   (findall_desc template_elem (cda (Re.seg m 0))));
    reflexivity.
Qed.

End ComplexPath.

(** The sample of X15: the nested observation with the same identifier is
    returned for its enclosing observation. *)
Lemma complex_step_returns_all_marked_descendants_witness :
  let R := mkNode [] Samples.nested_same_id in
  let xpath := "observation[templateId[@root='X1']]" in
  PyStr.contains "/" xpath = false
  /\ Re.search templateid_predicate_re xpath
     = Some (Re.mkFound "" ["observation"; "[templateId[@root="; "'"; "X1"; "'"; "]]"] "")
  /\ _handle_complex_xpath_with_templateid ElementPath.findall R xpath
     = Some (map elem_result
                 (filter (has_templateid "X1")
                         (findall_desc R (cda "observation")))).
Proof.
  split; [reflexivity|]. split; [reflexivity|].
  exact (complex_step_returns_all_marked_descendants ElementPath.findall
           (mkNode [] Samples.nested_same_id)
           "observation[templateId[@root='X1']]"
           (Re.mkFound "" ["observation"; "[templateId[@root="; "'"; "X1"; "'"; "]]"] "")
           eq_refl eq_refl).
Defined.

(* ================================================================== *)
(** * Cleaning of extracted expressions *)
(* ================================================================== *)

Lemma rep_nil :
  forall c s,
    Re.rep c (Re.mt []) s
    = Some (String.substring 0 (String.length s - String.length (drop_while c s)) s,
            ([], drop_while c s)).
Proof.
  intros c s. induction s as [|x s IH]; [reflexivity|].
  cbn [Re.rep drop_while]. destruct (c x) eqn:E.
  - rewrite IH. cbn [String.length].
    assert (Hl : String.length (drop_while c s) <= String.length s).
    { clear. induction s as [|y s IH]; simpl; [lia|].
      destruct (c y); simpl; lia. }
    replace (S (String.length s) - String.length (drop_while c s))
      with (S (String.length s - String.length (drop_while c s))) by lia.
    reflexivity.
  - cbn [Re.mt option_map String.length]. rewrite Nat.sub_diag. reflexivity.
Qed.

Lemma sub_at_start_many1 :
  forall c s, sub_at_start [Re.Many1 c] "" s = drop_while c s.
Proof.
  intros c s. unfold sub_at_start. rewrite mt_many1.
  destruct s as [|x s]; [reflexivity|].
  cbn [drop_while]. destruct (c x); [|reflexivity].
  rewrite rep_nil. reflexivity.
Qed.

Lemma mt_eos_nil :
  forall s, Re.mt [Re.Eos] s = if Re.at_end s then Some ([""], s) else None.
Proof. intro s. cbn [Re.mt Re.with_seg]. reflexivity. Qed.

Lemma rep_eos_all :
  forall c s, all_in c s = true -> Re.rep c (Re.mt [Re.Eos]) s = Some (s, ([""], "")).
Proof.
  intros c s. induction s as [|x s IH]; intro H.
  - reflexivity.
  - cbn [all_in] in H. apply andb_true_iff in H. destruct H as [Hx Hs].
    cbn [Re.rep]. rewrite Hx, (IH Hs). reflexivity.
Qed.

Lemma rep_eos_not_all :
  forall c s,
    c (ascii_of_nat 10) = true ->
    all_in c s = false -> Re.rep c (Re.mt [Re.Eos]) s = None.
Proof.
  intros c s Hnl. induction s as [|x s IH]; intro H; [discriminate H|].
  cbn [all_in] in H. cbn [Re.rep]. rewrite mt_eos_nil.
  destruct (c x) eqn:Ex.
  - simpl in H. rewrite (IH H).
    destruct s as [|y s]; [discriminate H|]. reflexivity.
  - destruct s as [|y s]; [|reflexivity].
    cbn [Re.at_end].
    destruct (Nat.eqb (nat_of_ascii x) 10) eqn:En; [|reflexivity].
    apply Nat.eqb_eq in En.
    assert (x = ascii_of_nat 10) by (rewrite <- En, ascii_nat_embedding; reflexivity).
    subst x. congruence.
Qed.

Lemma mt_many1_eos :
  forall c x s,
    c (ascii_of_nat 10) = true ->
    Re.mt [Re.Many1 c; Re.Eos] (String x s)
    = if all_in c (String x s) then Some ([String x s; ""], "") else None.
Proof.
  intros c x s Hnl. rewrite mt_many1. cbn [all_in].
  destruct (c x); [|reflexivity]. cbn [andb].
  destruct (all_in c s) eqn:E.
  - rewrite (rep_eos_all c s E). reflexivity.
  - rewrite (rep_eos_not_all c s Hnl E). reflexivity.
Qed.

Lemma sub_go_skip_all :
  forall p repl s n, String.length s <= n -> Re.sub_go p repl s n = "".
Proof.
  intros p repl s. induction s as [|x s IH]; intros n H; [reflexivity|].
  simpl in H. destruct n as [|n]; [lia|].
  cbn [Re.sub_go]. apply IH. lia.
Qed.

Lemma sub_trailing :
  forall c s,
    c (ascii_of_nat 10) = true ->
    Re.sub [Re.Many1 c; Re.Eos] "" s = strip_tail c s.
Proof.
  intros c s Hnl. unfold Re.sub. induction s as [|x s IH]; [reflexivity|].
  cbn [Re.sub_go strip_tail]. rewrite (mt_many1_eos c x s Hnl).
  destruct (all_in c (String x s)).
  - cbn [String.concat]. rewrite !str_app_nil_r. cbn [String.length append].
    apply sub_go_skip_all. lia.
  - rewrite IH. reflexivity.
Qed.

Lemma drop_while_head :
  forall c s, head_in (fun x => negb (c x)) (drop_while c s) = true.
Proof.
  intros c s. induction s as [|x s IH]; [reflexivity|].
  cbn [drop_while]. destruct (c x) eqn:E; [exact IH|].
  simpl. rewrite E. reflexivity.
Qed.

Lemma drop_while_id :
  forall c s, head_in (fun x => negb (c x)) s = true -> drop_while c s = s.
Proof.
  intros c [|x s] H; [reflexivity|]. simpl in *.
  apply negb_true_iff in H. rewrite H. reflexivity.
Qed.

Lemma strip_tail_last :
  forall c s, last_in (fun x => negb (c x)) (strip_tail c s) = true.
Proof.
  intros c s. induction s as [|x s IH]; [reflexivity|].
  cbn [strip_tail]. destruct (all_in c (String x s)) eqn:E; [reflexivity|].
  cbn [all_in] in E. cbn [last_in].
  destruct (strip_tail c s) as [|y r] eqn:Er; [|exact IH].
  destruct (c x) eqn:Ex; [|reflexivity].
  simpl in E. exfalso.
  clear -E Er. revert E Er. induction s as [|z s IH]; intros E Er; [discriminate|].
  cbn [strip_tail] in Er. destruct (all_in c (String z s)); [discriminate|discriminate].
Qed.

Lemma all_in_last :
  forall c s, s <> "" -> all_in c s = true -> last_in (fun x => negb (c x)) s = false.
Proof.
  intros c s. induction s as [|x s IH]; intros Hne H; [contradiction|].
  cbn [all_in] in H. apply andb_true_iff in H. destruct H as [Hx Hs].
  cbn [last_in]. destruct s as [|y s].
  - rewrite Hx. reflexivity.
  - apply IH; [discriminate|exact Hs].
Qed.

Lemma strip_tail_id :
  forall c s, last_in (fun x => negb (c x)) s = true -> strip_tail c s = s.
Proof.
  intros c s. induction s as [|x s IH]; intro H; [reflexivity|].
  cbn [strip_tail]. destruct (all_in c (String x s)) eqn:E.
  - rewrite (all_in_last c (String x s) ltac:(discriminate) E) in H. discriminate.
  - f_equal. destruct s as [|y s]; [reflexivity|]. apply IH. exact H.
Qed.

Lemma head_in_impl :
  forall (P Q : ascii -> bool) s,
    (forall x, P x = true -> Q x = true) ->
    head_in P s = true -> head_in Q s = true.
Proof. intros P Q [|x s] H; simpl; auto. Qed.

Lemma last_in_impl :
  forall (P Q : ascii -> bool) s,
    (forall x, P x = true -> Q x = true) ->
    last_in P s = true -> last_in Q s = true.
Proof.
  intros P Q s H. induction s as [|x s IH]; [reflexivity|].
  cbn [last_in]. destruct s as [|y s]; auto.
Qed.

Lemma remove_char_clean :
  forall c s, all_in (fun x => negb (Ascii.eqb x c)) (remove_char c s) = true.
Proof.
  intros c s. induction s as [|x s IH]; [reflexivity|].
  cbn [remove_char]. destruct (Ascii.eqb x c) eqn:E; [exact IH|].
  cbn [all_in]. rewrite E, IH. reflexivity.
Qed.

Lemma remove_char_id :
  forall c s, all_in (fun x => negb (Ascii.eqb x c)) s = true -> remove_char c s = s.
Proof.
  intros c s. induction s as [|x s IH]; intro H; [reflexivity|].
  cbn [all_in] in H. apply andb_true_iff in H. destruct H as [Hx Hs].
  apply negb_true_iff in Hx. cbn [remove_char]. rewrite Hx, (IH Hs). reflexivity.
Qed.

Lemma remove_char_head :
  forall P c s,
    P c = false -> head_in P s = true -> head_in P (remove_char c s) = true.
Proof.
  intros P c [|x s] Hc H; [reflexivity|].
  simpl in H. cbn [remove_char].
  destruct (Ascii.eqb x c) eqn:E.
  - apply Ascii.eqb_eq in E. subst x. congruence.
  - exact H.
Qed.

Lemma remove_char_nonempty :
  forall P c s,
    P c = false -> s <> "" -> last_in P s = true -> remove_char c s <> "".
Proof.
  intros P c s Hc. induction s as [|x s IH]; intros Hne H; [contradiction|].
  cbn [remove_char]. destruct (Ascii.eqb x c) eqn:E; [|discriminate].
  apply Ascii.eqb_eq in E. subst x.
  cbn [last_in] in H. destruct s as [|y s]; [congruence|].
  apply IH; [discriminate|exact H].
Qed.

Lemma remove_char_last :
  forall P c s,
    P c = false -> last_in P s = true -> last_in P (remove_char c s) = true.
Proof.
  intros P c s Hc. induction s as [|x s IH]; intro H; [reflexivity|].
  cbn [last_in] in H. cbn [remove_char].
  destruct s as [|y s].
  - destruct (Ascii.eqb x c) eqn:E; [reflexivity|]. exact H.
  - specialize (IH H).
    destruct (Ascii.eqb x c) eqn:E; [exact IH|].
    cbn [last_in].
    destruct (remove_char c (String y s)) as [|z r] eqn:Er; [|exact IH].
    exfalso. revert Er. apply (remove_char_nonempty P c); [exact Hc|discriminate|exact H].
Qed.

Lemma lstrip_space_id :
  forall s, head_in (fun x => negb (is_pyspace x)) s = true -> lstrip_space s = s.
Proof.
  intros [|x s] H; [reflexivity|]. simpl in H. apply negb_true_iff in H.
  cbn [lstrip_space]. rewrite H. reflexivity.
Qed.

Lemma rstrip_space_id :
  forall s, last_in (fun x => negb (is_pyspace x)) s = true -> rstrip_space s = s.
Proof.
  intros s. induction s as [|x s IH]; intro H; [reflexivity|].
  cbn [last_in] in H. cbn [rstrip_space]. destruct s as [|y s].
  - cbn [rstrip_space]. apply negb_true_iff in H. rewrite H. reflexivity.
  - rewrite (IH H). reflexivity.
Qed.

Lemma strip_tail_keeps_head :
  forall c P s,
    (forall x, P x = true -> c x = false) ->
    head_in P s = true -> head_in P (strip_tail c s) = true.
Proof.
  intros c P [|x s] HP H; [reflexivity|].
  simpl in H. cbn [strip_tail all_in]. rewrite (HP x H). exact H.
Qed.

Lemma xpath_start_is_xpath_char :
  forall x, is_xpath_start x = true -> is_xpath_char x = true.
Proof.
  intros x H. unfold is_xpath_start in H. unfold is_xpath_char.
  apply orb_true_iff in H. destruct H as [H|H].
  - rewrite H. reflexivity.
  - apply Ascii.eqb_eq in H. subst x. reflexivity.
Qed.

Lemma xpath_char_is_no_space :
  forall x, is_xpath_char x = true -> is_pyspace x = false.
Proof.
  intros [[] [] [] [] [] [] [] []]; vm_compute; intro H;
    first [reflexivity | discriminate H].
Qed.

Lemma xpath_char_is_no_backslash :
  forall x, is_xpath_char x = true -> Ascii.eqb x backslash = false.
Proof.
  intros [[] [] [] [] [] [] [] []]; vm_compute; intro H;
    first [reflexivity | discriminate H].
Qed.

(** X16. [_clean_xpath] returns a string that is empty or starts with a
    letter or a slash and ends with a character of the expression alphabet
    (letters, digits, slash, brackets, at-sign, equals, quotes, colon, dot,
    hyphen, underscore); it holds no backslash; and cleaning it again
    changes nothing. *)
Theorem clean_xpath_shape :
  forall xpath,
    head_in is_xpath_start (_clean_xpath xpath) = true
    /\ last_in is_xpath_char (_clean_xpath xpath) = true
    /\ all_in (fun c => negb (Ascii.eqb c backslash)) (_clean_xpath xpath) = true
    /\ _clean_xpath (_clean_xpath xpath) = _clean_xpath xpath.
Proof.
  assert (Hnl1 : negb (is_xpath_char (ascii_of_nat 10)) = true) by reflexivity.
  assert (Hbs_start : is_xpath_start backslash = false) by reflexivity.
  assert (Hbs_char : is_xpath_char backslash = false) by reflexivity.
  assert (Hshape : forall s,
            head_in is_xpath_start s = true ->
            last_in is_xpath_char s = true ->
            all_in (fun c => negb (Ascii.eqb c backslash)) s = true ->
            _clean_xpath s = s).
  { intros s Hh Hl Ha. unfold _clean_xpath, leading_junk_re, trailing_junk_re.
    cbv zeta. rewrite sub_at_start_many1.
    rewrite drop_while_id
      by (apply (head_in_impl is_xpath_start); [|exact Hh];
          intros x Hx; rewrite Hx; reflexivity).
    rewrite (sub_trailing _ s Hnl1).
    rewrite strip_tail_id
      by (apply (last_in_impl is_xpath_char); [|exact Hl];
          intros x Hx; rewrite Hx; reflexivity).
    rewrite (remove_char_id _ _ Ha).
    unfold strip.
    rewrite lstrip_space_id
      by (apply (head_in_impl is_xpath_start); [|exact Hh];
          intros x Hx; rewrite (xpath_char_is_no_space x); [reflexivity|];
          apply xpath_start_is_xpath_char; exact Hx).
    apply rstrip_space_id.
    apply (last_in_impl is_xpath_char); [|exact Hl].
    intros x Hx. rewrite (xpath_char_is_no_space x Hx). reflexivity. }
  intro xpath.
  set (a := strip_tail (fun c => negb (is_xpath_char c))
              (drop_while (fun c => negb (is_xpath_start c)) xpath)).
  assert (Hah : head_in is_xpath_start a = true).
  { unfold a. apply strip_tail_keeps_head.
    - intros x Hx. rewrite (xpath_start_is_xpath_char x Hx). reflexivity.
    - apply (head_in_impl (fun x => negb (negb (is_xpath_start x)))).
      + intros x Hx. rewrite negb_involutive in Hx. exact Hx.
      + apply drop_while_head. }
  assert (Hal : last_in is_xpath_char a = true).
  { unfold a. apply (last_in_impl (fun x => negb (negb (is_xpath_char x)))).
    - intros x Hx. rewrite negb_involutive in Hx. exact Hx.
    - apply strip_tail_last. }
  set (b := remove_char backslash a).
  assert (Hbh : head_in is_xpath_start b = true)
    by (apply remove_char_head; assumption).
  assert (Hbl : last_in is_xpath_char b = true)
    by (apply remove_char_last; assumption).
  assert (Hba : all_in (fun c => negb (Ascii.eqb c backslash)) b = true)
    by apply remove_char_clean.
  assert (E : _clean_xpath xpath = b).
  { unfold _clean_xpath, leading_junk_re, trailing_junk_re. cbv zeta.
    rewrite sub_at_start_many1, (sub_trailing _ _ Hnl1). fold a. fold b.
    unfold strip.
    rewrite lstrip_space_id
      by (apply (head_in_impl is_xpath_start); [|exact Hbh];
          intros x Hx; rewrite (xpath_char_is_no_space x); [reflexivity|];
          apply xpath_start_is_xpath_char; exact Hx).
    apply rstrip_space_id.
    apply (last_in_impl is_xpath_char); [|exact Hbl].
    intros x Hx. rewrite (xpath_char_is_no_space x Hx). reflexivity. }
  rewrite E. repeat split; try assumption.
  apply Hshape; assumption.
Qed.

(* ================================================================== *)
(** * Order of the groups *)
(* ================================================================== *)

Lemma dict_set_keys :
  forall (V : Type) (d : list (string * V)) k v,
    map fst (dict_set d k v) = add_key (map fst d) k.
Proof.
  intros V d k v. unfold add_key. induction d as [|[k' v'] d IH].
  - reflexivity.
  - cbn [dict_set map fst existsb]. rewrite (String.eqb_sym k k').
    destruct (String.eqb k' k) eqn:E.
    + apply String.eqb_eq in E. subst k'. reflexivity.
    + cbn [orb map fst]. rewrite IH.
      destruct (existsb (String.eqb k) (map fst d)); reflexivity.
Qed.

Lemma auto_group_loop_keys :
  forall entries groups ungrouped,
    map fst (fst (auto_group_loop entries groups ungrouped))
    = fold_left add_key (group_keys entries) (map fst groups).
Proof.
  induction entries as [|e es IH]; intros groups ungrouped; [reflexivity|].
  cbn [auto_group_loop group_keys flat_map]. unfold group_key at 1.
  destruct (Re.search template_root_re (xpath e)) as [m|].
  - rewrite IH, dict_set_keys. reflexivity.
  - rewrite IH. reflexivity.
Qed.

Lemma dict_get_in :
  forall (V : Type) (d : list (string * V)) kv,
    NoDup (map fst d) -> In kv d -> dict_get d (fst kv) = Some (snd kv).
Proof.
  intros V d kv. induction d as [|[k' v'] d IH]; intros Hn Hin; [contradiction|].
  inversion Hn as [|? ? Hx Hd]; subst. cbn [dict_get].
  destruct Hin as [<-|Hin].
  - cbn [fst snd]. rewrite String.eqb_refl. reflexivity.
  - destruct (String.eqb k' (fst kv)) eqn:E.
    + apply String.eqb_eq in E. subst k'. exfalso. apply Hx.
      apply in_map. exact Hin.
    + apply IH; assumption.
Qed.

Section GroupOrder.

Variable findall : Node -> string -> option (list Node).

(** X17 - Order of the groups: [auto_group_xpath_entries] lists the
    template identifiers in the order of their first appearance in the
    catalog, and [ungrouped] after them when some entry has no identifier
    (when an identifier is itself spelled [ungrouped], that key keeps the
    place of its first appearance); the grouped output keeps that order,
    it only leaves groups out. *)
Theorem groups_in_order_of_first_appearance :
  forall (self : Finder) (xml_file : Element) (entries : list Entry),
    map fst (auto_group_xpath_entries entries) = group_order entries
    /\ exists keep : string -> bool,
         map template_id
             (snd (find_elements_with_auto_grouping findall self xml_file entries))
         = map Some (filter keep (group_order entries)).
Proof.
  intros self xml_file entries.
  assert (Hk : map fst (auto_group_xpath_entries entries) = group_order entries).
  { unfold auto_group_xpath_entries, group_order.
    pose proof (auto_group_loop_keys entries [] []) as Hkeys.
    pose proof (auto_group_loop_spec entries [] []) as [Hu _].
    destruct (auto_group_loop entries [] []) as [groups ungrouped].
    cbn [fst snd map] in Hkeys, Hu. cbn [app] in Hu. rewrite <- Hu, <- Hkeys.
    destruct ungrouped; [reflexivity|]. apply dict_set_keys. }
  split; [exact Hk|].
  rewrite snd_auto_grouping, <- Hk.
  pose proof (auto_group_keys_nodup entries) as Hn.
  set (d := auto_group_xpath_entries entries) in *.
  exists (fun k => match dict_get d k with
                   | Some es =>
                       match instances (find_grouped_elements findall xml_file
                                          es (Some k)) with
                       | [] => false
                       | _ => true
                       end
                   | None => false
                   end).
  assert (G : forall l, incl l d ->
            map template_id
              (flat_map (fun kv =>
                  match instances (find_grouped_elements findall xml_file
                                     (snd kv) (Some (fst kv))) with
                  | [] => []
                  | _ => [find_grouped_elements findall xml_file
                            (snd kv) (Some (fst kv))]
                  end) l)
            = map Some
                (filter (fun k => match dict_get d k with
                   | Some es =>
                       match instances (find_grouped_elements findall xml_file
                                          es (Some k)) with
                       | [] => false
                       | _ => true
                       end
                   | None => false
                   end) (map fst l))).
  { induction l as [|kv l IH]; intro Hl; [reflexivity|].
    cbn [flat_map map filter].
    rewrite (dict_get_in _ d kv Hn (Hl kv (or_introl eq_refl))).
    rewrite map_app, IH by (intros x Hx; apply Hl; right; exact Hx).
    destruct (instances (find_grouped_elements findall xml_file (snd kv)
                           (Some (fst kv)))); reflexivity. }
  apply G. apply incl_refl.
Qed.

End GroupOrder.

(* ================================================================== *)
(** * Scope boundary: the filter and the field results *)
(* ================================================================== *)

(** the element part of an attribute lookup is never empty *)
Lemma relative_element_path_nonempty :
  forall x element_path attr_name,
    PyStr.rsplit1 "/@" (_convert_relative_xpath x) = [element_path; attr_name] ->
    PyStr.truthy element_path = true.
Proof.
  intros x element_path attr_name H.
  destruct (convert_relative_starts_with_dot x) as [s Hs].
  rewrite Hs in H. unfold PyStr.rsplit1 in H.
  assert (Hd : exists t rest, PyStr.split "/@" (String "." s) = String "." t :: rest).
  { unfold PyStr.split. cbn [PyStr.split_go].
    assert (Hp : String.prefix "/@" (String "." s) = false).
    { rewrite prefix_cons. reflexivity. }
    rewrite Hp. destruct (split_go_head "/@" s 0 ("" ++ ".")) as [t [rest Ht]].
    exists t, rest. rewrite Ht. reflexivity. }
  destruct Hd as [t [rest Hd]].
  destruct (rev (PyStr.split "/@" (String "." s))) as [|lst [|r rinit]] eqn:E;
    try discriminate.
  injection H as He Ha. rewrite <- He. clear He Ha.
  assert (Hr : PyStr.split "/@" (String "." s) = (rev (r :: rinit) ++ [lst])%list).
  { rewrite <- (rev_involutive (PyStr.split "/@" (String "." s))), E. reflexivity. }
  rewrite Hd in Hr.
  change (rev rinit ++ [r])%list with (rev (r :: rinit)).
  destruct (rev (r :: rinit)) as [|y ys] eqn:Ey.
  - apply (f_equal (@List.length string)) in Ey. rewrite length_rev in Ey.
    discriminate.
  - simpl in Hr. inversion Hr; subst. destruct ys; reflexivity.
Qed.


(** the results of a lookup without template predicate *)
Lemma within_instance_results :
  forall (findall : Node -> string -> option (list Node))
         (R : Node) (relative_xpath full_xpath : string),
    PyStr.truthy relative_xpath = true ->
    PyStr.contains "templateId[@root=" relative_xpath = false ->
    _find_within_template_instance findall R relative_xpath full_xpath
    = flat_map (results_of (snd (lookup_of relative_xpath)))
        (filter (fun N => negb (_is_nested_template_element N R))
                (candidates findall R relative_xpath)).
Proof.
  intros findall R relative_xpath full_xpath Ht Hc.
  unfold _find_within_template_instance, candidates, lookup_of.
  rewrite Ht, Hc. cbn [negb].
  destruct (PyStr.contains "/@" (_convert_relative_xpath relative_xpath)) eqn:Ha.
  - destruct (rsplit1_two_parts "/" "@" _ Ha) as [ep [an Hr]].
    rewrite Hr. cbn [fst snd].
    rewrite (relative_element_path_nonempty _ _ _ Hr).
    destruct (findall R ep); reflexivity.
  - cbn [fst snd].
    destruct (findall R (_convert_relative_xpath relative_xpath)) as [elements|];
      [|reflexivity].
    cbn [results_of].
    induction (filter (fun N => negb (_is_nested_template_element N R)) elements)
      as [|e l IH]; [reflexivity|].
    cbn [map flat_map app]. rewrite IH. reflexivity.
Qed.



(** The same sample, evaluated.  The engine returns both [code] elements
    for the attribute lookup; the one of the nested observation is
    rejected, and the field holds the code of the act alone.  With a
    template predicate in the relative path nothing is rejected: the
    participant inside the nested observation and the participant of the
    act, both marked themselves, are returned. *)
Example scope_boundary_on_nested_act :
  let R := mkNode [] Samples.nested_act in
  let codeA := mkNode [1] (Samples.code "A") in
  let codeB := mkNode [2; 0; 1] (Samples.code "B") in
  lookup_of "code/@code" = (".//cda:code", Some "code")
  /\ candidates ElementPath.findall R "code/@code" = [codeA; codeB]
  /\ _is_nested_template_element codeA R = false
  /\ _is_nested_template_element codeB R = true
  /\ _find_within_template_instance ElementPath.findall R "code/@code"
       "act[templateId[@root='X1']]/code/@code"
     = [attr_result codeA "code" "A"]
  /\ map attribute_value
         (_find_within_template_instance ElementPath.findall R
            "participant[templateId[@root='P1']]/@typeCode"
            "act[templateId[@root='X1']]/participant[templateId[@root='P1']]/@typeCode")
     = [Some "SBJ"; Some "IND"].
Proof. repeat split. Qed.

(* ================================================================== *)
(** * The grouped scenario *)
(* ================================================================== *)

(** the library on the descendant path of the scenario *)
Lemma engine_descendant_code :
  forall n : Node,
    ElementPath.findall n ".//cda:code" = Some (findall_desc n (cda "code")).
Proof.
  intro n.
  change (ElementPath.findall n ".//cda:code")
    with (ElementPath.run n [ElementPath.Self; ElementPath.Descendant (cda "code")] [n]).
  cbn [ElementPath.run ElementPath.select].
  change (ElementPath._is_wildcard_tag (cda "code")) with false. cbv iota.
  change (ElementPath.plain_tag (cda "code")) with (cda "code").
  cbn [flat_map]. rewrite app_nil_r. reflexivity.
Qed.

(** the code field of an occurrence that has a direct [code] child *)
Lemma code_field_of_occurrence :
  forall (findall : Node -> string -> option (list Node))
         (o : Node) (i : nat) (v : string) (entry : Entry),
    (forall n, findall n ".//cda:code" = Some (findall_desc n (cda "code"))) ->
    xpath entry = xpath Samples.code_entry ->
    nth_error (children (node_elem o)) i = Some (Samples.code v) ->
    let N := mkNode (node_path o ++ [i]) (Samples.code v) in
    let rs := flat_map (attr_results "code")
                (filter (fun c => negb (_is_nested_template_element c o))
                        (findall_desc o (cda "code"))) in
    instance_fields findall o [entry] [] = [("code/code", rs)]
    /\ In (attr_result N "code" v) rs
    /\ (findall_desc o (cda "code") = [N] -> rs = [attr_result N "code" v]).
Proof.
  intros findall o i v entry Heng Hx Hc N rs.
  assert (Hat : node_at (node_elem o) [i] = Some (Samples.code v)).
  { cbn [node_at]. rewrite Hc. reflexivity. }
  assert (Hnest : _is_nested_template_element N o = false).
  { unfold N. rewrite (nested_iff_marker_on_chain o [i] (Samples.code v) Hat).
    cbn [chain_below]. rewrite Hc. reflexivity. }
  assert (Hin : In N (findall_desc o (cda "code"))).
  { unfold findall_desc. apply filter_In. split; [|reflexivity].
    unfold iter. rewrite iter_elem_eq. cbn [tl]. apply in_iter_list.
    exists i, (Samples.code v), []. repeat split; auto. }
  assert (Hres : attr_results "code" N = [attr_result N "code" v]).
  { unfold attr_results, N. cbn [node_elem Samples.code attrib ET.get].
    rewrite String.eqb_refl. reflexivity. }
  assert (Hrs : In (attr_result N "code" v) rs).
  { unfold rs. apply in_flat_map. exists N. split.
    - apply filter_In. split; [exact Hin|]. rewrite Hnest. reflexivity.
    - rewrite Hres. left. reflexivity. }
  split; [|split; [exact Hrs|]].
  - cbn [instance_fields]. rewrite Hx.
    change (_get_relative_xpath (xpath Samples.code_entry)) with "code/@code".
    change (_extract_field_name (xpath Samples.code_entry)) with "code/code".
    assert (Hform : _find_within_template_instance findall o "code/@code"
                      (xpath Samples.code_entry) = rs).
    { rewrite (within_instance_results findall o "code/@code" _ eq_refl eq_refl).
      unfold candidates.
      change (lookup_of "code/@code") with (".//cda:code", Some "code").
      cbn [fst snd]. rewrite Heng. reflexivity. }
    rewrite Hform.
    destruct rs as [|r rs']; [contradiction|]. reflexivity.
  - intro Hone. unfold rs. rewrite Hone. cbn [filter]. rewrite Hnest.
    cbn [negb flat_map]. rewrite Hres. reflexivity.
Qed.

(** C2 - End-to-end grouped scenario, for every document in which exactly
    two elements carry the template-identifier marker [X1], the first (in
    document order) with a direct child [code] coded [A] and the second
    with one coded [B], all in the document namespace; the engine is any
    engine that answers the descendant path of [code] as the library does.
    The catalog expression [observation[templateId[@root='X1']]/code/@code]
    in grouped mode yields one group with [instance_count] 2; its instances
    have the ordinals 1 and 2 and the single field [code/code] each, whose
    results are the [code] attributes of all the [code] descendants of the
    occurrence outside nested templates, in document order: the value [A]
    (or [B]) is among them, and it is the only one when the occurrence has
    no other [code] descendant. *)
Theorem grouped_scenario :
  forall (findall : Node -> string -> option (list Node))
         (self : Finder) (doc : Element) (o1 o2 : Node) (k1 k2 : nat),
    (forall n, findall n ".//cda:code" = Some (findall_desc n (cda "code"))) ->
    _find_template_instances (mkNode [] doc) "X1" = [o1; o2] ->
    nth_error (children (node_elem o1)) k1 = Some (Samples.code "A") ->
    nth_error (children (node_elem o2)) k2 = Some (Samples.code "B") ->
    let N1 := mkNode (node_path o1 ++ [k1]) (Samples.code "A") in
    let N2 := mkNode (node_path o2 ++ [k2]) (Samples.code "B") in
    exists g i1 i2 rs1 rs2,
      snd (find_elements_with_auto_grouping findall self doc [Samples.code_entry])
      = [g]
      /\ template_id g = Some "X1"
      /\ instance_count g = 2
      /\ instances g = [i1; i2]
      /\ instance_number i1 = 1 /\ instance_number i2 = 2
      /\ fields i1 = [("code/code", rs1)] /\ fields i2 = [("code/code", rs2)]
      /\ rs1 = flat_map (attr_results "code")
                 (filter (fun c => negb (_is_nested_template_element c o1))
                         (findall_desc o1 (cda "code")))
      /\ rs2 = flat_map (attr_results "code")
                 (filter (fun c => negb (_is_nested_template_element c o2))
                         (findall_desc o2 (cda "code")))
      /\ In (attr_result N1 "code" "A") rs1
      /\ In (attr_result N2 "code" "B") rs2
      /\ (findall_desc o1 (cda "code") = [N1] -> map attribute_value rs1 = [Some "A"])
      /\ (findall_desc o2 (cda "code") = [N2] -> map attribute_value rs2 = [Some "B"]).
Proof.
  intros findall self doc o1 o2 k1 k2 Heng Hloc Hc1 Hc2 N1 N2.
  set (entry := enhanced Samples.code_entry).
  destruct (code_field_of_occurrence findall o1 k1 "A" entry Heng eq_refl Hc1)
    as [Hf1 [Hin1 Hone1]].
  destruct (code_field_of_occurrence findall o2 k2 "B" entry Heng eq_refl Hc2)
    as [Hf2 [Hin2 Hone2]].
  rewrite snd_auto_grouping.
  change (auto_group_xpath_entries [Samples.code_entry]) with [("X1", [entry])].
  cbn [flat_map fst snd].
  assert (Hg : instances (find_grouped_elements findall doc [entry] (Some "X1"))
               = [mkInstance 1 (Some "X1")
                    (instance_fields findall o1 [entry] []) (map xpath [entry]);
                  mkInstance 2 (Some "X1")
                    (instance_fields findall o2 [entry] []) (map xpath [entry])]).
  { unfold find_grouped_elements. cbn [instances].
    change (template_elements_of (mkNode [] doc) (Some "X1"))
      with (_find_template_instances (mkNode [] doc) "X1").
    rewrite Hloc.
    change (enumerate [o1; o2]) with [(0, o1); (1, o2)].
    cbn [flat_map fst snd]. rewrite !instance_of_eq, Hf1, Hf2. reflexivity. }
  rewrite Hg. rewrite app_nil_r.
  eexists. eexists. eexists. eexists. eexists.
  split; [reflexivity|].
  split; [reflexivity|].
  split.
  { unfold find_grouped_elements. cbn [instance_count].
    change (template_elements_of (mkNode [] doc) (Some "X1"))
      with (_find_template_instances (mkNode [] doc) "X1").
    rewrite Hloc.
    change (enumerate [o1; o2]) with [(0, o1); (1, o2)].
    cbn [flat_map fst snd]. rewrite !instance_of_eq, Hf1, Hf2. reflexivity. }
  split; [exact Hg|].
  split; [reflexivity|]. split; [reflexivity|].
  split; [cbn [fields]; exact Hf1|]. split; [cbn [fields]; exact Hf2|].
  split; [reflexivity|]. split; [reflexivity|].
  split; [exact Hin1|]. split; [exact Hin2|].
  split.
  - intro H. rewrite (Hone1 H). reflexivity.
  - intro H. rewrite (Hone2 H). reflexivity.
Qed.

(** The sample of C2: the document with exactly the two observations. *)
Lemma grouped_scenario_witness :
  let doc := Samples.two_observations in
  let o1 := mkNode [0] (Samples.observation "A") in
  let o2 := mkNode [1] (Samples.observation "B") in
  ((forall n, ElementPath.findall n ".//cda:code"
              = Some (findall_desc n (cda "code")))
   /\ _find_template_instances (mkNode [] doc) "X1" = [o1; o2]
   /\ nth_error (children (node_elem o1)) 1 = Some (Samples.code "A")
   /\ nth_error (children (node_elem o2)) 1 = Some (Samples.code "B"))
  /\ exists g i1 i2 rs1 rs2,
       snd (find_elements_with_auto_grouping ElementPath.findall new_finder doc
              [Samples.code_entry]) = [g]
       /\ template_id g = Some "X1"
       /\ instance_count g = 2
       /\ instances g = [i1; i2]
       /\ instance_number i1 = 1 /\ instance_number i2 = 2
       /\ fields i1 = [("code/code", rs1)] /\ fields i2 = [("code/code", rs2)]
       /\ rs1 = flat_map (attr_results "code")
                  (filter (fun c => negb (_is_nested_template_element c o1))
                          (findall_desc o1 (cda "code")))
       /\ rs2 = flat_map (attr_results "code")
                  (filter (fun c => negb (_is_nested_template_element c o2))
                          (findall_desc o2 (cda "code")))
       /\ In (attr_result (mkNode ([0] ++ [1]) (Samples.code "A")) "code" "A") rs1
       /\ In (attr_result (mkNode ([1] ++ [1]) (Samples.code "B")) "code" "B") rs2
       /\ (findall_desc o1 (cda "code") = [mkNode ([0] ++ [1]) (Samples.code "A")]
           -> map attribute_value rs1 = [Some "A"])
       /\ (findall_desc o2 (cda "code") = [mkNode ([1] ++ [1]) (Samples.code "B")]
           -> map attribute_value rs2 = [Some "B"]).
Proof.
  split.
  - split; [exact engine_descendant_code|]. repeat split.
  - exact (grouped_scenario ElementPath.findall new_finder Samples.two_observations
             (mkNode [0] (Samples.observation "A"))
             (mkNode [1] (Samples.observation "B")) 1 1
             engine_descendant_code eq_refl eq_refl eq_refl).
Defined.

(** Two documents that contain exactly two observations with the marker
    [X1] and the [code] children of the scenario.  In the first, a further
    [code] below the first observation joins the field: its values are [A]
    and [Z].  In the second, an act carries the same marker: the group has
    three instances. *)
Lemma grouped_scenario_needs_side_conditions :
  map (fun g =>
         (instance_count g,
          map (fun i => map (fun kv => (fst kv, map attribute_value (snd kv)))
                            (fields i))
              (instances g)))
      (snd (find_elements_with_auto_grouping ElementPath.findall new_finder
              Samples.extra_code [Samples.code_entry]))
  = [(2, [[("code/code", [Some "A"; Some "Z"])];
          [("code/code", [Some "B"])]])]
  /\ map instance_count
         (snd (find_elements_with_auto_grouping ElementPath.findall new_finder
                 Samples.marked_act [Samples.code_entry]))
     = [3].
Proof. split; reflexivity. Qed.

(* ================================================================== *)
(** * The evaluations use paths without predicate *)
(* ================================================================== *)

(** The concrete evaluations of this development hand only paths without
    predicate to the engine: each of them gives the same result with every
    engine that agrees with [ElementPath.findall] on those paths, whatever
    it answers on a path with a predicate. *)
Lemma evaluations_use_no_predicate :
  forall other : Node -> string -> option (list Node),
    let engine := ElementPath.with_predicates other in
    let titled := fun x => mkEntry x [] None in
    let self1 :=
      fst (_convert_xpath_for_et new_finder
             "act/observation[templateId[@root='X1']]/code/@code") in
    let converted :=
      snd (_convert_xpath_for_et new_finder
             "act/observation[templateId[@root='X1']]/code/@code") in
    Forall (fun x =>
              find_elements engine new_finder Samples.titled [titled x]
              = find_elements ElementPath.findall new_finder Samples.titled
                              [titled x])
           ["nothing/here"; "ClinicalDocument/title"; "hl7"]
    /\ Forall (fun s =>
                 _find_elements_by_xpath engine s
                   (mkNode [] Samples.two_observations) converted
                 = _find_elements_by_xpath ElementPath.findall s
                     (mkNode [] Samples.two_observations) converted)
              [self1; fst (_convert_xpath_for_et self1 "title")]
    /\ Forall (fun doc =>
                 find_elements_with_auto_grouping engine new_finder doc
                   [Samples.code_entry]
                 = find_elements_with_auto_grouping ElementPath.findall
                     new_finder doc [Samples.code_entry])
              [Samples.two_observations; Samples.extra_code;
               Samples.marked_act; Samples.first_without_code]
    /\ find_grouped_elements engine Samples.first_without_code
         [Samples.code_entry;
          mkEntry "observation[templateId[@root='X1']]" [] None] (Some "X1")
       = find_grouped_elements ElementPath.findall Samples.first_without_code
           [Samples.code_entry;
            mkEntry "observation[templateId[@root='X1']]" [] None] (Some "X1")
    /\ Forall (fun Rx =>
                 _find_within_template_instance engine (mkNode [] (fst Rx))
                   (snd Rx) ""
                 = _find_within_template_instance ElementPath.findall
                     (mkNode [] (fst Rx)) (snd Rx) "")
              [(Samples.nested_same_id, "code/@code");
               (Samples.nested_act, "code/@code");
               (Samples.nested_act,
                "participant[templateId[@root='P1']]/@typeCode")].
Proof.
  intro other. cbv zeta.
  repeat (first [apply Forall_cons | apply Forall_nil | split]); reflexivity.
Qed.
